(** * AI image editor: session state, remote client, export and upload checks

    A shallow embedding of the TypeScript sources

      - [src/lib/imageUtils.ts]: module [ImageUtils];
      - [src/lib/aiService.ts]: module [AIService];
      - [src/components/ImageUploader.tsx], which holds three components:
        the uploader (module [ImageUploader]), the editor that owns the
        session (module [ImageEditor]) and the export panel (module
        [ExportPanel]);
      - the tools sidebar (module [AIToolsSidebar]) and the API route
        [POST /image-edit] (module [ImageEditRoute]).

    A JavaScript string is held as its UTF-8 encoding, a Rocq [string] of
    bytes.  The code compares, searches and cuts strings only at ASCII
    characters, which are single bytes and occur nowhere inside the
    encoding of another character; the white space of [trim] and of the
    class [\s] is recognised in its encoded form, one to three bytes
    long.  Numbers that the code only uses as integers are [Z], and every
    browser primitive the code calls (fetch, FileReader,
    URL.createObjectURL, the canvas, atob, the clock) is an oracle of an
    environment record.  Event handlers are
    programs of a small state-and-exception monad whose state is the React
    state of the component, with a trace of the observable effects. *)

From Stdlib Require Import String Ascii ZArith List Lia Bool QArith DecimalString.
Import ListNotations.
Open Scope string_scope.
Open Scope Z_scope.

(** ** JavaScript string primitives *)

Module JS.

(** [`${v}`] for a value that may be [undefined]. *)
Definition template (v : option string) : string :=
  match v with
  | Some s => s
  | None => "undefined"
  end.

(** The decimal digits of an integer, with its sign: [`${n}`] for a
    number that is an integer of at most 2^53 in magnitude. *)
Definition string_of_Z (n : Z) : string := NilZero.string_of_int (Z.to_int n).

(** *** Numbers read from JSON

    [JSON.parse] turns the digits of an integer into the nearest double,
    and a template literal prints a double with the fewest digits that
    read back as the same double, in exponent form from 10^21 on. *)

(** The double nearest to the integer [0 <= n] (ties to the even
    mantissa), as the integer it stands for; [None] past the largest
    double ([Infinity]). *)
Definition nearest_double (n : Z) : option Z :=
  let e := Z.log2 n - 52 in
  if e <=? 0 then Some n
  else
    let q := Z.shiftr n e in
    let r := n - Z.shiftl q e in
    let half := Z.shiftl 1 (e - 1) in
    let q' := if (half <? r) || ((r =? half) && Z.odd q) then q + 1 else q in
    if 2 ^ 1024 <=? Z.shiftl q' e then None else Some (Z.shiftl q' e).

(** The integer [c] reads back as the double [x], for [2^53 < x]: [c]
    lies within half the distance to the next double on either side, the
    ends included when the mantissa of [x] is even. *)
Definition reads_back (x c : Z) : bool :=
  let e := Z.log2 x - 52 in
  let m := Z.shiftr x e in
  let up := Z.shiftl 1 (e - 1) in
  let down := if m =? 2 ^ 52 then Z.shiftl 1 (e - 2) else up in
  if Z.even m then (x - down <=? c) && (c <=? x + up)
  else (x - down <? c) && (c <? x + up).

(** The multiple of [10^p] next below [x]. *)
Definition below (x p : Z) : Z := x / 10 ^ p * 10 ^ p.

(** Some multiple of [10^p] reads back as [x]. *)
Definition rounds_at (x p : Z) : bool :=
  reads_back x (below x p) || reads_back x (below x p + 10 ^ p).

(** The largest such [p] from [p] on; a double has fewer than 400
    digits. *)
Fixpoint coarsest (fuel : nat) (x p : Z) : Z :=
  match fuel with
  | O => p
  | S fuel' => if rounds_at x (p + 1) then coarsest fuel' x (p + 1) else p
  end.

(** The digits [s] and the exponent [p] of the shortest decimal
    [s * 10^p] that reads back as [x]: of the two candidates the nearer
    one, and the even one when they are as near. *)
Definition shortest (x : Z) : Z * Z :=
  let p := coarsest 400 x 0 in
  let c1 := below x p in
  let c2 := c1 + 10 ^ p in
  let c :=
    if reads_back x c1 && reads_back x c2 then
      if x - c1 <? c2 - x then c1
      else if c2 - x <? x - c1 then c2
      else if Z.even (c1 / 10 ^ p) then c1 else c2
    else if reads_back x c1 then c1 else c2 in
  (c / 10 ^ p, p).

Fixpoint zeros (n : nat) : string :=
  match n with
  | O => EmptyString
  | S n' => String "0" (zeros n')
  end.

(** [Number.prototype.toString] of a double that is an integer
    [0 <= x]: all the digits up to 2^53, the shortest digits filled with
    zeros below 10^21, and [d.ddde+n] from there on. *)
Definition double_text (x : Z) : string :=
  if x <=? 2 ^ 53 then string_of_Z x
  else
    let (s, p) := shortest x in
    let digits := string_of_Z s in
    let n := Z.of_nat (String.length digits) + p in
    if n <=? 21 then digits ++ zeros (Z.to_nat p)
    else
      match digits with
      | EmptyString => EmptyString
      | String d EmptyString => String d EmptyString ++ "e+" ++ string_of_Z (n - 1)
      | String d rest => String d EmptyString ++ "." ++ rest ++ "e+" ++ string_of_Z (n - 1)
      end.

(** [`${n}`] for an integer read from JSON. *)
Definition number_text (n : Z) : string :=
  match nearest_double (Z.abs n) with
  | None => if n <? 0 then "-Infinity" else "Infinity"
  | Some x => (if n <? 0 then "-" else "") ++ double_text x
  end.

(** Truthiness of a string: only [''] is falsy. *)
Definition truthy (s : string) : bool :=
  match s with
  | EmptyString => false
  | String _ _ => true
  end.

(** [a || b] on strings. *)
Definition or_else (a b : string) : string := if truthy a then a else b.

(** [a || b] where [a] may be [undefined]. *)
Definition opt_or_else (a : option string) (b : string) : string :=
  match a with
  | Some s => or_else s b
  | None => b
  end.

(** Truthiness of a string that may be [undefined]. *)
Definition opt_truthy (v : option string) : bool :=
  match v with
  | Some s => truthy s
  | None => false
  end.

(** [s.startsWith(p)]. *)
Definition startsWith (s p : string) : bool := String.prefix p s.

(** [s.includes(c)] for a one-character needle. *)
Fixpoint includes_char (s : string) (c : ascii) : bool :=
  match s with
  | EmptyString => false
  | String d s' => if Ascii.eqb d c then true else includes_char s' c
  end.

(** [s.split(c)] for a one-character separator: always at least one piece. *)
Fixpoint split_char (s : string) (c : ascii) : list string :=
  match s with
  | EmptyString => [EmptyString]
  | String d s' =>
      if Ascii.eqb d c then EmptyString :: split_char s' c
      else match split_char s' c with
           | [] => [String d EmptyString]
           | p :: ps => String d p :: ps
           end
  end.

(** [s.replace(c, r)] with a one-character string pattern: only the first
    occurrence is replaced. *)
Fixpoint replace_first (s : string) (c : ascii) (r : string) : string :=
  match s with
  | EmptyString => EmptyString
  | String d s' => if Ascii.eqb d c then r ++ s' else String d (replace_first s' c r)
  end.

(** [s.replace(/c/g, r)] for a one-character class: every occurrence. *)
Fixpoint replace_all (s : string) (c : ascii) (r : string) : string :=
  match s with
  | EmptyString => EmptyString
  | String d s' =>
      if Ascii.eqb d c then r ++ replace_all s' c r else String d (replace_all s' c r)
  end.

(** [s.slice(0, n)] for [0 <= n]. *)
Fixpoint take (n : nat) (s : string) : string :=
  match n, s with
  | O, _ => EmptyString
  | S _, EmptyString => EmptyString
  | S n', String c s' => String c (take n' s')
  end.

(** The white space of [trim] and of the class [\s] (ECMAScript's
    WhiteSpace and LineTerminator), as encoded in UTF-8.

    One byte: TAB, LF, VT, FF, CR (9 to 13) and SPACE (32). *)
Definition space1 (a : ascii) : bool :=
  let n := nat_of_ascii a in
  ((9 <=? n) && (n <=? 13))%nat || (n =? 32)%nat.

(** Two bytes: U+00A0, the no-break space (C2 A0). *)
Definition space2 (a b : ascii) : bool :=
  ((nat_of_ascii a =? 194) && (nat_of_ascii b =? 160))%nat.

(** Three bytes: U+1680 (E1 9A 80); U+2000 to U+200A (E2 80 80 to
    E2 80 8A); U+2028 and U+2029 (E2 80 A8, E2 80 A9); U+202F (E2 80 AF);
    U+205F (E2 81 9F); U+3000 (E3 80 80); U+FEFF (EF BB BF). *)
Definition space3 (a b c : ascii) : bool :=
  let x := nat_of_ascii a in
  let y := nat_of_ascii b in
  let z := nat_of_ascii c in
  (((x =? 225) && (y =? 154) && (z =? 128))
   || ((x =? 226) && (y =? 128)
       && (((128 <=? z) && (z <=? 138)) || (z =? 168) || (z =? 169) || (z =? 175)))
   || ((x =? 226) && (y =? 129) && (z =? 159))
   || ((x =? 227) && (y =? 128) && (z =? 128))
   || ((x =? 239) && (y =? 187) && (z =? 191)))%nat.

(** A white-space character starts the string. *)
Definition white_space_at (s : string) : bool :=
  match s with
  | EmptyString => false
  | String a s1 =>
      space1 a
      || match s1 with
         | EmptyString => false
         | String b s2 =>
             space2 a b
             || match s2 with
                | EmptyString => false
                | String c _ => space3 a b c
                end
         end
  end.

(** [s.trimStart()]: the leading white-space characters are dropped, each
    with all its bytes. *)
Fixpoint trimStart (s : string) : string :=
  match s with
  | EmptyString => EmptyString
  | String a s1 =>
      if space1 a then trimStart s1
      else match s1 with
           | EmptyString => s
           | String b s2 =>
               if space2 a b then trimStart s2
               else match s2 with
                    | EmptyString => s
                    | String c s3 => if space3 a b c then trimStart s3 else s
                    end
           end
  end.

(** The string is white space throughout. *)
Definition blank (s : string) : bool :=
  match trimStart s with
  | EmptyString => true
  | String _ _ => false
  end.

(** [s.trimEnd()]: what is white space from some position to the end is
    dropped. *)
Fixpoint trimEnd (s : string) : string :=
  match s with
  | EmptyString => EmptyString
  | String c s' => if blank s then EmptyString else String c (trimEnd s')
  end.

(** [s.trim()]. *)
Definition trim (s : string) : string := trimEnd (trimStart s).

(** ASCII lower-casing, for the [i] flag of a regular expression. *)
Definition lower (c : ascii) : ascii :=
  let n := nat_of_ascii c in
  if ((65 <=? n) && (n <=? 90))%nat then ascii_of_nat (n + 32) else c.

(** [s] starts with [p], ignoring ASCII case; the rest of [s] is returned
    together with the characters of [s] that were matched. *)
Fixpoint strip_prefix_ci (p s : string) : option (string * string) :=
  match p, s with
  | EmptyString, _ => Some (EmptyString, s)
  | String _ _, EmptyString => None
  | String a p', String b s' =>
      if Ascii.eqb (lower a) (lower b) then
        match strip_prefix_ci p' s' with
        | Some (m, rest) => Some (String b m, rest)
        | None => None
        end
      else None
  end.

(** [arr[i]] on a JavaScript array: [undefined] out of range. *)
Definition index {A} (l : list A) (i : Z) : option A :=
  if i <? 0 then None else nth_error l (Z.to_nat i).

(** [arr.slice(start, end)]: negative positions count from the end, and
    both are clamped to the array. *)
Definition slice {A} (l : list A) (start stop : Z) : list A :=
  let len := Z.of_nat (length l) in
  let clamp k := if k <? 0 then Z.max (len + k) 0 else Z.min k len in
  let from := clamp start in
  let to := clamp stop in
  firstn (Z.to_nat (to - from)) (skipn (Z.to_nat from) l).

End JS.

(** ** [src/lib/imageUtils.ts] *)

Module ImageUtils.

(** A browser [File].  [dataURL] is what [FileReader.readAsDataURL]
    delivers for the file's bytes ([None]: the reader fires [onerror]). *)
Record File := {
  name : string;
  type : string;
  size : Z;
  dataURL : option string
}.

(** The result of [validateImageFile]: [{ valid: boolean; error?: string }]. *)
Record Validation := {
  valid : bool;
  error : option string
}.

Definition maxSize : Z := 10 * 1024 * 1024.

Definition allowedTypes : list string :=
  ["image/jpeg"; "image/jpg"; "image/png"; "image/webp"; "image/gif"].

(** [allowedTypes.includes(t)]. *)
Definition includes (l : list string) (t : string) : bool :=
  existsb (String.eqb t) l.

Definition validateImageFile (file : File) : Validation :=
  if negb (includes allowedTypes (type file)) then
    {| valid := false;
       error := Some "Please upload a valid image file (JPEG, PNG, WebP, or GIF)" |}
  else if size file >? maxSize then
    {| valid := false;
       error := Some "Image size must be less than 10MB" |}
  else
    {| valid := true; error := None |}.

(** [fileToBase64]: the promise rejects ([None]) when the reader fails,
    and otherwise resolves with [result.split(',')[1]], which is
    [undefined] ([Some None]) when the data URL holds no comma. *)
Definition fileToBase64 (file : File) : option (option string) :=
  match dataURL file with
  | None => None
  | Some result => Some (nth_error (JS.split_char result ",") 1)
  end.

End ImageUtils.

(** ** The browser: values, exceptions, effects *)

Module Browser.

(** What a [throw] or a rejected promise carries: an [Error] object with
    its [message], or a value that is not an [Error] (a FileReader
    [ProgressEvent], for instance). *)
Inductive Thrown :=
| ErrorObj (message : string)
| NonError.

(** Parsed JSON.  A number is the integer its JSON text writes (numbers
    with a fraction are not among the values); [JObj] lists the own
    properties of the object, first binding first. *)
#[warnings="-register-all"] Inductive JsValue :=
| JUndefined
| JNull
| JBool (b : bool)
| JNum (n : Z)
| JStr (s : string)
| JArr (items : list JsValue)
| JObj (fields : list (string * JsValue)).

Definition truthy (v : JsValue) : bool :=
  match v with
  | JUndefined | JNull => false
  | JBool b => b
  | JNum n => negb (n =? 0)
  | JStr s => JS.truthy s
  | JArr _ | JObj _ => true
  end.

Fixpoint lookup (key : string) (fields : list (string * JsValue)) : JsValue :=
  match fields with
  | [] => JUndefined
  | (k, v) :: rest => if String.eqb k key then v else lookup key rest
  end.

Definition describe (v : JsValue) : string :=
  match v with
  | JNull => "null"
  | _ => "undefined"
  end.

(** [v.key] for one of the property names the code reads ([choices],
    [message], [content]): a [TypeError] on [null] and [undefined] (the
    message is the engine's; V8's wording is used), the own property of an
    object, and [undefined] on everything else. *)
Definition get (v : JsValue) (key : string) : Thrown + JsValue :=
  match v with
  | JUndefined | JNull =>
      inl (ErrorObj ("Cannot read properties of " ++ describe v
                     ++ " (reading '" ++ key ++ "')"))
  | JObj fields => inr (lookup key fields)
  | _ => inr JUndefined
  end.

(** [v[0]]: the first element of an array, the first character of a
    string, the property ["0"] of an object. *)
Definition get0 (v : JsValue) : Thrown + JsValue :=
  match v with
  | JUndefined | JNull =>
      inl (ErrorObj ("Cannot read properties of " ++ describe v ++ " (reading '0')"))
  | JArr items => inr (match items with [] => JUndefined | x :: _ => x end)
  | JStr s => inr (match s with
                   | EmptyString => JUndefined
                   | String c _ => JStr (String c EmptyString)
                   end)
  | JObj fields => inr (lookup "0" fields)
  | _ => inr JUndefined
  end.

(** [v?.key] and [v?.[0]]: [undefined] instead of a [TypeError]. *)
Definition get_opt (v : JsValue) (key : string) : JsValue :=
  match get v key with
  | inl _ => JUndefined
  | inr x => x
  end.

Definition get0_opt (v : JsValue) : JsValue :=
  match get0 v with
  | inl _ => JUndefined
  | inr x => x
  end.

(** A [fetch] response.  [ok] is the Fetch standard's: the status is in
    the range 200 to 299.  [body] is what [response.json()] settles to. *)
Record Response := {
  status : Z;
  statusText : string;
  body : Thrown + JsValue
}.

Definition ok (r : Response) : bool := (200 <=? status r) && (status r <=? 299).

(** [fetch] rejects (network failure) or resolves with a response. *)
Definition FetchOutcome : Type := Thrown + Response.

(** The observable effects of a handler, in the order they happen. *)
Inductive Event :=
| EAlert (message : string)
| EConsoleLog (label : string)
| EConsoleError (label : string)
| EFetch (endpoint method : string) (headers : list (string * string)) (payload : JsValue)
| ESetTimeout (delay : Z)
| EAnchorDownload (contentType : string) (bytes : string) (download : string)
| EFillRect (fillStyle : string) (width height : Z)
| EDrawImage (src : string)
| EToBlob (mime : string) (quality : option Q)
| ESaveAs (blob : string) (fileName : string).

(** The world a handler runs in: the React state of its component, the
    clock behind [Date.now()], and the effects so far (latest last). *)
Record World (S : Type) := {
  st : S;
  clock : Z;
  trace : list Event
}.
Arguments st {S} _.
Arguments clock {S} _.
Arguments trace {S} _.

(** How an awaited computation ends: with a value, with an exception, or
    not at all ([Pending]: a promise that is neither resolved nor rejected,
    so that no code after the [await], no [catch] and no [finally] runs). *)
Inductive Result (A : Type) :=
| Ok (a : A)
| Throw (t : Thrown)
| Pending.
Arguments Ok {A} _.
Arguments Throw {A} _.
Arguments Pending {A}.

(** Handlers: state passing with exceptions.  The state survives a throw,
    as queued React updates and performed effects do. *)
Definition M (S A : Type) : Type := World S -> Result A * World S.

Definition ret {S A} (a : A) : M S A := fun w => (Ok a, w).

Definition bind {S A B} (m : M S A) (k : A -> M S B) : M S B :=
  fun w =>
    match m w with
    | (Ok a, w') => k a w'
    | (Throw t, w') => (Throw t, w')
    | (Pending, w') => (Pending, w')
    end.

Definition throw {S A} (t : Thrown) : M S A := fun w => (Throw t, w).

(** A promise that never settles. *)
Definition pending {S A} : M S A := fun w => (Pending, w).

(** [try { body } catch (e) { handler }]. *)
Definition try_catch {S A} (body : M S A) (handler : Thrown -> M S A) : M S A :=
  fun w =>
    match body w with
    | (Ok a, w') => (Ok a, w')
    | (Throw t, w') => handler t w'
    | (Pending, w') => (Pending, w')
    end.

(** [try { body } finally { fin }]. *)
Definition finally {S A} (body : M S A) (fin : M S unit) : M S A :=
  fun w =>
    match body w with
    | (Pending, w') => (Pending, w')
    | (r, w') =>
        match fin w' with
        | (Ok _, w'') => (r, w'')
        | (Throw t, w'') => (Throw t, w'')
        | (Pending, w'') => (Pending, w'')
        end
    end.

(** A value or an exception, lifted. *)
Definition lift {S A} (r : Thrown + A) : M S A :=
  match r with
  | inl t => throw t
  | inr a => ret a
  end.

(** A React state setter. *)
Definition update {S} (f : S -> S) : M S unit :=
  fun w => (Ok tt, {| st := f (st w); clock := clock w; trace := trace w |}).

Definition emit {S} (e : Event) : M S unit :=
  fun w => (Ok tt, {| st := st w; clock := clock w; trace := trace w ++ [e] |}).

(** [Date.now()]. *)
Definition date_now {S} : M S Z := fun w => (Ok (clock w), w).

(** Time passes while a promise is awaited. *)
Definition elapse {S} (dt : Z) : M S unit :=
  fun w => (Ok tt, {| st := st w; clock := clock w + dt; trace := trace w |}).

Definition alert {S} (message : string) : M S unit := emit (EAlert message).
Definition console_log {S} (label : string) : M S unit := emit (EConsoleLog label).
Definition console_error {S} (label : string) : M S unit := emit (EConsoleError label).
Definition setTimeout {S} (delay : Z) : M S unit := emit (ESetTimeout delay).

(** The requests a trace holds, in order. *)
Fixpoint fetches (tr : list Event) : list JsValue :=
  match tr with
  | [] => []
  | EFetch _ _ _ payload :: rest => payload :: fetches rest
  | _ :: rest => fetches rest
  end.

(** The alerts a trace holds, in order. *)
Fixpoint alerts (tr : list Event) : list string :=
  match tr with
  | [] => []
  | EAlert m :: rest => m :: alerts rest
  | _ :: rest => alerts rest
  end.

(** The [toBlob] calls a trace holds: MIME type and quality. *)
Fixpoint encodings (tr : list Event) : list (string * option Q) :=
  match tr with
  | [] => []
  | EToBlob mime quality :: rest => (mime, quality) :: encodings rest
  | _ :: rest => encodings rest
  end.

(** The names of the files a trace saves. *)
Fixpoint savedNames (tr : list Event) : list string :=
  match tr with
  | [] => []
  | EAnchorDownload _ _ download :: rest => download :: savedNames rest
  | ESaveAs _ fileName :: rest => fileName :: savedNames rest
  | _ :: rest => savedNames rest
  end.

End Browser.

Declare Scope js_scope.
Delimit Scope js_scope with js.
Notation "x <- m ;; k" := (Browser.bind m (fun x => k))
  (at level 61, m at next level, right associativity) : js_scope.
Notation "m ;; k" := (Browser.bind m (fun _ => k))
  (at level 61, right associativity) : js_scope.

Local Open Scope js_scope.

(** ** [src/lib/aiService.ts] *)

Module AIService.
Import Browser.

Record AIServiceResponse := {
  success : bool;
  data : option string;
  error : option string;
  processingTime : option Z
}.

Inductive Operation :=
| BackgroundRemoval
| StyleTransfer
| Enhance
| ObjectRemoval
| ArtisticFilter.

Record Parameters := {
  style : option string;
  intensity : option Z;
  prompt : option string;
  mask : option string
}.

(** [image] is typed [string]; at run time it is whatever [fileToBase64]
    resolved with, [undefined] included. *)
Record AIImageEditRequest := {
  image : option string;
  operation : Operation;
  parameters : option Parameters
}.

Definition endpoint : string := "https://oi-server.onrender.com/chat/completions".

Definition headers : list (string * string) :=
  [("customerId", "sijanbastola1@gmail.com");
   ("Content-Type", "application/json");
   ("Authorization", "Bearer xxx")].

Definition model : string := "replicate/black-forest-labs/flux-1.1-pro".

(** The browser behind the service: what the endpoint answers to a request
    body, and how long the answer takes. *)
Record Env := {
  fetch : JsValue -> FetchOutcome;
  latency : Z
}.

(** [request.parameters?.style] and [request.parameters?.prompt]. *)
Definition param {A} (f : Parameters -> option A) (p : option Parameters) : option A :=
  match p with
  | Some ps => f ps
  | None => None
  end.

Definition buildPromptForOperation (request : AIImageEditRequest) : string :=
  match operation request with
  | BackgroundRemoval =>
      "Remove the background from this image, making it transparent while keeping the main subject intact and sharp. Output a high-quality image with clean edges."
  | StyleTransfer =>
      let style := JS.opt_or_else (param style (parameters request)) "artistic" in
      "Transform this image into " ++ style ++ " style. Apply the artistic transformation while maintaining the core composition and subject matter. Make it visually appealing and high quality."
  | Enhance =>
      "Enhance this image by improving clarity, sharpness, color saturation, and overall quality. Upscale if necessary while maintaining natural appearance and removing any noise or artifacts."
  | ObjectRemoval =>
      let objectPrompt := JS.opt_or_else (param prompt (parameters request)) "unwanted object" in
      "Remove " ++ objectPrompt ++ " from this image and seamlessly fill in the background. Ensure the removal looks natural and the background blends perfectly without any artifacts."
  | ArtisticFilter =>
      let filter := JS.opt_or_else (param style (parameters request)) "watercolor" in
      "Apply a " ++ filter ++ " artistic filter to this image. Transform it into a beautiful artistic representation while preserving the main elements and composition."
  end.

(** The object handed to [JSON.stringify] as the request body. *)
Definition payloadFor (request : AIImageEditRequest) : JsValue :=
  let prompt := buildPromptForOperation request in
  JObj [("model", JStr model);
        ("messages", JArr [
           JObj [("role", JStr "user");
                 ("content", JArr [
                    JObj [("type", JStr "text"); ("text", JStr prompt)];
                    JObj [("type", JStr "image_url");
                          ("image_url",
                           JObj [("url", JStr ("data:image/jpeg;base64,"
                                               ++ JS.template (image request)))])]])]])].

(** *** The regular expression
    [/(https?:\/\/[^\s]+\.(?:jpg|jpeg|png|webp|gif))/i] *)

Definition extensions : list string := ["jpg"; "jpeg"; "png"; "webp"; "gif"].

(** [(?:jpg|jpeg|png|webp|gif)] at the head of [s], alternatives in order. *)
Fixpoint match_alternatives (alts : list string) (s : string) : option string :=
  match alts with
  | [] => None
  | a :: rest =>
      match JS.strip_prefix_ci a s with
      | Some (m, _) => Some m
      | None => match_alternatives rest s
      end
  end.

(** [\.(?:jpg|jpeg|png|webp|gif)] at the head of [s]. *)
Definition match_extension (s : string) : option string :=
  match s with
  | String "."%char s' => option_map (String "."%char) (match_alternatives extensions s')
  | _ => None
  end.

(** [[^\s]+\.(?:...)] at the head of [s].  The quantifier is greedy: a
    longer run is tried before the run stops at the current character.
    The run goes on byte by byte and cannot enter a white-space character;
    it can only be followed by the ASCII full stop, so it ends between two
    characters. *)
Fixpoint match_run (s : string) : option string :=
  match s with
  | EmptyString => None
  | String c s' =>
      if JS.white_space_at s then None
      else match match_run s' with
           | Some m => Some (String c m)
           | None => option_map (String c) (match_extension s')
           end
  end.

(** [:\/\/[^\s]+\.(?:...)] at the head of [s]. *)
Definition match_after_scheme (s : string) : option string :=
  match JS.strip_prefix_ci "://" s with
  | Some (sep, rest) => option_map (append sep) (match_run rest)
  | None => None
  end.

(** The whole pattern at the head of [s]; [s?] takes the [s] first. *)
Definition match_here (s : string) : option string :=
  match JS.strip_prefix_ci "http" s with
  | None => None
  | Some (http, rest) =>
      let secure :=
        match JS.strip_prefix_ci "s" rest with
        | Some (s1, rest') => option_map (append s1) (match_after_scheme rest')
        | None => None
        end in
      match secure with
      | Some m => Some (http ++ m)
      | None => option_map (append http) (match_after_scheme rest)
      end
  end.

(** [content.match(re)]: the leftmost match; its group 1 is the whole
    match. *)
Fixpoint urlMatch (content : string) : option string :=
  match match_here content with
  | Some m => Some m
  | None =>
      match content with
      | EmptyString => None
      | String _ rest => urlMatch rest
      end
  end.

(** [content.match(...)] on an arbitrary value: only strings have the
    method. *)
Definition call_match (content : JsValue) : Thrown + option string :=
  match content with
  | JStr s => inr (urlMatch s)
  | JUndefined | JNull =>
      inl (ErrorObj ("Cannot read properties of " ++ describe content
                     ++ " (reading 'match')"))
  | _ => inl (ErrorObj "content.match is not a function")
  end.

(** [v || ''] where the result is used as a string. *)
Definition content_or_empty (v : JsValue) : string :=
  match v with
  | JStr s => s
  | _ => ""
  end.

Definition extractImageFromResponse (response : JsValue) : Thrown + string :=
  match get response "choices" with
  | inl t => inl t
  | inr choices =>
      let fallback :=
        content_or_empty
          (get_opt (get_opt (get0_opt (get_opt response "choices")) "message") "content") in
      if truthy choices then
        match get0 choices with
        | inl t => inl t
        | inr first =>
            if truthy first then
              match get first "message" with
              | inl t => inl t
              | inr message =>
                  if truthy message then
                    match get message "content" with
                    | inl t => inl t
                    | inr content =>
                        match call_match content with
                        | inl t => inl t
                        | inr (Some url) => inr url
                        | inr None => inr fallback
                        end
                    end
                  else inr fallback
              end
            else inr fallback
        end
      else inr fallback
  end.

Definition processImage {S} (env : Env) (request : AIImageEditRequest)
  : M S AIServiceResponse :=
  startTime <- date_now ;;
  try_catch
    (let payload := payloadFor request in
     emit (EFetch endpoint "POST" headers payload) ;;
     elapse (latency env) ;;
     response <- lift (fetch env payload) ;;
     (if negb (ok response)
      then throw (ErrorObj ("AI service error: " ++ JS.string_of_Z (status response)
                            ++ " " ++ statusText response))
      else ret tt) ;;
     result <- lift (body response) ;;
     now <- date_now ;;
     let processingTime := now - startTime in
     imageUrl <- lift (extractImageFromResponse result) ;;
     ret {| success := true;
            data := Some imageUrl;
            error := None;
            processingTime := Some processingTime |})
    (fun error =>
       console_error "AI service error:" ;;
       now <- date_now ;;
       ret {| success := false;
              data := None;
              error := Some (match error with
                             | ErrorObj message => message
                             | NonError => "Unknown error occurred"
                             end);
              processingTime := Some (now - startTime) |}).

Definition removeBackground {S} (env : Env) (imageBase64 : option string)
  : M S AIServiceResponse :=
  processImage env {| image := imageBase64;
                      operation := BackgroundRemoval;
                      parameters := None |}.

Definition applyStyleTransfer {S} (env : Env) (imageBase64 : option string)
  (style : string) : M S AIServiceResponse :=
  processImage env {| image := imageBase64;
                      operation := StyleTransfer;
                      parameters := Some {| style := Some style; intensity := None;
                                            prompt := None; mask := None |} |}.

Definition enhanceImage {S} (env : Env) (imageBase64 : option string)
  : M S AIServiceResponse :=
  processImage env {| image := imageBase64;
                      operation := Enhance;
                      parameters := None |}.

Definition removeObject {S} (env : Env) (imageBase64 : option string)
  (objectDescription : string) : M S AIServiceResponse :=
  processImage env {| image := imageBase64;
                      operation := ObjectRemoval;
                      parameters := Some {| style := None; intensity := None;
                                            prompt := Some objectDescription;
                                            mask := None |} |}.

Definition applyArtisticFilter {S} (env : Env) (imageBase64 : option string)
  (filterType : string) : M S AIServiceResponse :=
  processImage env {| image := imageBase64;
                      operation := ArtisticFilter;
                      parameters := Some {| style := Some filterType; intensity := None;
                                            prompt := None; mask := None |} |}.

End AIService.

(** ** [src/components/ImageUploader.tsx] *)

Module ImageUploader.
Import Browser ImageUtils.

(** The [onDrop] callback of the drop zone; [onImageUpload] is the prop
    the editor passes in. *)
Definition onDrop {S} (onImageUpload : File -> M S unit) (acceptedFiles : list File)
  : M S unit :=
  match acceptedFiles with
  | file :: _ =>
      let validation := validateImageFile file in
      if valid validation then onImageUpload file
      else alert (JS.template (error validation))
  | [] => ret tt
  end.

End ImageUploader.

(** ** The [ImageEditor] component: the editing session *)

Module ImageEditor.
Import Browser ImageUtils.

Record EditHistory := {
  imageUrl : string;
  operation : string;
  timestamp : Z
}.

(** The [useState] cells of the component. *)
Record State := {
  currentFile : option File;
  currentImageUrl : string;
  originalImageUrl : string;
  isProcessing : bool;
  editHistory : list EditHistory;
  currentHistoryIndex : Z;
  processingStatus : string
}.

Definition initial : State :=
  {| currentFile := None;
     currentImageUrl := "";
     originalImageUrl := "";
     isProcessing := false;
     editHistory := [];
     currentHistoryIndex := -1;
     processingStatus := "" |}.

Record Env := {
  service : AIService.Env;
  createObjectURL : File -> string
}.

(** *** State setters *)

Definition setCurrentFile (v : option File) : M State unit :=
  update (fun s =>
    {| currentFile := v; currentImageUrl := currentImageUrl s;
       originalImageUrl := originalImageUrl s; isProcessing := isProcessing s;
       editHistory := editHistory s; currentHistoryIndex := currentHistoryIndex s;
       processingStatus := processingStatus s |}).

Definition setCurrentImageUrl (v : string) : M State unit :=
  update (fun s =>
    {| currentFile := currentFile s; currentImageUrl := v;
       originalImageUrl := originalImageUrl s; isProcessing := isProcessing s;
       editHistory := editHistory s; currentHistoryIndex := currentHistoryIndex s;
       processingStatus := processingStatus s |}).

Definition setOriginalImageUrl (v : string) : M State unit :=
  update (fun s =>
    {| currentFile := currentFile s; currentImageUrl := currentImageUrl s;
       originalImageUrl := v; isProcessing := isProcessing s;
       editHistory := editHistory s; currentHistoryIndex := currentHistoryIndex s;
       processingStatus := processingStatus s |}).

Definition setIsProcessing (v : bool) : M State unit :=
  update (fun s =>
    {| currentFile := currentFile s; currentImageUrl := currentImageUrl s;
       originalImageUrl := originalImageUrl s; isProcessing := v;
       editHistory := editHistory s; currentHistoryIndex := currentHistoryIndex s;
       processingStatus := processingStatus s |}).

Definition setEditHistory (v : list EditHistory) : M State unit :=
  update (fun s =>
    {| currentFile := currentFile s; currentImageUrl := currentImageUrl s;
       originalImageUrl := originalImageUrl s; isProcessing := isProcessing s;
       editHistory := v; currentHistoryIndex := currentHistoryIndex s;
       processingStatus := processingStatus s |}).

Definition setCurrentHistoryIndex (v : Z) : M State unit :=
  update (fun s =>
    {| currentFile := currentFile s; currentImageUrl := currentImageUrl s;
       originalImageUrl := originalImageUrl s; isProcessing := isProcessing s;
       editHistory := editHistory s; currentHistoryIndex := v;
       processingStatus := processingStatus s |}).

Definition setProcessingStatus (v : string) : M State unit :=
  update (fun s =>
    {| currentFile := currentFile s; currentImageUrl := currentImageUrl s;
       originalImageUrl := originalImageUrl s; isProcessing := isProcessing s;
       editHistory := editHistory s; currentHistoryIndex := currentHistoryIndex s;
       processingStatus := v |}).

(** *** Handlers

    A handler is a closure over the state of the render that created it:
    it reads the snapshot [s] and writes through the setters. *)

Definition handleImageUpload (env : Env) (file : File) : M State unit :=
  try_catch
    (setCurrentFile (Some file) ;;
     let imageUrl := createObjectURL env file in
     setCurrentImageUrl imageUrl ;;
     setOriginalImageUrl imageUrl ;;
     setEditHistory [] ;;
     setCurrentHistoryIndex (-1) ;;
     console_log "Image uploaded successfully:")
    (fun _ =>
       console_error "Failed to upload image:" ;;
       alert "Failed to upload image. Please try again.").

Definition addToHistory (s : State) (imageUrl operation : string) : M State unit :=
  now <- date_now ;;
  let newEntry := {| imageUrl := imageUrl; operation := operation; timestamp := now |} in
  let newHistory := (JS.slice (editHistory s) 0 (currentHistoryIndex s + 1) ++ [newEntry])%list in
  setEditHistory newHistory ;;
  setCurrentHistoryIndex (Z.of_nat (length newHistory) - 1).

(** The request that the [switch] of [handleProcessImage] hands to
    [processImage], through the wrapper of its case (see
    [callService_request] below). *)
Definition requestFor (operation : string) (parameters : option AIService.Parameters)
  (base64Image : option string) : AIService.AIImageEditRequest :=
  let only_style v :=
    Some {| AIService.style := Some v; AIService.intensity := None;
            AIService.prompt := None; AIService.mask := None |} in
  let only_prompt v :=
    Some {| AIService.style := None; AIService.intensity := None;
            AIService.prompt := Some v; AIService.mask := None |} in
  if String.eqb operation "background-removal" then
    {| AIService.image := base64Image; AIService.operation := AIService.BackgroundRemoval;
       AIService.parameters := None |}
  else if String.eqb operation "style-transfer" then
    {| AIService.image := base64Image; AIService.operation := AIService.StyleTransfer;
       AIService.parameters :=
         only_style (JS.opt_or_else (AIService.param AIService.style parameters) "artistic") |}
  else if String.eqb operation "enhance" then
    {| AIService.image := base64Image; AIService.operation := AIService.Enhance;
       AIService.parameters := None |}
  else if String.eqb operation "object-removal" then
    {| AIService.image := base64Image; AIService.operation := AIService.ObjectRemoval;
       AIService.parameters :=
         only_prompt (JS.opt_or_else (AIService.param AIService.prompt parameters) "") |}
  else if String.eqb operation "artistic-filter" then
    {| AIService.image := base64Image; AIService.operation := AIService.ArtisticFilter;
       AIService.parameters :=
         only_style (JS.opt_or_else (AIService.param AIService.style parameters) "watercolor") |}
  else
    {| AIService.image := base64Image; AIService.operation := AIService.Enhance;
       AIService.parameters := parameters |}.

(** The [switch] itself: one call of the service per case. *)
Definition callService (env : Env) (operation : string)
  (parameters : option AIService.Parameters) (base64Image : option string)
  : M State AIService.AIServiceResponse :=
  if String.eqb operation "background-removal" then
    AIService.removeBackground (service env) base64Image
  else if String.eqb operation "style-transfer" then
    AIService.applyStyleTransfer (service env) base64Image
      (JS.opt_or_else (AIService.param AIService.style parameters) "artistic")
  else if String.eqb operation "enhance" then
    AIService.enhanceImage (service env) base64Image
  else if String.eqb operation "object-removal" then
    AIService.removeObject (service env) base64Image
      (JS.opt_or_else (AIService.param AIService.prompt parameters) "")
  else if String.eqb operation "artistic-filter" then
    AIService.applyArtisticFilter (service env) base64Image
      (JS.opt_or_else (AIService.param AIService.style parameters) "watercolor")
  else
    AIService.processImage (service env)
      {| AIService.image := base64Image; AIService.operation := AIService.Enhance;
         AIService.parameters := parameters |}.

Definition handleProcessImage (env : Env) (s : State) (operation : string)
  (parameters : option AIService.Parameters) : M State unit :=
  match currentFile s with
  | Some file =>
      if JS.truthy (currentImageUrl s) then
        setIsProcessing true ;;
        setProcessingStatus ("Processing " ++ JS.replace_first operation "-" " " ++ "...") ;;
        finally
          (try_catch
             (base64Image <- match fileToBase64 file with
                             | Some b => ret b
                             | None => throw NonError
                             end ;;
              result <- callService env operation parameters base64Image ;;
              if AIService.success result && JS.opt_truthy (AIService.data result)
              then
                let data := JS.template (AIService.data result) in
                let newImageUrl :=
                  if JS.startsWith data "http" then data
                  else "data:image/png;base64," ++ data in
                setCurrentImageUrl newImageUrl ;;
                addToHistory s newImageUrl operation ;;
                setProcessingStatus
                  ("✅ " ++ JS.replace_first operation "-" " " ++ " completed successfully!") ;;
                setTimeout 3000
              else
                console_error "AI processing failed:" ;;
                alert ("Failed to process image: "
                       ++ JS.opt_or_else (AIService.error result) "Unknown error") ;;
                setProcessingStatus "❌ Processing failed" ;;
                setTimeout 3000)
             (fun _ =>
                console_error "Processing error:" ;;
                alert "An error occurred while processing the image. Please try again." ;;
                setProcessingStatus "❌ Processing failed" ;;
                setTimeout 3000))
          (setIsProcessing false)
      else alert "Please upload an image first"
  | None => alert "Please upload an image first"
  end.

(** [editHistory[i].imageUrl]: a [TypeError] when the entry is
    [undefined]. *)
Definition imageUrlAt (history : list EditHistory) (i : Z) : M State string :=
  match JS.index history i with
  | Some entry => ret (imageUrl entry)
  | None => throw (ErrorObj "Cannot read properties of undefined (reading 'imageUrl')")
  end.

Definition handleUndo (s : State) : M State unit :=
  if currentHistoryIndex s >? 0 then
    setCurrentHistoryIndex (currentHistoryIndex s - 1) ;;
    url <- imageUrlAt (editHistory s) (currentHistoryIndex s - 1) ;;
    setCurrentImageUrl url
  else if currentHistoryIndex s =? 0 then
    setCurrentHistoryIndex (-1) ;;
    setCurrentImageUrl (originalImageUrl s)
  else ret tt.

Definition handleRedo (s : State) : M State unit :=
  if currentHistoryIndex s <? Z.of_nat (length (editHistory s)) - 1 then
    setCurrentHistoryIndex (currentHistoryIndex s + 1) ;;
    url <- imageUrlAt (editHistory s) (currentHistoryIndex s + 1) ;;
    setCurrentImageUrl url
  else ret tt.

Definition handleReset (s : State) : M State unit :=
  setCurrentImageUrl (originalImageUrl s) ;;
  setCurrentHistoryIndex (-1) ;;
  setEditHistory [].

Definition canUndo (s : State) : bool := currentHistoryIndex s >=? 0.
Definition canRedo (s : State) : bool :=
  currentHistoryIndex s <? Z.of_nat (length (editHistory s)) - 1.

(** The [onClick] of the "Original" button of the history strip. *)
Definition selectOriginal (s : State) : M State unit :=
  setCurrentHistoryIndex (-1) ;;
  setCurrentImageUrl (originalImageUrl s).

(** The [onClick] of the button that [editHistory.map] renders for the
    entry at [index]; there is no button for a position without entry. *)
Definition selectEntry (s : State) (index : nat) : M State unit :=
  match nth_error (editHistory s) index with
  | Some edit =>
      setCurrentHistoryIndex (Z.of_nat index) ;;
      setCurrentImageUrl (imageUrl edit)
  | None => ret tt
  end.

(** The callback [setTimeout] schedules: clear the status line. *)
Definition statusTimeout : M State unit := setProcessingStatus "".

(** *** The session as a transition system *)

Inductive Action :=
| Drop (acceptedFiles : list File)
| Process (operation : string) (parameters : option AIService.Parameters)
| Undo
| Redo
| Reset
| SelectOriginal
| SelectEntry (index : nat)
| StatusTimeout.

Definition handler (env : Env) (a : Action) (s : State) : M State unit :=
  match a with
  | Drop acceptedFiles => ImageUploader.onDrop (handleImageUpload env) acceptedFiles
  | Process operation parameters => handleProcessImage env s operation parameters
  | Undo => handleUndo s
  | Redo => handleRedo s
  | Reset => handleReset s
  | SelectOriginal => selectOriginal s
  | SelectEntry index => selectEntry s index
  | StatusTimeout => statusTimeout
  end.

(** One user action: the handler of the current render runs to completion
    (the triggering controls are disabled while [isProcessing], so no
    other handler interleaves with it). *)
Definition dispatch (env : Env) (a : Action) (w : World State) : Result unit * World State :=
  handler env a (st w) w.

Definition step (w : World State) (ea : Env * Action) : World State :=
  snd (dispatch (fst ea) (snd ea) w).

(** A session: any number of actions, each under its own environment,
    from the freshly mounted component. *)
Definition start (t0 : Z) : World State :=
  {| st := initial; clock := t0; trace := [] |}.

Definition run (w : World State) (actions : list (Env * Action)) : World State :=
  fold_left step actions w.

End ImageEditor.

(** ** The [ExportPanel] component *)

Module ExportPanel.
Import Browser.

(** A [Date], by its UTC calendar fields. *)
Record DateTime := {
  year : Z;
  month : Z;
  day : Z;
  hours : Z;
  minutes : Z;
  seconds : Z;
  milliseconds : Z
}.

Definition digit (d : Z) : ascii := ascii_of_nat (48 + Z.to_nat d).

(** The last [width] decimal digits of [n], zero-padded. *)
Fixpoint pad (width : nat) (n : Z) : string :=
  match width with
  | O => EmptyString
  | S w => pad w (n / 10) ++ String (digit (n mod 10)) EmptyString
  end.

(** [Date.prototype.toISOString]: [YYYY-MM-DDTHH:mm:ss.sssZ], with a
    signed six-digit year outside 0..9999. *)
Definition toISOString (d : DateTime) : string :=
  (if (0 <=? year d) && (year d <=? 9999) then pad 4 (year d)
   else (if year d <? 0 then "-" else "+") ++ pad 6 (Z.abs (year d)))
  ++ "-" ++ pad 2 (month d) ++ "-" ++ pad 2 (day d)
  ++ "T" ++ pad 2 (hours d) ++ ":" ++ pad 2 (minutes d) ++ ":" ++ pad 2 (seconds d)
  ++ "." ++ pad 3 (milliseconds d) ++ "Z".

Record Props := {
  imageData : option string;
  originalImageName : option string;
  isProcessing : option bool
}.

Record State := {
  exportFormat : string;
  quality : list Z;
  customName : string;
  isExporting : bool
}.

Definition initial : State :=
  {| exportFormat := "png"; quality := [90]; customName := ""; isExporting := false |}.

(** How [canvas.toBlob] comes to hand over no blob: it calls back with
    [null], or it throws a [SecurityError] and never calls back, because
    the picture has tainted the canvas, as a picture from another origin
    does when it is loaded without [crossOrigin]. *)
Inductive NoBlob :=
| NullBlob
| SecurityError.

(** The browser behind the panel: the clock, [atob] ([None]: it throws),
    image decoding ([None]: [onerror]; otherwise the natural size),
    whether a 2D context is to be had, and [canvas.toBlob]: [encode] is
    the blob that reaches the callback, given the picture, whether it was
    drawn over a white fill, the MIME type and the quality, and where
    [encode] has no blob ([None]), [noBlob] says why, given the
    picture. *)
Record Env := {
  now : DateTime;
  atob : string -> option string;
  loadImage : string -> option (Z * Z);
  context2d : bool;
  encode : string -> bool -> string -> option Q -> option string;
  noBlob : string -> NoBlob
}.

Definition setIsExporting (v : bool) : M State unit :=
  update (fun s =>
    {| exportFormat := exportFormat s; quality := quality s;
       customName := customName s; isExporting := v |}).

(** [[^/.]+$] at the head of [s], given that [s] is not empty. *)
Fixpoint plain_to_end (s : string) : bool :=
  match s with
  | EmptyString => true
  | String c s' =>
      negb (Ascii.eqb c "/"%char) && negb (Ascii.eqb c "."%char) && plain_to_end s'
  end.

(** [/\.[^/.]+$/] at the head of [s]. *)
Definition extension_here (s : string) : bool :=
  match s with
  | String "."%char rest => JS.truthy rest && plain_to_end rest
  | _ => false
  end.

(** [name.replace(/\.[^/.]+$/, '')]: the leftmost match runs to the end
    of the string and is dropped. *)
Fixpoint stripExtension (s : string) : string :=
  if extension_here s then EmptyString
  else match s with
       | EmptyString => EmptyString
       | String c s' => String c (stripExtension s')
       end.

Definition generateFileName (env : Env) (props : Props) (s : State) : string :=
  if JS.truthy (JS.trim (customName s)) then JS.trim (customName s)
  else
    let baseName :=
      if JS.opt_truthy (originalImageName props)
      then stripExtension (JS.template (originalImageName props))
      else "edited-image" in
    let timestamp := JS.replace_all (JS.take 19 (toISOString (now env))) ":" "-" in
    baseName ++ "-edited-" ++ timestamp.

(** [downloadImage] of [imageUtils.ts], with [base64ToBlob] inlined: the
    anchor that is clicked carries the decoded bytes, their content type
    and the download name. *)
Definition downloadImage (env : Env) (base64 filename format : string) : M State unit :=
  let contentType := "image/" ++ format in
  match atob env base64 with
  | None => throw (ErrorObj "Failed to execute 'atob' on 'Window': The string to be decoded is not correctly encoded.")
  | Some byteCharacters =>
      emit (EAnchorDownload contentType byteCharacters (filename ++ "." ++ format))
  end.

(** [quality[0] / 100]; [undefined / 100] is [NaN] ([None]). *)
Definition encoderQuality (qualityValue : option Z) : option Q :=
  match qualityValue with
  | Some q => Some (q # 100)
  | None => None
  end.

(** The promise is settled from inside [img.onload] and the callback of
    [toBlob].  An exception of [toBlob] is thrown in [img.onload], where
    nothing catches it and nothing rejects the promise, which then stays
    pending. *)
Definition convertAndDownload (env : Env) (imageData fileName format : string)
  (qualityValue : option Z) : M State unit :=
  match loadImage env imageData with
  | None => throw (ErrorObj "Failed to load image")
  | Some (naturalWidth, naturalHeight) =>
      if negb (context2d env) then throw (ErrorObj "Canvas context not available")
      else
        (if String.eqb format "jpg"
         then emit (EFillRect "white" naturalWidth naturalHeight)
         else ret tt) ;;
        emit (EDrawImage imageData) ;;
        emit (EToBlob ("image/" ++ format) (encoderQuality qualityValue)) ;;
        match encode env imageData (String.eqb format "jpg") ("image/" ++ format)
                (encoderQuality qualityValue) with
        | Some blob => emit (ESaveAs blob (fileName ++ "." ++ format))
        | None =>
            match noBlob env imageData with
            | SecurityError => pending
            | NullBlob => throw (ErrorObj "Failed to create blob")
            end
        end
  end.

Definition handleDownload (env : Env) (props : Props) (s : State) : M State unit :=
  if JS.opt_truthy (imageData props) then
    let imageData := JS.template (imageData props) in
    setIsExporting true ;;
    finally
      (try_catch
         (let fileName := generateFileName env props s in
          if String.eqb (exportFormat s) "png" then
            let base64Data :=
              if JS.includes_char imageData ","
              then JS.template (nth_error (JS.split_char imageData ",") 1)
              else imageData in
            downloadImage env base64Data fileName "png"
          else
            convertAndDownload env imageData fileName (exportFormat s)
              (nth_error (quality s) 0))
         (fun _ =>
            console_error "Export failed:" ;;
            alert "Failed to export image. Please try again."))
      (setIsExporting false)
  else ret tt.

End ExportPanel.

(** ** The [AIToolsSidebar] component *)

Module AIToolsSidebar.
Import Browser.

(** The [useState] cells of the sidebar. *)
Record State := {
  selectedStyle : string;
  customPrompt : string;
  objectToRemove : string;
  selectedFilter : string
}.

Definition initial : State :=
  {| selectedStyle := ""; customPrompt := ""; objectToRemove := ""; selectedFilter := "" |}.

(** [{ style: v }] and [{ prompt: v }]. *)
Definition styleOnly (v : string) : option AIService.Parameters :=
  Some {| AIService.style := Some v; AIService.intensity := None;
          AIService.prompt := None; AIService.mask := None |}.

Definition promptOnly (v : string) : option AIService.Parameters :=
  Some {| AIService.style := None; AIService.intensity := None;
          AIService.prompt := Some v; AIService.mask := None |}.

Section Handlers.
Context {S : Type}.

(** The prop the editor passes in. *)
Variable onProcessImage : string -> option AIService.Parameters -> M S unit.

Definition handleBackgroundRemoval : M S unit :=
  onProcessImage "background-removal" None.

Definition handleStyleTransfer (s : State) : M S unit :=
  if negb (JS.truthy (selectedStyle s)) then alert "Please select a style first"
  else onProcessImage "style-transfer" (styleOnly (selectedStyle s)).

Definition handleImageEnhancement : M S unit :=
  onProcessImage "enhance" None.

Definition handleObjectRemoval (s : State) : M S unit :=
  if negb (JS.truthy (JS.trim (objectToRemove s)))
  then alert "Please describe what you want to remove"
  else onProcessImage "object-removal" (promptOnly (objectToRemove s)).

Definition handleArtisticFilter (s : State) : M S unit :=
  if negb (JS.truthy (selectedFilter s)) then alert "Please select a filter first"
  else onProcessImage "artistic-filter" (styleOnly (selectedFilter s)).

Definition handleCustomEdit (s : State) : M S unit :=
  if negb (JS.truthy (JS.trim (customPrompt s)))
  then alert "Please enter a description for your custom edit"
  else onProcessImage "custom-edit" (promptOnly (customPrompt s)).

End Handlers.

(** The buttons of the sidebar. *)
Inductive Button :=
| BackgroundRemoval
| StyleTransfer
| ImageEnhancement
| ObjectRemoval
| ArtisticFilter
| CustomEdit.

Definition onClick {S} (onProcessImage : string -> option AIService.Parameters -> M S unit)
  (s : State) (b : Button) : M S unit :=
  match b with
  | BackgroundRemoval => handleBackgroundRemoval onProcessImage
  | StyleTransfer => handleStyleTransfer onProcessImage s
  | ImageEnhancement => handleImageEnhancement onProcessImage
  | ObjectRemoval => handleObjectRemoval onProcessImage s
  | ArtisticFilter => handleArtisticFilter onProcessImage s
  | CustomEdit => handleCustomEdit onProcessImage s
  end.

End AIToolsSidebar.

(** ** The route [POST /image-edit] *)

Module ImageEditRoute.
Import Browser.

(** A [NextResponse.json(body, { status })]. *)
Record Reply := {
  status : Z;
  json : JsValue
}.

(** [`${v}`] for a value read off the request body.  An array prints
    its elements with commas between them, [null] and [undefined] among
    them as nothing; an object prints as [[object Object]], unless it has
    a property [toString] of its own: that hides the method, and the
    conversion throws a [TypeError] (V8's wording). *)
Fixpoint text (v : JsValue) : Thrown + string :=
  match v with
  | JUndefined => inr "undefined"
  | JNull => inr "null"
  | JBool true => inr "true"
  | JBool false => inr "false"
  | JNum n => inr (JS.number_text n)
  | JStr s => inr s
  | JArr items =>
      (fix join (l : list JsValue) : Thrown + string :=
         match l with
         | [] => inr EmptyString
         | x :: rest =>
             match (match x with
                    | JUndefined | JNull => inr EmptyString
                    | _ => text x
                    end) with
             | inl t => inl t
             | inr first =>
                 match rest with
                 | [] => inr first
                 | _ :: _ =>
                     match join rest with
                     | inl t => inl t
                     | inr more => inr (first ++ "," ++ more)
                     end
                 end
             end
         end) items
  | JObj fields =>
      if existsb (fun field => String.eqb (fst field) "toString") fields
      then inl (ErrorObj "Cannot convert object to primitive value")
      else inr "[object Object]"
  end.

(** [v || fallback]. *)
Definition or_else (v fallback : JsValue) : JsValue := if truthy v then v else fallback.

(** [operation === name]. *)
Definition equals (operation : JsValue) (name : string) : bool :=
  match operation with
  | JStr s => String.eqb s name
  | _ => false
  end.

Definition badRequest (message : string) : Reply :=
  {| status := 400; json := JObj [("error", JStr message)] |}.

(** The reply made of the result of the service. *)
Definition respond (result : AIService.AIServiceResponse) (operation : JsValue) : Reply :=
  if AIService.success result then
    {| status := 200;
       json := JObj [("success", JBool true);
                     ("imageUrl", match AIService.data result with
                                  | Some d => JStr d
                                  | None => JUndefined
                                  end);
                     ("processingTime", match AIService.processingTime result with
                                        | Some t => JNum t
                                        | None => JUndefined
                                        end);
                     ("operation", operation)] |}
  else
    {| status := 500;
       json := JObj [("error", JStr (JS.opt_or_else (AIService.error result)
                                       "Processing failed"));
                     ("operation", operation)] |}.

(** [const { image, operation, parameters } = body]: a [TypeError] on
    [null] and [undefined] (V8's wording). *)
Definition destructurable (body : JsValue) : Thrown + unit :=
  match body with
  | JUndefined | JNull =>
      inl (ErrorObj ("Cannot destructure property 'image' of 'body' as it is "
                     ++ describe body ++ "."))
  | _ => inr tt
  end.

(** The body of a request of the service, around an instruction. *)
Definition payloadWith (prompt image64 : string) : JsValue :=
  JObj [("model", JStr AIService.model);
        ("messages", JArr [
           JObj [("role", JStr "user");
                 ("content", JArr [
                    JObj [("type", JStr "text"); ("text", JStr prompt)];
                    JObj [("type", JStr "image_url");
                          ("image_url",
                           JObj [("url", JStr ("data:image/jpeg;base64," ++ image64))])]])]])].

(** [processImage] of the service, entered with a parameter that is not a
    string.  The route hands over what the body holds, and the type
    [string] of the wrappers is not checked at run time: the parameter,
    which is truthy, goes into the request as it is, and
    [buildPromptForOperation] prints it into the instruction of the
    operation, inside the [try] of [processImage]. *)
Definition processUntyped {S} (env : AIService.Env) (image64 : string)
  (instruction : string -> string) (parameter : JsValue)
  : M S AIService.AIServiceResponse :=
  startTime <- date_now ;;
  try_catch
    (printed <- lift (text parameter) ;;
     let payload := payloadWith (instruction printed) image64 in
     emit (EFetch AIService.endpoint "POST" AIService.headers payload) ;;
     elapse (AIService.latency env) ;;
     response <- lift (AIService.fetch env payload) ;;
     (if negb (ok response)
      then throw (ErrorObj ("AI service error: " ++ JS.string_of_Z (Browser.status response)
                            ++ " " ++ statusText response))
      else ret tt) ;;
     result <- lift (body response) ;;
     now <- date_now ;;
     let processingTime := now - startTime in
     imageUrl <- lift (AIService.extractImageFromResponse result) ;;
     ret {| AIService.success := true;
            AIService.data := Some imageUrl;
            AIService.error := None;
            AIService.processingTime := Some processingTime |})
    (fun error =>
       console_error "AI service error:" ;;
       now <- date_now ;;
       ret {| AIService.success := false;
              AIService.data := None;
              AIService.error := Some (match error with
                                       | ErrorObj message => message
                                       | NonError => "Unknown error occurred"
                                       end);
              AIService.processingTime := Some (now - startTime) |}).

(** The three wrappers that take a text, as the route calls them: with a
    string, they are the wrappers of the service. *)
Definition applyStyleTransfer {S} (env : AIService.Env) (image64 : string)
  (style : JsValue) : M S AIService.AIServiceResponse :=
  match style with
  | JStr s => AIService.applyStyleTransfer env (Some image64) s
  | _ =>
      processUntyped env image64
        (fun printed => "Transform this image into " ++ printed ++ " style. Apply the artistic transformation while maintaining the core composition and subject matter. Make it visually appealing and high quality.")
        style
  end.

Definition removeObject {S} (env : AIService.Env) (image64 : string)
  (objectDescription : JsValue) : M S AIService.AIServiceResponse :=
  match objectDescription with
  | JStr s => AIService.removeObject env (Some image64) s
  | _ =>
      processUntyped env image64
        (fun printed => "Remove " ++ printed ++ " from this image and seamlessly fill in the background. Ensure the removal looks natural and the background blends perfectly without any artifacts.")
        objectDescription
  end.

Definition applyArtisticFilter {S} (env : AIService.Env) (image64 : string)
  (filterType : JsValue) : M S AIService.AIServiceResponse :=
  match filterType with
  | JStr s => AIService.applyArtisticFilter env (Some image64) s
  | _ =>
      processUntyped env image64
        (fun printed => "Apply a " ++ printed ++ " artistic filter to this image. Transform it into a beautiful artistic representation while preserving the main elements and composition.")
        filterType
  end.

(** The handler.  [request] is what [request.json()] settles to, and the
    result is the response the handler returns.  In the last case of the
    [switch] the parameters of the body travel with the request, and
    nothing reads them there. *)
Definition POST {S} (env : AIService.Env) (request : Thrown + JsValue) : M S (option Reply) :=
  try_catch
    (body <- lift request ;;
     lift (destructurable body) ;;
     let image := get_opt body "image" in
     let operation := get_opt body "operation" in
     let parameters := get_opt body "parameters" in
     if negb (truthy image) || negb (truthy operation) then
       ret (Some (badRequest "Missing required fields: image and operation"))
     else
       match image with
       | JStr image64 =>
           if equals operation "background-removal" then
             result <- AIService.removeBackground env (Some image64) ;;
             ret (Some (respond result operation))
           else if equals operation "style-transfer" then
             let style := or_else (get_opt parameters "style") (JStr "artistic") in
             result <- applyStyleTransfer env image64 style ;;
             ret (Some (respond result operation))
           else if equals operation "enhance" then
             result <- AIService.enhanceImage env (Some image64) ;;
             ret (Some (respond result operation))
           else if equals operation "object-removal" then
             let objectDescription := or_else (get_opt parameters "prompt") (JStr "") in
             if negb (truthy objectDescription) then
               ret (Some (badRequest "Object description is required for object removal"))
             else
               result <- removeObject env image64 objectDescription ;;
               ret (Some (respond result operation))
           else if equals operation "artistic-filter" then
             let filterStyle := or_else (get_opt parameters "style") (JStr "watercolor") in
             result <- applyArtisticFilter env image64 filterStyle ;;
             ret (Some (respond result operation))
           else
             result <- AIService.processImage env
                         {| AIService.image := Some image64;
                            AIService.operation := AIService.Enhance;
                            AIService.parameters := None |} ;;
             ret (Some (respond result operation))
       | _ => ret (Some (badRequest "Image must be a base64 string"))
       end)
    (fun error =>
       console_error "Image processing API error:" ;;
       ret (Some {| status := 500;
                    json := JObj [("error", JStr (match error with
                                                  | ErrorObj message => message
                                                  | NonError => "Internal server error"
                                                  end));
                                  ("details", JStr "Failed to process image request")] |})).

End ImageEditRoute.

(** * Vocabulary of the statements *)

(** What [processImage] makes of the remote answer. *)

Module Outcome.
Import Browser AIService.

(** The message the [catch] of [processImage] reports for a thrown value. *)
Definition messageOf (t : Thrown) : string :=
  match t with
  | ErrorObj message => message
  | NonError => "Unknown error occurred"
  end.

(** The ways the remote call of [processImage] fails, with the value that
    reaches the [catch]: the network, a status outside 200..299, a body
    that is not JSON, a reply the extraction chokes on. *)
Inductive RemoteFailure : FetchOutcome -> Thrown -> Prop :=
| network_failure t :
    RemoteFailure (inl t) t
| http_failure r :
    ok r = false ->
    RemoteFailure (inr r)
      (ErrorObj ("AI service error: " ++ JS.string_of_Z (status r) ++ " " ++ statusText r))
| parsing_failure r t :
    ok r = true -> body r = inl t ->
    RemoteFailure (inr r) t
| extraction_failure r v t :
    ok r = true -> body r = inr v -> extractImageFromResponse v = inl t ->
    RemoteFailure (inr r) t.

(** What the [try] block of [processImage] ends with. *)
Definition settle (env : Env) (request : AIImageEditRequest) : Thrown + string :=
  match fetch env (payloadFor request) with
  | inl t => inl t
  | inr response =>
      if negb (ok response) then
        inl (ErrorObj ("AI service error: " ++ JS.string_of_Z (status response)
                       ++ " " ++ statusText response))
      else match body response with
           | inl t => inl t
           | inr result => extractImageFromResponse result
           end
  end.

(** The value [processImage] returns. *)
Definition reply (env : Env) (request : AIImageEditRequest) : AIServiceResponse :=
  match settle env request with
  | inr imageUrl =>
      {| success := true; data := Some imageUrl; error := None;
         processingTime := Some (latency env) |}
  | inl t =>
      {| success := false; data := None; error := Some (messageOf t);
         processingTime := Some (latency env) |}
  end.

(** The world after [processImage]: the request is on the trace, the
    clock has advanced, and a failure was logged to the console. *)
Definition after {S} (env : Env) (request : AIImageEditRequest) (w : World S) : World S :=
  {| st := st w;
     clock := clock w + latency env;
     trace := match settle env request with
              | inr _ => trace w ++ [EFetch endpoint "POST" headers (payloadFor request)]
              | inl _ => (trace w ++ [EFetch endpoint "POST" headers (payloadFor request)])
                         ++ [EConsoleError "AI service error:"]
              end |}.

End Outcome.

(** The session: what the handlers of the editor preserve and produce. *)

Module Session.
Import Browser ImageUtils ImageEditor.

(** The URL [handleProcessImage] makes of the data of a successful reply. *)
Definition newImageUrl (data : string) : string :=
  if JS.startsWith data "http" then data else "data:image/png;base64," ++ data.

(** The request bodies one call of [handleProcessImage] sends. *)
Definition sent (s : State) (operation : string)
  (parameters : option AIService.Parameters) : list JsValue :=
  match currentFile s with
  | Some file =>
      if JS.truthy (currentImageUrl s) then
        match fileToBase64 file with
        | Some b => [AIService.payloadFor (requestFor operation parameters b)]
        | None => []
        end
      else []
  | None => []
  end.

(** The new image of an operation that succeeds: there is a file and an
    image, the file reads, the service replies with non-empty data. *)
Definition produced (env : Env) (s : State) (operation : string)
  (parameters : option AIService.Parameters) : option string :=
  match currentFile s with
  | Some file =>
      if JS.truthy (currentImageUrl s) then
        match fileToBase64 file with
        | Some b =>
            match Outcome.settle (service env) (requestFor operation parameters b) with
            | inr d => if JS.truthy d then Some (newImageUrl d) else None
            | inl _ => None
            end
        | None => None
        end
      else None
  | None => None
  end.

(** The state a successful operation leaves, from the snapshot [s] the
    handler closed over and the world [w] it ran in. *)
Definition adopted (env : Env) (s : State) (w : World State) (operation url : string)
  : State :=
  let newHistory :=
    (JS.slice (editHistory s) 0 (currentHistoryIndex s + 1)
     ++ [{| imageUrl := url; operation := operation;
            timestamp := clock w + AIService.latency (service env) |}])%list in
  {| currentFile := currentFile (st w);
     currentImageUrl := url;
     originalImageUrl := originalImageUrl (st w);
     isProcessing := false;
     editHistory := newHistory;
     currentHistoryIndex := Z.of_nat (length newHistory) - 1;
     processingStatus :=
       "✅ " ++ JS.replace_first operation "-" " " ++ " completed successfully!" |}.

(** Two states show the same session: file, images, history and index. *)
Definition sameSession (s s' : State) : Prop :=
  currentFile s' = currentFile s
  /\ currentImageUrl s' = currentImageUrl s
  /\ originalImageUrl s' = originalImageUrl s
  /\ editHistory s' = editHistory s
  /\ currentHistoryIndex s' = currentHistoryIndex s.

(** The image a history position stands for: the original at -1, the
    entry's image otherwise. *)
Definition imageAt (s : State) (i : Z) : string :=
  if i =? -1 then originalImageUrl s
  else match JS.index (editHistory s) i with
       | Some entry => imageUrl entry
       | None => ""
       end.

Definition shown (s : State) : string := imageAt s (currentHistoryIndex s).

(** The state with the index moved to [i] and the image of [i] shown. *)
Definition moveTo (s : State) (i : Z) : State :=
  {| currentFile := currentFile s;
     currentImageUrl := imageAt s i;
     originalImageUrl := originalImageUrl s;
     isProcessing := isProcessing s;
     editHistory := editHistory s;
     currentHistoryIndex := i;
     processingStatus := processingStatus s |}.

(** The same world around another state. *)
Definition withState (w : World State) (s : State) : World State :=
  {| st := s; clock := clock w; trace := trace w |}.

(** The invariant of the data model: the index is -1 or a position of the
    history, and the current image is the one the index stands for. *)
Definition consistent (s : State) : Prop :=
  -1 <= currentHistoryIndex s < Z.of_nat (length (editHistory s))
  /\ currentImageUrl s = shown s.

(** The file of the last accepted upload of a session. *)
Definition accepted (a : Action) : option File :=
  match a with
  | Drop (file :: _) => if valid (validateImageFile file) then Some file else None
  | _ => None
  end.


(** [n] presses of Undo. *)
Definition undos (env : Env) (n : nat) : list (Env * Action) := repeat (env, Undo) n.

End Session.

(** The names of exported files. *)

Module Naming.
Import ExportPanel.

(** The time stamp of a generated name, with hyphens for the colons: for
    a year of four digits (0 to 9999) the date and the time of day down to
    the second, [YYYY-MM-DDTHH-mm-ss]; for any other year, which is written
    with a sign and six digits, the date and the time of day down to the
    minute, [+YYYYYY-MM-DDTHH-mm] or [-YYYYYY-MM-DDTHH-mm]. *)
Definition stamp (d : DateTime) : string :=
  if (0 <=? year d) && (year d <=? 9999) then
    pad 4 (year d) ++ "-" ++ pad 2 (month d) ++ "-" ++ pad 2 (day d)
    ++ "T" ++ pad 2 (hours d) ++ "-" ++ pad 2 (minutes d) ++ "-" ++ pad 2 (seconds d)
  else
    (if year d <? 0 then "-" else "+") ++ pad 6 (Z.abs (year d))
    ++ "-" ++ pad 2 (month d) ++ "-" ++ pad 2 (day d)
    ++ "T" ++ pad 2 (hours d) ++ "-" ++ pad 2 (minutes d).

End Naming.

(** Concrete inputs: the scenario of the specification (a 2 MB JPEG named
    [photo.jpg], a style transfer, an export). *)

Module Scenario.
Import Browser.

Definition photo : ImageUtils.File :=
  {| ImageUtils.name := "photo.jpg";
     ImageUtils.type := "image/jpeg";
     ImageUtils.size := 2 * 1024 * 1024;
     ImageUtils.dataURL := Some "data:image/jpeg;base64,QUJD" |}.

(** A chat completion whose message is [text]. *)
Definition completion (text : string) : JsValue :=
  JObj [("choices", JArr [JObj [("message", JObj [("content", JStr text)])]])].

Definition answering (outcome : FetchOutcome) : AIService.Env :=
  {| AIService.fetch := fun _ => outcome; AIService.latency := 1200 |}.

Definition styled : FetchOutcome :=
  inr {| status := 200; statusText := "OK";
         body := inr (completion "Done: https://cdn.example.com/anime.png") |}.

Definition serverError : FetchOutcome :=
  inr {| status := 500; statusText := "Internal Server Error"; body := inr JNull |}.

Definition offline : FetchOutcome := inl (ErrorObj "Failed to fetch").

Definition garbled : FetchOutcome :=
  inr {| status := 200; statusText := "OK";
         body := inl (ErrorObj "Unexpected token < in JSON at position 0") |}.

Definition editor (outcome : FetchOutcome) : ImageEditor.Env :=
  {| ImageEditor.service := answering outcome;
     ImageEditor.createObjectURL := fun _ => "blob:photo" |}.

Definition anime : option AIService.Parameters :=
  Some {| AIService.style := Some "anime"; AIService.intensity := None;
          AIService.prompt := None; AIService.mask := None |}.

Definition enhanceRequest : AIService.AIImageEditRequest :=
  {| AIService.image := Some "QUJD"; AIService.operation := AIService.Enhance;
     AIService.parameters := None |}.

(** The session after the upload of [photo]. *)
Definition loaded : World ImageEditor.State :=
  ImageEditor.run (ImageEditor.start 0) [(editor styled, ImageEditor.Drop [photo])].

(** The session after the upload and one successful style transfer. *)
Definition edited : list (ImageEditor.Env * ImageEditor.Action) :=
  [(editor styled, ImageEditor.Drop [photo]);
   (editor styled, ImageEditor.Process "style-transfer" anime)].

(** Two instants of the same minute, forty seconds apart. *)
Definition early : ExportPanel.DateTime :=
  {| ExportPanel.year := 2025; ExportPanel.month := 8; ExportPanel.day := 30;
     ExportPanel.hours := 17; ExportPanel.minutes := 49; ExportPanel.seconds := 5;
     ExportPanel.milliseconds := 0 |}.

Definition late : ExportPanel.DateTime :=
  {| ExportPanel.year := 2025; ExportPanel.month := 8; ExportPanel.day := 30;
     ExportPanel.hours := 17; ExportPanel.minutes := 49; ExportPanel.seconds := 45;
     ExportPanel.milliseconds := 7 |}.

(** An instant of the year 10000. *)
Definition distant : ExportPanel.DateTime :=
  {| ExportPanel.year := 10000; ExportPanel.month := 1; ExportPanel.day := 2;
     ExportPanel.hours := 3; ExportPanel.minutes := 4; ExportPanel.seconds := 5;
     ExportPanel.milliseconds := 6 |}.

(** U+00A0, the no-break space, in UTF-8. *)
Definition nbsp : string :=
  String (ascii_of_nat 194) (String (ascii_of_nat 160) EmptyString).

(** U+2003, the em space, in UTF-8. *)
Definition emsp : string :=
  String (ascii_of_nat 226) (String (ascii_of_nat 128) (String (ascii_of_nat 131) EmptyString)).

(** A browser that decodes and encodes everything it is given. *)
Definition exporter (d : ExportPanel.DateTime) : ExportPanel.Env :=
  {| ExportPanel.now := d;
     ExportPanel.atob := fun b => Some b;
     ExportPanel.loadImage := fun _ => Some (640, 480);
     ExportPanel.context2d := true;
     ExportPanel.encode := fun _ _ mime _ => Some mime;
     ExportPanel.noBlob := fun _ => ExportPanel.NullBlob |}.

Definition panel : ExportPanel.Props :=
  {| ExportPanel.imageData := Some "data:image/png;base64,QUJD";
     ExportPanel.originalImageName := Some "photo.jpg";
     ExportPanel.isProcessing := Some false |}.

Definition exporting (format name : string) (q : Z) : ExportPanel.State :=
  {| ExportPanel.exportFormat := format; ExportPanel.quality := [q];
     ExportPanel.customName := name; ExportPanel.isExporting := false |}.

Definition idle : World ExportPanel.State :=
  {| st := ExportPanel.initial; clock := 0; trace := [] |}.

End Scenario.

(** Where the history controls lead. *)

Module Navigation.
Import Browser ImageEditor.

(** The position a history control moves the index to. *)
Definition target (s : State) (a : Action) : option Z :=
  match a with
  | Undo => Some (if canUndo s then currentHistoryIndex s - 1 else currentHistoryIndex s)
  | Redo => Some (if canRedo s then currentHistoryIndex s + 1 else currentHistoryIndex s)
  | SelectOriginal => Some (-1)
  | SelectEntry index =>
      Some (if (index <? length (editHistory s))%nat then Z.of_nat index
            else currentHistoryIndex s)
  | _ => None
  end.

(** A session without a file is the empty one. *)
Definition blank (s : State) : Prop :=
  currentImageUrl s = "" /\ originalImageUrl s = ""
  /\ editHistory s = [] /\ currentHistoryIndex s = -1.

End Navigation.

(** More inputs: a file the reader cannot read, a reply without choices,
    a sidebar with every field filled in. *)

Module Cases.
Import Browser.

Definition damaged : ImageUtils.File :=
  {| ImageUtils.name := "scan.png";
     ImageUtils.type := "image/png";
     ImageUtils.size := 4096;
     ImageUtils.dataURL := None |}.

Definition hollow : FetchOutcome :=
  inr {| status := 200; statusText := "OK"; body := inr (JObj [("id", JStr "cmpl-1")]) |}.

Definition filled : AIToolsSidebar.State :=
  {| AIToolsSidebar.selectedStyle := "anime";
     AIToolsSidebar.customPrompt := "make the sky purple";
     AIToolsSidebar.objectToRemove := " the lamp post";
     AIToolsSidebar.selectedFilter := "charcoal" |}.

End Cases.

(** Reading a request body back. *)

Module Wire.
Import Browser.

(** [v[i]] on an array. *)
Definition item (v : JsValue) (i : nat) : JsValue :=
  match v with
  | JArr items => nth i items JUndefined
  | _ => JUndefined
  end.

(** [payload.messages[0].content[0].text]: the instruction. *)
Definition textOf (payload : JsValue) : JsValue :=
  get_opt (item (get_opt (item (get_opt payload "messages") 0) "content") 0) "text".

(** [payload.messages[0].content[1].image_url.url]: the image. *)
Definition imageUrlOf (payload : JsValue) : JsValue :=
  get_opt (get_opt (item (get_opt (item (get_opt payload "messages") 0) "content") 1)
             "image_url") "url".

(** The JSON of [{ style?, prompt? }] with string values. *)
Definition parametersJson (p : option AIService.Parameters) : JsValue :=
  match p with
  | None => JUndefined
  | Some ps =>
      JObj ((match AIService.style ps with
             | Some v => [("style", JStr v)]
             | None => []
             end)
            ++ (match AIService.prompt ps with
                | Some v => [("prompt", JStr v)]
                | None => []
                end))%list
  end.

(** The body [{ image, operation, parameters }] a client posts. *)
Definition bodyOf (image operation : string) (p : option AIService.Parameters) : JsValue :=
  JObj [("image", JStr image); ("operation", JStr operation);
        ("parameters", parametersJson p)].

(** What the route checks before it calls the service: both fields
    truthy, the image a string, a description for an object removal. *)
Definition wellFormed (body : JsValue) : bool :=
  truthy (get_opt body "image") && truthy (get_opt body "operation")
  && match get_opt body "image" with JStr _ => true | _ => false end
  && (negb (ImageEditRoute.equals (get_opt body "operation") "object-removal")
      || truthy (get_opt (get_opt body "parameters") "prompt")).

End Wire.

(** Shapes of strings. *)

Module Text.

(** No character of [s] is white space: no white-space character starts
    anywhere in [s]. *)
Fixpoint spaceFree (s : string) : bool :=
  match s with
  | EmptyString => true
  | String _ s' => negb (JS.white_space_at s) && spaceFree s'
  end.

(** The bytes a white-space character can start with. *)
Definition opensSpace (a : ascii) : bool :=
  let n := nat_of_ascii a in
  (JS.space1 a || (n =? 194) || (n =? 225) || (n =? 226) || (n =? 227) || (n =? 239))%nat.

(** No byte of [s] can start a white-space character. *)
Fixpoint spaceProof (s : string) : bool :=
  match s with
  | EmptyString => true
  | String c s' => negb (opensSpace c) && spaceProof s'
  end.

(** No character of [s] is a comma. *)
Definition commaFree (s : string) : bool := negb (JS.includes_char s ",").

(** [s] in lower case (ASCII). *)
Fixpoint lowerString (s : string) : string :=
  match s with
  | EmptyString => EmptyString
  | String c s' => String (JS.lower c) (lowerString s')
  end.

End Text.

(** How an export ends. *)

Module Exporting.
Import Browser ExportPanel.

(** The text [handleDownload] hands to [atob] for a PNG export. *)
Definition base64Of (img : string) : string :=
  if JS.includes_char img "," then JS.template (nth_error (JS.split_char img ",") 1)
  else img.

(** The encoder is reached for [img] (another format than PNG, the image
    loads, there is a 2D context) and delivers no blob. *)
Definition blobMissing (env : Env) (s : State) (img : string) : bool :=
  negb (String.eqb (exportFormat s) "png")
  && match loadImage env img with
     | None => false
     | Some _ =>
         context2d env
         && match encode env img (String.eqb (exportFormat s) "jpg")
                    ("image/" ++ exportFormat s)
                    (encoderQuality (nth_error (quality s) 0)) with
            | Some _ => false
            | None => true
            end
     end.

(** The export of [img] never ends: [toBlob] throws. *)
Definition exportHangs (env : Env) (s : State) (img : string) : bool :=
  blobMissing env s img
  && match noBlob env img with
     | SecurityError => true
     | NullBlob => false
     end.

(** The export of [img] fails: [atob] throws (PNG), or the image does not
    load, there is no 2D context, or the encoder calls back with [null]
    (the other formats). *)
Definition exportFails (env : Env) (s : State) (img : string) : bool :=
  if String.eqb (exportFormat s) "png" then
    match atob env (base64Of img) with
    | Some _ => false
    | None => true
    end
  else
    match loadImage env img with
    | None => true
    | Some _ =>
        negb (context2d env)
        || (blobMissing env s img
            && match noBlob env img with
               | SecurityError => false
               | NullBlob => true
               end)
    end.

(** No character of [s] is a dot. *)
Fixpoint dotFree (s : string) : bool :=
  match s with
  | EmptyString => true
  | String c s' => negb (Ascii.eqb c ".") && dotFree s'
  end.

End Exporting.

(** * Properties *)

(** ** Traces *)

Lemma fetches_app (t1 t2 : list Browser.Event) :
  Browser.fetches (t1 ++ t2) = (Browser.fetches t1 ++ Browser.fetches t2)%list.
Proof.
  induction t1 as [|e t1 IH]; simpl; [reflexivity|].
  destruct e; simpl; rewrite ?IH; reflexivity.
Qed.

Lemma alerts_app (t1 t2 : list Browser.Event) :
  Browser.alerts (t1 ++ t2) = (Browser.alerts t1 ++ Browser.alerts t2)%list.
Proof.
  induction t1 as [|e t1 IH]; simpl; [reflexivity|].
  destruct e; simpl; rewrite ?IH; reflexivity.
Qed.

(** ** The remote processing client *)

Section Client.
Import Browser AIService Outcome.
Context {S : Type}.

(** [processImage] never throws: it returns [reply] and leaves [after]. *)
Lemma processImage_run (env : Env) (request : AIImageEditRequest) (w : World S) :
  processImage env request w = (Ok (reply env request), after env request w).
Proof.
  unfold processImage, reply, after, settle, try_catch, bind, date_now, emit, elapse,
    lift, throw, ret, console_error; cbn.
  destruct (fetch env (payloadFor request)) as [t|response]; cbn.
  - destruct t; cbn; repeat f_equal; lia.
  - destruct (ok response); cbn.
    + destruct (body response) as [t|result]; cbn.
      * destruct t; cbn; repeat f_equal; lia.
      * destruct (extractImageFromResponse result) as [t|url]; cbn.
        -- destruct t; cbn; repeat f_equal; lia.
        -- repeat f_equal; lia.
    + repeat f_equal; lia.
Qed.

Lemma settle_failure (env : Env) (request : AIImageEditRequest) (t : Thrown) :
  RemoteFailure (fetch env (payloadFor request)) t -> settle env request = inl t.
Proof.
  unfold settle. intros H. inversion H as [t' E|r Hok E|r t' Hok Hb E|r v t' Hok Hb Hx E]; subst.
  - reflexivity.
  - rewrite Hok. reflexivity.
  - rewrite Hok, Hb. reflexivity.
  - rewrite Hok, Hb. exact Hx.
Qed.

End Client.

Section ClientClaims.
Import Browser AIService Outcome.

(** C3. Every failure mode of [processImage] -- a status outside 200..299,
    a network failure, a body that does not parse (and a reply the
    extraction throws on) -- is returned as a value with [success: false]
    and the error's message, and exactly one request has been sent: there
    is no retry. *)
Theorem processImage_failure_is_a_value {S} (env : Env) (request : AIImageEditRequest)
  (w : World S) (t : Thrown) :
  RemoteFailure (fetch env (payloadFor request)) t ->
  fst (processImage env request w)
  = Ok {| success := false; data := None; error := Some (messageOf t);
          processingTime := Some (latency env) |}
  /\ fetches (trace (snd (processImage env request w)))
     = (fetches (trace w) ++ [payloadFor request])%list.
Proof.
  intros H. apply settle_failure in H.
  rewrite processImage_run. unfold reply, after. rewrite H. cbn.
  split; [reflexivity|].
  rewrite !fetches_app. cbn. rewrite app_nil_r. reflexivity.
Qed.

(** The three failure modes at the enhancement of [photo]: status 500, no
    network, a body that is not JSON. *)
Lemma processImage_failure_is_a_value_witness :
  let w := {| st := tt; clock := 0; trace := [] |} in
  let failure message :=
    Ok {| success := false; data := None; error := Some message;
          processingTime := Some 1200 |} in
  let run outcome := processImage (Scenario.answering outcome) Scenario.enhanceRequest w in
  (fst (run Scenario.serverError) = failure "AI service error: 500 Internal Server Error"
   /\ fetches (trace (snd (run Scenario.serverError)))
      = [payloadFor Scenario.enhanceRequest])
  /\ (fst (run Scenario.offline) = failure "Failed to fetch"
      /\ fetches (trace (snd (run Scenario.offline)))
         = [payloadFor Scenario.enhanceRequest])
  /\ (fst (run Scenario.garbled) = failure "Unexpected token < in JSON at position 0"
      /\ fetches (trace (snd (run Scenario.garbled)))
         = [payloadFor Scenario.enhanceRequest]).
Proof.
  split; [|split].
  - apply (processImage_failure_is_a_value (Scenario.answering Scenario.serverError)
             Scenario.enhanceRequest {| st := tt; clock := 0; trace := [] |}
             (ErrorObj "AI service error: 500 Internal Server Error")).
    apply (http_failure {| status := 500; statusText := "Internal Server Error";
                           body := inr JNull |}). reflexivity.
  - apply (processImage_failure_is_a_value (Scenario.answering Scenario.offline)
             Scenario.enhanceRequest {| st := tt; clock := 0; trace := [] |}
             (ErrorObj "Failed to fetch")).
    apply network_failure.
  - apply (processImage_failure_is_a_value (Scenario.answering Scenario.garbled)
             Scenario.enhanceRequest {| st := tt; clock := 0; trace := [] |}
             (ErrorObj "Unexpected token < in JSON at position 0")).
    apply (parsing_failure
             {| status := 200; statusText := "OK";
                body := inl (ErrorObj "Unexpected token < in JSON at position 0") |});
      reflexivity.
Defined.

End ClientClaims.

(** ** The session controller *)

Section Editor.
Import Browser ImageUtils ImageEditor Outcome Session.

Lemma callService_request env operation parameters base64Image :
  callService env operation parameters base64Image
  = AIService.processImage (service env) (requestFor operation parameters base64Image).
Proof.
  unfold callService, requestFor.
  repeat match goal with |- context [String.eqb ?a ?b] => destruct (String.eqb a b) end;
    reflexivity.
Qed.

(** Splits a run of [handleProcessImage] into its paths: no file, no
    image, unreadable file, failed call, empty data, success. *)
Ltac process_paths env s operation parameters :=
  unfold handleProcessImage, produced, sent;
  destruct (currentFile s) as [file|];
  [ destruct (JS.truthy (currentImageUrl s));
    [ destruct (fileToBase64 file) as [b|];
      [ unfold finally, try_catch, bind;
        cbn [setIsProcessing setProcessingStatus update ret];
        rewrite callService_request, processImage_run;
        unfold reply, after;
        destruct (settle (service env) (requestFor operation parameters b)) as [t|d];
        [ | destruct (JS.truthy d) eqn:Hd ]
      | ]
    | ]
  | ];
  cbn.

(** [handleProcessImage] never throws. *)
Lemma process_returns env s operation parameters w :
  fst (handleProcessImage env s operation parameters w) = Ok tt.
Proof.
  process_paths env s operation parameters; try rewrite Hd; reflexivity.
Qed.


(** Without a new image the session is as it was. *)
Lemma process_failed env s operation parameters w :
  produced env s operation parameters = None ->
  sameSession (st w) (st (snd (handleProcessImage env s operation parameters w))).
Proof.
  process_paths env s operation parameters; try rewrite Hd; cbn;
    intros H; try discriminate H; repeat split.
Qed.

(** With a new image the state is [adopted]. *)
Lemma process_succeeded env s operation parameters w url :
  produced env s operation parameters = Some url ->
  st (snd (handleProcessImage env s operation parameters w))
  = adopted env s w operation url.
Proof.
  process_paths env s operation parameters; try rewrite Hd; cbn;
    intros H; try discriminate H.
  injection H as <-. reflexivity.
Qed.
End Editor.

Section History.
Import Browser ImageUtils ImageEditor Outcome Session.

Lemma slice_prefix {A} (l : list A) (i : Z) :
  -1 <= i -> JS.slice l 0 (i + 1) = firstn (Z.to_nat (i + 1)) l.
Proof.
  intros Hi. unfold JS.slice.
  replace (0 <? 0) with false by reflexivity.
  destruct (i + 1 <? 0) eqn:E; [apply Z.ltb_lt in E; lia|].
  rewrite (Z.min_l 0) by lia. cbn [Z.to_nat skipn]. rewrite Z.sub_0_r.
  destruct (Z.le_ge_cases (i + 1) (Z.of_nat (length l))) as [Hle|Hge].
  - rewrite Z.min_l by lia. reflexivity.
  - rewrite Z.min_r by lia. rewrite Nat2Z.id.
    rewrite !firstn_all2 by lia. reflexivity.
Qed.

Lemma index_nth {A} (l : list A) (i : Z) :
  0 <= i -> JS.index l i = nth_error l (Z.to_nat i).
Proof.
  intros Hi. unfold JS.index.
  destruct (i <? 0) eqn:E; [apply Z.ltb_lt in E; lia|reflexivity].
Qed.

Lemma index_in_range {A} (l : list A) (i : Z) :
  0 <= i < Z.of_nat (length l) -> exists x, JS.index l i = Some x.
Proof.
  intros Hi. rewrite index_nth by lia.
  destruct (nth_error l (Z.to_nat i)) as [x|] eqn:E; [eauto|].
  apply nth_error_None in E. lia.
Qed.

(** *** What each handler does to a consistent session *)

Lemma undo_at_original env w :
  currentHistoryIndex (st w) = -1 -> step w (env, Undo) = w.
Proof.
  intros Hi. unfold step, dispatch, handler, handleUndo; cbn [fst snd].
  rewrite Hi. reflexivity.
Qed.

Lemma undo_moves env w :
  0 <= currentHistoryIndex (st w) < Z.of_nat (length (editHistory (st w))) ->
  step w (env, Undo) = withState w (moveTo (st w) (currentHistoryIndex (st w) - 1)).
Proof.
  intros Hi. unfold step, dispatch, handler, handleUndo; cbn [fst snd].
  destruct (currentHistoryIndex (st w) >? 0) eqn:Hpos.
  - apply Z.gtb_lt in Hpos.
    destruct (index_in_range (editHistory (st w)) (currentHistoryIndex (st w) - 1))
      as [entry He]; [lia|].
    unfold bind, imageUrlAt, setCurrentHistoryIndex, setCurrentImageUrl, update.
    cbn. rewrite He. cbn. unfold withState, moveTo, imageAt. cbn.
    rewrite He.
    destruct (currentHistoryIndex (st w) - 1 =? -1) eqn:E; [apply Z.eqb_eq in E; lia|].
    reflexivity.
  - destruct (currentHistoryIndex (st w) =? 0) eqn:Hz.
    + apply Z.eqb_eq in Hz. unfold withState, moveTo, imageAt. rewrite Hz. reflexivity.
    + apply Z.eqb_neq in Hz. destruct (Z.gtb_spec (currentHistoryIndex (st w)) 0); [discriminate|lia].
Qed.

Lemma redo_at_end env w :
  Z.of_nat (length (editHistory (st w))) - 1 <= currentHistoryIndex (st w) ->
  step w (env, Redo) = w.
Proof.
  intros Hi. unfold step, dispatch, handler, handleRedo; cbn [fst snd].
  destruct (Z.ltb_spec (currentHistoryIndex (st w))
              (Z.of_nat (length (editHistory (st w))) - 1)); [lia|reflexivity].
Qed.

Lemma redo_moves env w :
  -1 <= currentHistoryIndex (st w) < Z.of_nat (length (editHistory (st w))) - 1 ->
  step w (env, Redo) = withState w (moveTo (st w) (currentHistoryIndex (st w) + 1)).
Proof.
  intros Hi. unfold step, dispatch, handler, handleRedo; cbn [fst snd].
  destruct (Z.ltb_spec (currentHistoryIndex (st w))
              (Z.of_nat (length (editHistory (st w))) - 1)); [|lia].
  destruct (index_in_range (editHistory (st w)) (currentHistoryIndex (st w) + 1))
    as [entry He]; [lia|].
  unfold bind, imageUrlAt, setCurrentHistoryIndex, setCurrentImageUrl, update.
  cbn. rewrite He. cbn. unfold withState, moveTo, imageAt. cbn. rewrite He.
  destruct (currentHistoryIndex (st w) + 1 =? -1) eqn:E; [apply Z.eqb_eq in E; lia|].
  reflexivity.
Qed.

Lemma moveTo_consistent s i :
  -1 <= i < Z.of_nat (length (editHistory s)) -> consistent (moveTo s i).
Proof. intros Hi. split; [exact Hi|reflexivity]. Qed.

Lemma adopted_consistent env s w operation url :
  -1 <= currentHistoryIndex s -> consistent (adopted env s w operation url).
Proof.
  intros Hi. unfold consistent, adopted, shown, imageAt. cbn.
  rewrite length_app. cbn [length].
  split; [lia|].
  set (l := JS.slice (editHistory s) 0 (currentHistoryIndex s + 1)).
  destruct (Z.eqb_spec (Z.of_nat (length l + 1) - 1) (-1)); [lia|].
  rewrite index_nth by lia.
  replace (Z.to_nat (Z.of_nat (length l + 1) - 1)) with (length l + 0)%nat by lia.
  rewrite nth_error_app2 by lia.
  replace (length l + 0 - length l)%nat with O by lia. reflexivity.
Qed.

End History.

Section Invariant.
Import Browser ImageUtils ImageEditor Outcome Session.

Lemma sameSession_consistent s s' :
  sameSession s s' -> consistent s -> consistent s'.
Proof.
  unfold sameSession, consistent, shown, imageAt.
  intros (_ & Hc & Ho & Hh & Hi) H. rewrite Hc, Ho, Hh, Hi. exact H.
Qed.

Lemma process_step env w operation parameters :
  st (step w (env, Process operation parameters))
  = st (snd (handleProcessImage env (st w) operation parameters w)).
Proof. reflexivity. Qed.

(** The upload path: an accepted file starts a fresh session. *)
Lemma drop_accepted env w file rest :
  valid (validateImageFile file) = true ->
  st (step w (env, Drop (file :: rest)))
  = {| currentFile := Some file;
       currentImageUrl := createObjectURL env file;
       originalImageUrl := createObjectURL env file;
       isProcessing := isProcessing (st w);
       editHistory := [];
       currentHistoryIndex := -1;
       processingStatus := processingStatus (st w) |}.
Proof.
  intros Hv. unfold step, dispatch, handler, ImageUploader.onDrop; cbn [fst snd].
  rewrite Hv. reflexivity.
Qed.

Lemma drop_rejected env w files :
  accepted (Drop files) = None -> st (step w (env, Drop files)) = st w.
Proof.
  unfold accepted, step, dispatch, handler, ImageUploader.onDrop; cbn [fst snd].
  destruct files as [|file rest]; [reflexivity|].
  destruct (valid (validateImageFile file)); [discriminate|reflexivity].
Qed.

Lemma step_consistent w env a :
  consistent (st w) -> consistent (st (step w (env, a))).
Proof.
  intros H. destruct a as [files|operation parameters| | | | |index|].
  - destruct (accepted (Drop files)) as [f|] eqn:Ha.
    + destruct files as [|file rest]; [discriminate|]. cbn in Ha.
      destruct (valid (validateImageFile file)) eqn:Hv; [|discriminate].
      rewrite drop_accepted by exact Hv.
      split; cbn; [lia|reflexivity].
    + rewrite drop_rejected by exact Ha. exact H.
  - rewrite process_step.
    destruct (produced env (st w) operation parameters) as [url|] eqn:Hp.
    + rewrite (process_succeeded _ _ _ _ _ _ Hp).
      apply adopted_consistent. apply H.
    + eapply sameSession_consistent; [apply process_failed; exact Hp|exact H].
  - destruct (Z.eq_dec (currentHistoryIndex (st w)) (-1)) as [E|E].
    + rewrite undo_at_original by exact E. exact H.
    + destruct H as [Hr _]. rewrite undo_moves by lia.
      apply moveTo_consistent. lia.
  - destruct H as [Hr Hc].
    destruct (Z_lt_le_dec (currentHistoryIndex (st w))
                (Z.of_nat (length (editHistory (st w))) - 1)) as [E|E].
    + rewrite redo_moves by lia. apply moveTo_consistent. lia.
    + rewrite redo_at_end by lia. split; assumption.
  - split; cbn; [lia|reflexivity].
  - destruct H as [Hr _]. split; cbn; [lia|reflexivity].
  - unfold step, dispatch, handler, selectEntry; cbn [fst snd].
    destruct (nth_error (editHistory (st w)) index) as [edit|] eqn:He; [|exact H].
    assert (Hlt : (index < length (editHistory (st w)))%nat)
      by (apply nth_error_Some; congruence).
    split; cbn; [lia|].
    unfold shown, imageAt; cbn.
    destruct (Z.eqb_spec (Z.of_nat index) (-1)); [lia|].
    rewrite index_nth by lia. rewrite Nat2Z.id, He. reflexivity.
  - eapply sameSession_consistent; [|exact H]. repeat split.
Qed.

Lemma run_consistent actions : forall w,
  consistent (st w) -> consistent (st (run w actions)).
Proof.
  induction actions as [|[env a] rest IH]; intros w H; [exact H|].
  apply IH. apply step_consistent. exact H.
Qed.

Lemma start_consistent t0 : consistent (st (start t0)).
Proof. split; cbn; [lia|reflexivity]. Qed.

(** Every state of a session is consistent. *)
Lemma session_consistent t0 actions : consistent (st (run (start t0) actions)).
Proof. apply run_consistent, start_consistent. Qed.

(** Only an accepted upload changes the file of the session. *)
Lemma step_currentFile w env a :
  currentFile (st (step w (env, a)))
  = match accepted a with
    | Some f => Some f
    | None => currentFile (st w)
    end.
Proof.
  destruct a as [files|operation parameters| | | | |index|]; try reflexivity.
  - destruct (accepted (Drop files)) as [f|] eqn:Ha.
    + destruct files as [|file rest]; [discriminate|]. cbn in Ha.
      destruct (valid (validateImageFile file)) eqn:Hv; [|discriminate].
      rewrite drop_accepted by exact Hv. cbn. congruence.
    + rewrite drop_rejected by exact Ha. reflexivity.
  - rewrite process_step. cbn [accepted].
    destruct (produced env (st w) operation parameters) as [url|] eqn:Hp.
    + rewrite (process_succeeded _ _ _ _ _ _ Hp). reflexivity.
    + apply (process_failed _ _ _ _ w Hp).
  - cbn [accepted].
    destruct (Z.eq_dec (currentHistoryIndex (st w)) (-1)) as [E|E];
      [rewrite undo_at_original by exact E; reflexivity|].
    unfold step, dispatch, handler, handleUndo; cbn [fst snd].
    destruct (currentHistoryIndex (st w) >? 0).
    + unfold bind, imageUrlAt, setCurrentHistoryIndex, update. cbn.
      destruct (JS.index (editHistory (st w)) (currentHistoryIndex (st w) - 1));
        reflexivity.
    + destruct (currentHistoryIndex (st w) =? 0); reflexivity.
  - cbn [accepted]. unfold step, dispatch, handler, handleRedo; cbn [fst snd].
    destruct (currentHistoryIndex (st w) <? Z.of_nat (length (editHistory (st w))) - 1);
      [|reflexivity].
    unfold bind, imageUrlAt, setCurrentHistoryIndex, update. cbn.
    destruct (JS.index (editHistory (st w)) (currentHistoryIndex (st w) + 1));
      reflexivity.
  - cbn [accepted]. unfold step, dispatch, handler, selectEntry; cbn [fst snd].
    destruct (nth_error (editHistory (st w)) index); reflexivity.
Qed.


(** Pressing Undo often enough ends at the original image. *)
Lemma undos_reach_original env n : forall w,
  consistent (st w) ->
  currentHistoryIndex (st w) + 1 <= Z.of_nat n ->
  currentHistoryIndex (st (run w (undos env n))) = -1
  /\ currentImageUrl (st (run w (undos env n))) = originalImageUrl (st w).
Proof.
  induction n as [|n IH]; intros w H Hn.
  - destruct H as [Hr Hc]. cbn [undos repeat run fold_left].
    assert (E : currentHistoryIndex (st w) = -1) by lia.
    split; [exact E|]. rewrite Hc. unfold shown, imageAt. rewrite E. reflexivity.
  - cbn [undos repeat run fold_left]. fold (undos env n).
    fold (run (step w (env, Undo)) (undos env n)).
    destruct (Z.eq_dec (currentHistoryIndex (st w)) (-1)) as [E|E].
    + rewrite undo_at_original by exact E. apply IH; [exact H|lia].
    + pose proof H as [Hr _].
      destruct (IH (step w (env, Undo))) as [Hi Hu].
      * apply step_consistent. exact H.
      * rewrite undo_moves by lia. cbn. lia.
      * split; [exact Hi|]. rewrite Hu. rewrite undo_moves by lia. reflexivity.
Qed.

End Invariant.

Section SessionClaims.
Import Browser ImageUtils ImageEditor Outcome Session.

Lemma requestFor_image operation parameters b :
  AIService.image (requestFor operation parameters b) = b.
Proof.
  unfold requestFor.
  repeat match goal with |- context [String.eqb ?a ?b] => destruct (String.eqb a b) end;
    reflexivity.
Qed.

(** The alert of an operation whose remote call failed. *)
Lemma process_alert_failed env s operation parameters w file b t :
  currentFile s = Some file ->
  JS.truthy (currentImageUrl s) = true ->
  fileToBase64 file = Some b ->
  settle (service env) (requestFor operation parameters b) = inl t ->
  alerts (trace (snd (handleProcessImage env s operation parameters w)))
  = (alerts (trace w)
     ++ [("Failed to process image: "
              ++ JS.or_else (messageOf t) "Unknown error")%string])%list.
Proof.
  intros Hf Hu Hb Hs.
  unfold handleProcessImage. rewrite Hf, Hu, Hb.
  unfold finally, try_catch, bind.
  cbn [setIsProcessing setProcessingStatus update ret].
  rewrite callService_request, processImage_run.
  unfold reply, after. rewrite Hs. cbn.
  rewrite !alerts_app. cbn. rewrite !app_nil_r. reflexivity.
Qed.

Lemma produced_failure env s operation parameters file b t :
  currentFile s = Some file ->
  fileToBase64 file = Some b ->
  settle (service env) (requestFor operation parameters b) = inl t ->
  produced env s operation parameters = None.
Proof.
  intros Hf Hb Hs. unfold produced. rewrite Hf, Hb, Hs.
  destruct (JS.truthy (currentImageUrl s)); reflexivity.
Qed.

(** C1, as the code has it.  When the remote call of an operation fails (a
    status outside 200..299 such as 500, or any other failure), the
    service returns a failure value to [handleProcessImage]; the handler
    does not throw and returns nothing; the file, the current and the
    original image, the history and its index are what they were, so no
    entry was appended; and the error message is reported by an alert. *)
Theorem failed_operation_keeps_session (env : Env) (w : World State)
  (operation : string) (parameters : option AIService.Parameters)
  (file : File) (b : option string) (t : Thrown) :
  currentFile (st w) = Some file ->
  JS.truthy (currentImageUrl (st w)) = true ->
  fileToBase64 file = Some b ->
  RemoteFailure
    (AIService.fetch (service env)
       (AIService.payloadFor (requestFor operation parameters b))) t ->
  (forall w0 : World State,
      fst (AIService.processImage (service env)
             (requestFor operation parameters b) w0)
      = Ok {| AIService.success := false; AIService.data := None;
              AIService.error := Some (messageOf t);
              AIService.processingTime := Some (AIService.latency (service env)) |})
  /\ fst (dispatch env (Process operation parameters) w) = Ok tt
  /\ sameSession (st w) (st (step w (env, Process operation parameters)))
  /\ alerts (trace (step w (env, Process operation parameters)))
     = (alerts (trace w)
        ++ [("Failed to process image: "
              ++ JS.or_else (messageOf t) "Unknown error")%string])%list.
Proof.
  intros Hf Hu Hb H. apply settle_failure in H.
  split; [|split; [|split]].
  - intros w0. rewrite processImage_run. unfold reply. rewrite H. reflexivity.
  - apply process_returns.
  - apply process_failed. eapply produced_failure; eassumption.
  - eapply process_alert_failed; eassumption.
Qed.

Lemma failed_operation_keeps_session_witness :
  let env := Scenario.editor Scenario.serverError in
  let w := run (start 0) Scenario.edited in
  let w' := step w (env, Process "enhance" None) in
  fst (dispatch env (Process "enhance" None) w) = Ok tt
  /\ sameSession (st w) (st w')
  /\ alerts (trace w')
     = ["Failed to process image: AI service error: 500 Internal Server Error"].
Proof.
  refine (proj2 (failed_operation_keeps_session
            (Scenario.editor Scenario.serverError) (run (start 0) Scenario.edited)
            "enhance" None Scenario.photo (Some "QUJD")
            (ErrorObj "AI service error: 500 Internal Server Error")
            eq_refl eq_refl eq_refl _)).
  apply (http_failure {| status := 500; statusText := "Internal Server Error";
                         body := inr JNull |}). reflexivity.
Defined.


(** C1 as stated fails on the result: the handler hands its caller the
    same empty value when the remote call failed with status 500 (alert,
    history untouched) and when it succeeded (history extended), so the
    caller receives no failure result. *)
Lemma failed_operation_returns_nothing :
  let failing := Scenario.editor Scenario.serverError in
  let working := Scenario.editor Scenario.styled in
  let w := Scenario.loaded in
  (alerts (trace (step w (failing, Process "enhance" None)))
   = ["Failed to process image: AI service error: 500 Internal Server Error"]
   /\ editHistory (st (step w (failing, Process "enhance" None))) = [])
  /\ (alerts (trace (step w (working, Process "enhance" None))) = []
      /\ map operation (editHistory (st (step w (working, Process "enhance" None))))
         = ["enhance"])
  /\ fst (dispatch failing (Process "enhance" None) w) = Ok tt
  /\ fst (dispatch failing (Process "enhance" None) w)
     = fst (dispatch working (Process "enhance" None) w).
Proof. repeat split. Qed.



(** C4. A successful operation keeps the entries up to the current index,
    drops every later one, appends the new entry and points the index at
    it; so after an undo, a new operation replaces everything that could
    have been redone, and nothing can be redone afterwards. *)
Theorem append_truncates_redo_future (t0 : Z) (actions : list (Env * Action))
  (env env' : Env) (operation url : string) (parameters : option AIService.Parameters) :
  let w := run (start t0) actions in
  let w' := step w (env, Process operation parameters) in
  let entry := {| imageUrl := url; operation := operation;
                  timestamp := clock w + AIService.latency (service env) |} in
  produced env (st w) operation parameters = Some url ->
  editHistory (st w')
  = (firstn (Z.to_nat (currentHistoryIndex (st w) + 1)) (editHistory (st w))
     ++ [entry])%list
  /\ currentHistoryIndex (st w') = Z.of_nat (length (editHistory (st w'))) - 1
  /\ currentHistoryIndex (st w') = currentHistoryIndex (st w) + 1
  /\ JS.index (editHistory (st w')) (currentHistoryIndex (st w')) = Some entry
  /\ canRedo (st w') = false
  /\ (0 <= currentHistoryIndex (st w) ->
      forall url',
        produced env (st (step w (env', Undo))) operation parameters = Some url' ->
        editHistory (st (step (step w (env', Undo)) (env, Process operation parameters)))
        = (firstn (Z.to_nat (currentHistoryIndex (st w))) (editHistory (st w))
           ++ [{| imageUrl := url'; operation := operation;
                  timestamp := clock w + AIService.latency (service env) |}])%list).
Proof.
  intros w w' entry Hp.
  pose proof (session_consistent t0 actions) as [Hr Hc]. fold w in Hr, Hc.
  assert (Hw' : st w' = adopted env (st w) w operation url)
    by (unfold w'; rewrite process_step; apply process_succeeded; exact Hp).
  assert (Hh : editHistory (st w')
               = (firstn (Z.to_nat (currentHistoryIndex (st w) + 1)) (editHistory (st w))
                  ++ [entry])%list).
  { rewrite Hw'. unfold adopted; cbn. rewrite slice_prefix by lia. reflexivity. }
  assert (Hlen : Z.of_nat (length (editHistory (st w'))) = currentHistoryIndex (st w) + 2).
  { rewrite Hh, length_app, length_firstn. cbn [length]. lia. }
  assert (Hi : currentHistoryIndex (st w') = Z.of_nat (length (editHistory (st w'))) - 1)
    by (rewrite Hw'; reflexivity).
  split; [exact Hh|]. split; [exact Hi|]. split; [lia|]. split; [|split].
  - rewrite index_nth by lia. rewrite Hi, Hh.
    rewrite length_app. cbn [length].
    set (l := firstn _ _).
    replace (Z.to_nat (Z.of_nat (length l + 1) - 1)) with (length l + 0)%nat by lia.
    rewrite nth_error_app2 by lia.
    replace (length l + 0 - length l)%nat with O by lia. reflexivity.
  - unfold canRedo. apply Z.ltb_ge. lia.
  - intros Hpos url' Hp'.
    rewrite process_step, (process_succeeded _ _ _ _ _ _ Hp').
    rewrite undo_moves by lia. unfold adopted; cbn.
    rewrite slice_prefix by lia.
    replace (currentHistoryIndex (st w) - 1 + 1) with (currentHistoryIndex (st w)) by lia.
    reflexivity.
Qed.


(** Upload, style transfer, then an enhancement: two entries, the index on
    the second; and had the transfer been undone first, the enhancement
    would have replaced it. *)
Lemma append_truncates_redo_future_witness :
  let env := Scenario.editor Scenario.styled in
  let w := run (start 0) Scenario.edited in
  let w' := step w (env, Process "enhance" None) in
  let url := "https://cdn.example.com/anime.png" in
  map operation (editHistory (st w)) = ["style-transfer"]
  /\ (editHistory (st w')
      = (firstn (Z.to_nat (currentHistoryIndex (st w) + 1)) (editHistory (st w))
         ++ [{| imageUrl := url; operation := "enhance"; timestamp := 2400 |}])%list
      /\ currentHistoryIndex (st w') = Z.of_nat (length (editHistory (st w'))) - 1
      /\ currentHistoryIndex (st w') = currentHistoryIndex (st w) + 1
      /\ JS.index (editHistory (st w')) (currentHistoryIndex (st w'))
         = Some {| imageUrl := url; operation := "enhance"; timestamp := 2400 |}
      /\ canRedo (st w') = false
      /\ (0 <= currentHistoryIndex (st w) ->
          forall url',
            produced env (st (step w (env, Undo))) "enhance" None = Some url' ->
            editHistory (st (step (step w (env, Undo)) (env, Process "enhance" None)))
            = (firstn (Z.to_nat (currentHistoryIndex (st w))) (editHistory (st w))
               ++ [{| imageUrl := url'; operation := "enhance"; timestamp := 2400 |}])%list)).
Proof.
  split; [reflexivity|].
  exact (append_truncates_redo_future 0 Scenario.edited (Scenario.editor Scenario.styled)
           (Scenario.editor Scenario.styled) "enhance"
           "https://cdn.example.com/anime.png" None eq_refl).
Defined.

(** C5. In every session, undoing a successful operation shows the image
    that was current before it -- the image of the previous entry, or the
    original when the new entry was the first -- and pressing Undo often
    enough ends at the original image with index -1, where Undo changes
    nothing. *)
Theorem undo_returns_to_previous_image (t0 : Z) (actions : list (Env * Action))
  (env env' : Env) (operation url : string) (parameters : option AIService.Parameters) :
  let w := run (start t0) actions in
  let w1 := step w (env, Process operation parameters) in
  let w2 := step w1 (env', Undo) in
  produced env (st w) operation parameters = Some url ->
  currentImageUrl (st w1) = url
  /\ currentImageUrl (st w2) = currentImageUrl (st w)
  /\ currentHistoryIndex (st w2) = currentHistoryIndex (st w1) - 1
  /\ currentImageUrl (st w2) = imageAt (st w1) (currentHistoryIndex (st w1) - 1)
  /\ (currentHistoryIndex (st w1) = 0 -> currentImageUrl (st w2) = originalImageUrl (st w1))
  /\ (forall n : nat,
        currentHistoryIndex (st w1) + 1 <= Z.of_nat n ->
        let w3 := run w1 (undos env' n) in
        currentHistoryIndex (st w3) = -1
        /\ currentImageUrl (st w3) = originalImageUrl (st w1)
        /\ step w3 (env', Undo) = w3).
Proof.
  intros w w1 w2 Hp.
  pose proof (session_consistent t0 actions) as Hw. fold w in Hw.
  pose proof Hw as [Hr Hc].
  assert (H1 : st w1 = adopted env (st w) w operation url)
    by (unfold w1; rewrite process_step; apply process_succeeded; exact Hp).
  assert (Hc1 : consistent (st w1)) by (apply step_consistent; exact Hw).
  pose proof Hc1 as [Hr1 _].
  assert (Hi1 : currentHistoryIndex (st w1) = currentHistoryIndex (st w) + 1).
  { rewrite H1. unfold adopted; cbn. rewrite slice_prefix by lia.
    rewrite length_app, length_firstn. cbn [length]. lia. }
  assert (H2 : w2 = withState w1 (moveTo (st w1) (currentHistoryIndex (st w1) - 1)))
    by (unfold w2; apply undo_moves; lia).
  assert (Himg : imageAt (st w1) (currentHistoryIndex (st w1) - 1) = currentImageUrl (st w)).
  { rewrite Hi1. replace (currentHistoryIndex (st w) + 1 - 1)
      with (currentHistoryIndex (st w)) by lia.
    rewrite Hc. unfold shown, imageAt. rewrite H1. unfold adopted; cbn.
    destruct (currentHistoryIndex (st w) =? -1) eqn:E; [reflexivity|].
    apply Z.eqb_neq in E. rewrite slice_prefix by lia.
    rewrite !index_nth by lia.
    rewrite nth_error_app1 by (rewrite length_firstn; lia).
    rewrite nth_error_firstn.
    destruct (Nat.ltb_spec (Z.to_nat (currentHistoryIndex (st w)))
                (Z.to_nat (currentHistoryIndex (st w) + 1))); [reflexivity|lia]. }
  split; [rewrite H1; reflexivity|].
  split; [rewrite H2; cbn; exact Himg|].
  split; [rewrite H2; reflexivity|].
  split; [rewrite H2; reflexivity|].
  split.
  - intros E. rewrite H2. cbn. unfold imageAt. rewrite E. reflexivity.
  - intros n Hn w3.
    destruct (undos_reach_original env' n w1 Hc1 Hn) as [Hi Hu].
    split; [exact Hi|]. split; [exact Hu|].
    apply undo_at_original. exact Hi.
Qed.


(** The scenario of the specification: upload, style transfer, undo. *)
Lemma undo_returns_to_previous_image_witness :
  let env := Scenario.editor Scenario.styled in
  let w := Scenario.loaded in
  let w1 := step w (env, Process "style-transfer" Scenario.anime) in
  let w2 := step w1 (env, Undo) in
  map operation (editHistory (st w1)) = ["style-transfer"]
  /\ currentImageUrl (st w2) = "blob:photo"
  /\ (currentImageUrl (st w1) = "https://cdn.example.com/anime.png"
      /\ currentImageUrl (st w2) = currentImageUrl (st w)
      /\ currentHistoryIndex (st w2) = currentHistoryIndex (st w1) - 1
      /\ currentImageUrl (st w2) = imageAt (st w1) (currentHistoryIndex (st w1) - 1)
      /\ (currentHistoryIndex (st w1) = 0 -> currentImageUrl (st w2) = originalImageUrl (st w1))
      /\ (forall n : nat,
            currentHistoryIndex (st w1) + 1 <= Z.of_nat n ->
            let w3 := run w1 (undos env n) in
            currentHistoryIndex (st w3) = -1
            /\ currentImageUrl (st w3) = originalImageUrl (st w1)
            /\ step w3 (env, Undo) = w3)).
Proof.
  split; [reflexivity|]. split; [reflexivity|].
  exact (undo_returns_to_previous_image 0
           [(Scenario.editor Scenario.styled, Drop [Scenario.photo])]
           (Scenario.editor Scenario.styled) (Scenario.editor Scenario.styled)
           "style-transfer" "https://cdn.example.com/anime.png" Scenario.anime eq_refl).
Defined.

(** C6. In every session whose index is at an entry, Undo followed by Redo
    gives back the very same state, index and current image included; and
    Redo changes nothing when the index is at the last entry. *)
Theorem redo_inverts_undo (t0 : Z) (actions : list (Env * Action)) (env env' : Env) :
  let w := run (start t0) actions in
  (0 <= currentHistoryIndex (st w) ->
   step (step w (env, Undo)) (env', Redo) = w
   /\ currentHistoryIndex (st (step (step w (env, Undo)) (env', Redo)))
      = currentHistoryIndex (st w)
   /\ currentImageUrl (st (step (step w (env, Undo)) (env', Redo)))
      = currentImageUrl (st w))
  /\ (currentHistoryIndex (st w) = Z.of_nat (length (editHistory (st w))) - 1 ->
      step w (env', Redo) = w).
Proof.
  intros w.
  pose proof (session_consistent t0 actions) as [Hr Hc]. fold w in Hr, Hc.
  split.
  - intros Hpos.
    assert (E : step (step w (env, Undo)) (env', Redo) = w).
    { rewrite undo_moves by lia.
      rewrite redo_moves by (cbn; lia).
      destruct w as [s c tr]. destruct s as [f cur orig p h i status].
      unfold withState, moveTo, imageAt in *. cbn in *.
      replace (i - 1 + 1) with i by lia.
      unfold shown, imageAt in Hc. cbn in Hc. rewrite <- Hc. reflexivity. }
    rewrite E. repeat split.
  - intros Hlast. apply redo_at_end. lia.
Qed.

(** After the upload and the style transfer the index is on the only
    entry: Undo shows the upload, Redo brings the styled image back, and a
    further Redo changes nothing. *)
Lemma redo_inverts_undo_witness :
  let env := Scenario.editor Scenario.styled in
  let w := run (start 0) Scenario.edited in
  currentHistoryIndex (st w) = 0
  /\ currentImageUrl (st (step w (env, Undo))) = "blob:photo"
  /\ step (step w (env, Undo)) (env, Redo) = w
  /\ step w (env, Redo) = w.
Proof.
  split; [reflexivity|]. split; [reflexivity|].
  pose proof (redo_inverts_undo 0 Scenario.edited (Scenario.editor Scenario.styled)
                (Scenario.editor Scenario.styled)) as [Hback Hlast].
  split.
  - exact (proj1 (Hback (Z.le_refl 0))).
  - exact (Hlast eq_refl).
Defined.

(** C7. Whatever the state, Reset shows the original image, empties the
    history and puts the index at -1, and it does not throw. *)
Theorem reset_restores_original (env : Env) (w : World State) :
  fst (dispatch env Reset w) = Ok tt
  /\ currentImageUrl (st (step w (env, Reset))) = originalImageUrl (st (step w (env, Reset)))
  /\ originalImageUrl (st (step w (env, Reset))) = originalImageUrl (st w)
  /\ editHistory (st (step w (env, Reset))) = []
  /\ currentHistoryIndex (st (step w (env, Reset))) = -1.
Proof. repeat split. Qed.

End SessionClaims.

Section UploadClaims.
Import Browser ImageUtils.

Lemma includes_In (l : list string) (t : string) : includes l t = true <-> In t l.
Proof.
  unfold includes. rewrite existsb_exists. split.
  - intros (x & Hx & E). apply String.eqb_eq in E. subst. exact Hx.
  - intros H. exists t. split; [exact H|apply String.eqb_refl].
Qed.

(** C10. [validateImageFile] accepts a file exactly when its MIME type is
    one of image/jpeg, image/jpg, image/png, image/webp, image/gif and its
    size is at most 10 * 1024 * 1024 bytes; a rejection carries one of two
    messages, and [onDrop] then alerts it and hands no file to the editor,
    whose state stays as it was, while an accepted file is handed on. *)
Theorem validateImageFile_accepts_exactly (file : File) :
  (valid (validateImageFile file) = true
   <-> In (type file) ["image/jpeg"; "image/jpg"; "image/png"; "image/webp"; "image/gif"]
       /\ size file <= 10 * 1024 * 1024)
  /\ (valid (validateImageFile file) = true -> error (validateImageFile file) = None)
  /\ (valid (validateImageFile file) = false ->
      error (validateImageFile file)
      = Some "Please upload a valid image file (JPEG, PNG, WebP, or GIF)"
      \/ error (validateImageFile file) = Some "Image size must be less than 10MB")
  /\ (forall (env : ImageEditor.Env) (rest : list File) (w : World ImageEditor.State),
        ImageUploader.onDrop (ImageEditor.handleImageUpload env) (file :: rest) w
        = if valid (validateImageFile file)
          then ImageEditor.handleImageUpload env file w
          else (Ok tt, {| st := st w; clock := clock w;
                          trace := trace w
                                   ++ [EAlert (JS.template (error (validateImageFile file)))] |})).
Proof.
  pose proof (includes_In allowedTypes (type file)) as HIn.
  unfold validateImageFile.
  destruct (includes allowedTypes (type file)) eqn:Hi; cbn [negb].
  - destruct (Z.gtb_spec (size file) maxSize) as [Hgt|Hle]; cbn.
    + split; [|split; [|split]]; try discriminate; try (right; reflexivity).
      * split; [discriminate|]. unfold maxSize in Hgt. intros [_ H]. lia.
      * intros env rest w. unfold ImageUploader.onDrop, validateImageFile.
        rewrite Hi; cbn [negb].
        destruct (Z.gtb_spec (size file) maxSize); [reflexivity|lia].
    + split; [|split; [|split]]; try discriminate; try reflexivity.
      * split; [|reflexivity]. intros _. split; [apply HIn; reflexivity|exact Hle].
      * intros env rest w. unfold ImageUploader.onDrop, validateImageFile.
        rewrite Hi; cbn [negb].
        destruct (Z.gtb_spec (size file) maxSize); [lia|reflexivity].
  - cbn. split; [|split; [|split]]; try discriminate; try (left; reflexivity).
    + split; [discriminate|]. intros [H _]. apply HIn in H. discriminate.
    + intros env rest w. unfold ImageUploader.onDrop, validateImageFile.
      rewrite Hi; cbn [negb]. reflexivity.
Qed.

(** The 2 MB JPEG of the scenario is accepted. *)
Lemma validateImageFile_accepts_exactly_witness :
  valid (validateImageFile Scenario.photo) = true
  /\ error (validateImageFile Scenario.photo) = None.
Proof.
  pose proof (validateImageFile_accepts_exactly Scenario.photo) as (Hiff & Hnone & _).
  assert (Hv : valid (validateImageFile Scenario.photo) = true).
  { apply Hiff. split; [left; reflexivity|cbn; lia]. }
  split; [exact Hv|exact (Hnone Hv)].
Defined.

End UploadClaims.

(** ** Export *)

Section ExportClaims.
Import Browser ExportPanel Naming.

Lemma encodings_app (t1 t2 : list Event) :
  encodings (t1 ++ t2) = (encodings t1 ++ encodings t2)%list.
Proof.
  induction t1 as [|e t1 IH]; simpl; [reflexivity|].
  destruct e; simpl; rewrite ?IH; reflexivity.
Qed.

Lemma savedNames_app (t1 t2 : list Event) :
  savedNames (t1 ++ t2) = (savedNames t1 ++ savedNames t2)%list.
Proof.
  induction t1 as [|e t1 IH]; simpl; [reflexivity|].
  destruct e; simpl; rewrite ?IH; reflexivity.
Qed.

(** C8. With format [png] the export does not read the quality: it is the
    same run for every quality, it never calls the encoder, and it
    downloads the decoded image data.  With [jpg] or [webp] the image is
    drawn on a canvas -- over a white fill for [jpg] -- and encoded with
    the quality divided by 100. *)
Theorem export_quality (env : Env) (props : Props) (s : State) (w : World State)
  (img : string) :
  imageData props = Some img ->
  JS.truthy img = true ->
  (exportFormat s = "png" ->
   (forall q : list Z,
       handleDownload env props
         {| exportFormat := exportFormat s; quality := q;
            customName := customName s; isExporting := isExporting s |} w
       = handleDownload env props s w)
   /\ encodings (trace (snd (handleDownload env props s w))) = encodings (trace w)
   /\ (forall bytes,
          atob env (if JS.includes_char img ","
                    then JS.template (nth_error (JS.split_char img ",") 1)
                    else img) = Some bytes ->
          trace (snd (handleDownload env props s w))
          = (trace w ++ [EAnchorDownload "image/png" bytes
                            (generateFileName env props s ++ ".png")])%list))
  /\ (exportFormat s = "jpg" \/ exportFormat s = "webp" ->
      forall (q width height : Z) (blob : string),
        nth_error (quality s) 0 = Some q ->
        loadImage env img = Some (width, height) ->
        context2d env = true ->
        encode env img (String.eqb (exportFormat s) "jpg") ("image/" ++ exportFormat s)
          (Some (q # 100)) = Some blob ->
        fst (handleDownload env props s w) = Ok tt
        /\ trace (snd (handleDownload env props s w))
           = (trace w
              ++ (if String.eqb (exportFormat s) "jpg"
                  then [EFillRect "white" width height] else [])
              ++ [EDrawImage img;
                  EToBlob ("image/" ++ exportFormat s) (Some (q # 100));
                  ESaveAs blob (generateFileName env props s ++ "." ++ exportFormat s)])%list).
Proof.
  intros Himg Ht. split.
  - intros Hpng. unfold handleDownload, generateFileName.
    rewrite Himg. cbn [JS.opt_truthy JS.template exportFormat customName].
    rewrite Ht, Hpng. cbn [String.eqb Ascii.eqb Bool.eqb].
    split; [reflexivity|].
    unfold finally, try_catch, bind, downloadImage, setIsExporting, update.
    cbn [fst snd st clock trace].
    destruct (atob env _) as [bytes|]; cbn.
    + split; [rewrite !encodings_app; cbn; apply app_nil_r|].
      intros bytes' E. injection E as <-. reflexivity.
    + split; [rewrite !encodings_app; cbn; rewrite !app_nil_r; reflexivity|].
      intros bytes' E. discriminate E.
  - intros Hfmt q width height blob Hq Hload Hctx Henc.
    assert (Hnp : String.eqb (exportFormat s) "png" = false)
      by (destruct Hfmt as [E|E]; rewrite E; reflexivity).
    unfold handleDownload. rewrite Himg. cbn [JS.opt_truthy JS.template].
    rewrite Ht, Hnp, Hq.
    unfold finally, try_catch, bind, convertAndDownload, setIsExporting, update.
    cbn [fst snd st clock trace].
    rewrite Hload, Hctx. cbn [negb encoderQuality]. rewrite Henc.
    destruct (String.eqb (exportFormat s) "jpg"); cbn;
      (split; [reflexivity|]); rewrite <- !app_assoc; reflexivity.
Qed.

Lemma export_quality_witness :
  let env := Scenario.exporter Scenario.late in
  let img := "data:image/png;base64,QUJD" in
  trace (snd (handleDownload env Scenario.panel (Scenario.exporting "jpg" "" 75)
                Scenario.idle))
  = [EFillRect "white" 640 480; EDrawImage img; EToBlob "image/jpg" (Some (75 # 100));
     ESaveAs "image/jpg" "photo-edited-2025-08-30T17-49-45.jpg"].
Proof.
  exact (proj2 (proj2 (export_quality (Scenario.exporter Scenario.late) Scenario.panel
                  (Scenario.exporting "jpg" "" 75) Scenario.idle
                  "data:image/png;base64,QUJD" eq_refl eq_refl)
                (or_introl eq_refl) 75 640 480 "image/jpg"
                eq_refl eq_refl eq_refl eq_refl)).
Defined.


(** *** File names *)

Lemma truthy_nonempty (s : string) : JS.truthy s = true <-> s <> "".
Proof. destruct s; cbn; split; congruence. Qed.

Lemma take_app (a b : string) (n : nat) :
  JS.take (String.length a + n) (a ++ b) = a ++ JS.take n b.
Proof.
  induction a as [|c a IH]; cbn [String.length Nat.add append].
  - reflexivity.
  - cbn [JS.take]. rewrite IH. reflexivity.
Qed.

Lemma append_assoc (a b c : string) : (a ++ b) ++ c = a ++ (b ++ c).
Proof. induction a as [|x a IH]; cbn; [reflexivity|rewrite IH; reflexivity]. Qed.

Lemma replace_all_app (a b : string) (c : ascii) (r : string) :
  JS.replace_all (a ++ b) c r = JS.replace_all a c r ++ JS.replace_all b c r.
Proof.
  induction a as [|d a IH]; cbn [append JS.replace_all]; [reflexivity|].
  rewrite IH. destruct (Ascii.eqb d c); cbn [append].
  - rewrite append_assoc. reflexivity.
  - reflexivity.
Qed.

Lemma append_length (a b : string) :
  String.length (a ++ b) = (String.length a + String.length b)%nat.
Proof. induction a as [|c a IH]; cbn; [reflexivity|rewrite IH; reflexivity]. Qed.

Lemma pad_length (width : nat) : forall n, String.length (pad width n) = width.
Proof.
  induction width as [|width IH]; intros n; cbn [pad]; [reflexivity|].
  rewrite append_length, IH. cbn. lia.
Qed.

Lemma digit_not_colon (n : Z) : Ascii.eqb (digit (n mod 10)) ":" = false.
Proof.
  assert (H : 0 <= n mod 10 < 10) by (apply Z.mod_pos_bound; lia).
  assert (E : n mod 10 = 0 \/ n mod 10 = 1 \/ n mod 10 = 2 \/ n mod 10 = 3
              \/ n mod 10 = 4 \/ n mod 10 = 5 \/ n mod 10 = 6 \/ n mod 10 = 7
              \/ n mod 10 = 8 \/ n mod 10 = 9) by lia.
  repeat destruct E as [E|E]; rewrite E; reflexivity.
Qed.

Lemma pad_no_colon (width : nat) : forall n,
  JS.replace_all (pad width n) ":" "-" = pad width n.
Proof.
  induction width as [|width IH]; intros n; cbn [pad]; [reflexivity|].
  rewrite replace_all_app, IH. cbn [JS.replace_all].
  rewrite digit_not_colon. reflexivity.
Qed.

Lemma take_pad (width : nat) (n : Z) (k : nat) (rest : string) :
  JS.take (width + k) (pad width n ++ rest) = pad width n ++ JS.take k rest.
Proof.
  rewrite <- (pad_length width n) at 1. apply take_app.
Qed.

Lemma take_cons (c : ascii) (k : nat) (rest : string) :
  JS.take (S k) (String c rest) = String c (JS.take k rest).
Proof. reflexivity. Qed.

(** The first 19 characters of the ISO string reach the seconds when the
    year has four digits, and the minutes when it is written with a sign
    and six digits. *)
Lemma timestamp_of_the_name (d : DateTime) :
  JS.replace_all (JS.take 19 (toISOString d)) ":" "-" = stamp d.
Proof.
  unfold toISOString, stamp.
  destruct ((0 <=? year d) && (year d <=? 9999)).
  - cbn [append].
    rewrite (take_pad 4 _ 15), (take_cons _ 14).
    rewrite (take_pad 2 _ 12), (take_cons _ 11).
    rewrite (take_pad 2 _ 9), (take_cons _ 8).
    rewrite (take_pad 2 _ 6), (take_cons _ 5).
    rewrite (take_pad 2 _ 3), (take_cons _ 2).
    rewrite (take_pad 2 _ 0). cbn [JS.take].
    repeat (rewrite replace_all_app, pad_no_colon;
            cbn [JS.replace_all Ascii.eqb Bool.eqb append]).
    reflexivity.
  - destruct (year d <? 0); cbn [append];
      rewrite (take_cons _ 18);
      rewrite (take_pad 6 _ 12), (take_cons _ 11);
      rewrite (take_pad 2 _ 9), (take_cons _ 8);
      rewrite (take_pad 2 _ 6), (take_cons _ 5);
      rewrite (take_pad 2 _ 3), (take_cons _ 2);
      rewrite (take_pad 2 _ 0); cbn [JS.take];
      cbn [JS.replace_all Ascii.eqb Bool.eqb append];
      repeat (rewrite replace_all_app, pad_no_colon;
              cbn [JS.replace_all Ascii.eqb Bool.eqb append]);
      reflexivity.
Qed.

Lemma generated_name (env : Env) (props : Props) (s : State) :
  generateFileName env props s
  = if JS.truthy (JS.trim (customName s)) then JS.trim (customName s)
    else (if JS.opt_truthy (originalImageName props)
          then stripExtension (JS.template (originalImageName props))
          else "edited-image")
         ++ "-edited-" ++ JS.replace_all (JS.take 19 (toISOString (now env))) ":" "-".
Proof. reflexivity. Qed.

(** The names [handleDownload] saves under. *)
Lemma download_names (env : Env) (props : Props) (s : State) (w : World State) :
  savedNames (trace (snd (handleDownload env props s w))) = savedNames (trace w)
  \/ savedNames (trace (snd (handleDownload env props s w)))
     = (savedNames (trace w)
        ++ [(generateFileName env props s ++ "." ++ exportFormat s)%string])%list.
Proof.
  unfold handleDownload.
  destruct (JS.opt_truthy (imageData props)); [|left; reflexivity].
  unfold finally, try_catch, bind, setIsExporting, update. cbn [fst snd st clock trace].
  destruct (String.eqb_spec (exportFormat s) "png") as [E|E].
  - unfold downloadImage. destruct (atob env _); cbn.
    + right. rewrite savedNames_app, E. reflexivity.
    + left. rewrite !savedNames_app. cbn. rewrite !app_nil_r. reflexivity.
  - unfold convertAndDownload.
    destruct (loadImage env _) as [[width height]|]; cbn;
      [|left; rewrite !savedNames_app; cbn; rewrite !app_nil_r; reflexivity].
    destruct (context2d env); cbn;
      [|left; rewrite !savedNames_app; cbn; rewrite !app_nil_r; reflexivity].
    destruct (encode env _ _ _ _); destruct (String.eqb (exportFormat s) "jpg");
      try destruct (noBlob env _); cbn;
      rewrite !savedNames_app; cbn; rewrite ?app_nil_r;
      solve [right; reflexivity | left; reflexivity].
Qed.

(** C9, as the code has it, for every export.  A custom name that is not
    blank is used with its surrounding white space trimmed (the white
    space of [trim], the no-break space and the other Unicode spaces
    included); otherwise the name is the upload's name without its last
    extension (or [edited-image]), then [-edited-], then the first 19
    characters of the UTC ISO date-time with hyphens for the colons: the
    date and time to the second, [YYYY-MM-DDTHH-mm-ss], for a year from 0
    to 9999, and to the minute behind a signed six-digit year otherwise.
    A download saves under that name followed by a dot and the format. *)
Theorem generateFileName_trimmed_or_stamped (env : Env) (props : Props) (s : State) :
  (JS.trim (customName s) <> "" ->
   generateFileName env props s = JS.trim (customName s))
  /\ (JS.trim (customName s) = "" ->
      generateFileName env props s
      = (if JS.opt_truthy (originalImageName props)
         then stripExtension (JS.template (originalImageName props))
         else "edited-image")
        ++ "-edited-" ++ stamp (now env))
  /\ (0 <= year (now env) <= 9999 ->
      stamp (now env)
      = pad 4 (year (now env)) ++ "-" ++ pad 2 (month (now env))
        ++ "-" ++ pad 2 (day (now env)) ++ "T" ++ pad 2 (hours (now env))
        ++ "-" ++ pad 2 (minutes (now env)) ++ "-" ++ pad 2 (seconds (now env)))
  /\ (forall w : World State,
        savedNames (trace (snd (handleDownload env props s w))) = savedNames (trace w)
        \/ savedNames (trace (snd (handleDownload env props s w)))
           = (savedNames (trace w)
              ++ [(generateFileName env props s ++ "." ++ exportFormat s)%string])%list).
Proof.
  rewrite generated_name, timestamp_of_the_name.
  split; [|split; [|split]].
  - intros H. apply truthy_nonempty in H. rewrite H. reflexivity.
  - intros H. rewrite H. reflexivity.
  - intros Hy. unfold stamp.
    replace ((0 <=? year (now env)) && (year (now env) <=? 9999)) with true
      by (symmetry; apply andb_true_iff; split; apply Z.leb_le; lia).
    reflexivity.
  - intros w. rewrite <- timestamp_of_the_name, <- generated_name.
    apply download_names.
Qed.

(** A generated name of the year 2025 and one of the year 10000; a custom
    name between blanks and one between a no-break space and an em
    space. *)
Lemma generateFileName_trimmed_or_stamped_witness :
  generateFileName (Scenario.exporter Scenario.late) Scenario.panel
    (Scenario.exporting "webp" "" 90)
  = "photo-edited-2025-08-30T17-49-45"
  /\ generateFileName (Scenario.exporter Scenario.distant) Scenario.panel
       (Scenario.exporting "webp" "" 90)
     = "photo-edited-+010000-01-02T03-04"
  /\ generateFileName (Scenario.exporter Scenario.late) Scenario.panel
       (Scenario.exporting "webp" "  holiday  " 90)
     = "holiday"
  /\ generateFileName (Scenario.exporter Scenario.late) Scenario.panel
       (Scenario.exporting "webp" (Scenario.nbsp ++ "holiday" ++ Scenario.emsp) 90)
     = "holiday".
Proof.
  split; [|split; [|split]].
  - exact (proj1 (proj2 (generateFileName_trimmed_or_stamped
                           (Scenario.exporter Scenario.late) Scenario.panel
                           (Scenario.exporting "webp" "" 90)))
             eq_refl).
  - exact (proj1 (proj2 (generateFileName_trimmed_or_stamped
                           (Scenario.exporter Scenario.distant) Scenario.panel
                           (Scenario.exporting "webp" "" 90)))
             eq_refl).
  - exact (proj1 (generateFileName_trimmed_or_stamped
                    (Scenario.exporter Scenario.late) Scenario.panel
                    (Scenario.exporting "webp" "  holiday  " 90))
             ltac:(discriminate)).
  - exact (proj1 (generateFileName_trimmed_or_stamped
                    (Scenario.exporter Scenario.late) Scenario.panel
                    (Scenario.exporting "webp" (Scenario.nbsp ++ "holiday" ++ Scenario.emsp) 90))
             ltac:(discriminate)).
Defined.

(** C9 as stated fails twice.  A custom name with surrounding blanks is
    not used verbatim (and a blank one is not used at all); and two exports
    within the same minute get different names, so the time stamp is not
    cut at the minute. *)
Lemma generateFileName_not_verbatim_not_minute :
  ("  holiday  " <> ""
   /\ generateFileName (Scenario.exporter Scenario.late) Scenario.panel
        (Scenario.exporting "png" "  holiday  " 90)
      <> "  holiday  ")
  /\ (" " <> ""
      /\ generateFileName (Scenario.exporter Scenario.late) Scenario.panel
           (Scenario.exporting "png" " " 90)
         <> " ")
  /\ (year Scenario.early = year Scenario.late
      /\ month Scenario.early = month Scenario.late
      /\ day Scenario.early = day Scenario.late
      /\ hours Scenario.early = hours Scenario.late
      /\ minutes Scenario.early = minutes Scenario.late
      /\ generateFileName (Scenario.exporter Scenario.early) Scenario.panel
           (Scenario.exporting "png" "" 90)
         <> generateFileName (Scenario.exporter Scenario.late) Scenario.panel
              (Scenario.exporting "png" "" 90)).
Proof.
  repeat split; try discriminate; intros H; vm_compute in H; discriminate H.
Qed.

End ExportClaims.

(** * Further properties of the code *)

(** ** The session: invariants and history navigation *)

Section SessionExtras.
Import Browser ImageUtils ImageEditor Outcome Session Navigation.

Lemma world_eta (w : World State) : withState w (st w) = w.
Proof. destruct w; reflexivity. Qed.

Lemma moveTo_here (s : State) : consistent s -> moveTo s (currentHistoryIndex s) = s.
Proof.
  intros [_ Hc]. destruct s as [f cur orig p h i status].
  unfold moveTo, shown in *. cbn in *. rewrite <- Hc. reflexivity.
Qed.

Lemma moveTo_moveTo (s : State) (i j : Z) : moveTo (moveTo s i) j = moveTo s j.
Proof. reflexivity. Qed.

(** Where each history control leads, in a consistent state. *)
Lemma navigation_step env w a j :
  consistent (st w) -> target (st w) a = Some j ->
  step w (env, a) = withState w (moveTo (st w) j)
  /\ -1 <= j < Z.of_nat (length (editHistory (st w))).
Proof.
  intros Hc Ht. pose proof Hc as [Hr _].
  destruct a as [files|operation parameters| | | | |index|]; try discriminate Ht;
    unfold target in Ht; injection Ht as <-.
  - unfold canUndo. destruct (Z.geb_spec (currentHistoryIndex (st w)) 0).
    + rewrite undo_moves by lia. split; [reflexivity|lia].
    + rewrite undo_at_original by lia.
      rewrite moveTo_here by exact Hc. rewrite world_eta. split; [reflexivity|lia].
  - unfold canRedo.
    destruct (Z.ltb_spec (currentHistoryIndex (st w))
                (Z.of_nat (length (editHistory (st w))) - 1)).
    + rewrite redo_moves by lia. split; [reflexivity|lia].
    + rewrite redo_at_end by lia.
      rewrite moveTo_here by exact Hc. rewrite world_eta. split; [reflexivity|lia].
  - split; [reflexivity|lia].
  - unfold step, dispatch, handler, selectEntry; cbn [fst snd].
    destruct (Nat.ltb_spec index (length (editHistory (st w)))) as [Hlt|Hge].
    + destruct (nth_error (editHistory (st w)) index) as [edit|] eqn:He;
        [|apply nth_error_None in He; lia].
      split; [|lia].
      unfold withState, moveTo, imageAt. cbn.
      destruct (Z.eqb_spec (Z.of_nat index) (-1)); [lia|].
      rewrite index_nth by lia. rewrite Nat2Z.id, He. reflexivity.
    + destruct (nth_error (editHistory (st w)) index) as [edit|] eqn:He;
        [assert (index < length (editHistory (st w)))%nat
           by (apply nth_error_Some; congruence); lia|].
      cbn. rewrite moveTo_here by exact Hc. rewrite world_eta. split; [reflexivity|lia].
Qed.

Lemma step_idle w env a :
  isProcessing (st w) = false -> isProcessing (st (step w (env, a))) = false.
Proof.
  intros H. destruct a as [files|operation parameters| | | | |index|]; try exact H.
  - unfold step, dispatch, handler, ImageUploader.onDrop; cbn [fst snd].
    destruct files as [|file rest]; [exact H|].
    destruct (valid (validateImageFile file)); exact H.
  - unfold step, dispatch, handler, handleProcessImage; cbn [fst snd].
    destruct (currentFile (st w)) as [file|]; [|exact H].
    destruct (JS.truthy (currentImageUrl (st w))); [|exact H].
    destruct (fileToBase64 file) as [b|]; [|reflexivity].
    unfold finally, try_catch, bind.
    cbn [setIsProcessing setProcessingStatus update ret].
    rewrite callService_request, processImage_run.
    destruct (AIService.success (reply (service env) (requestFor operation parameters b))
              && JS.opt_truthy
                   (AIService.data (reply (service env) (requestFor operation parameters b))));
      reflexivity.
  - unfold step, dispatch, handler, handleUndo; cbn [fst snd].
    destruct (currentHistoryIndex (st w) >? 0).
    + unfold bind, imageUrlAt, setCurrentHistoryIndex, update. cbn.
      destruct (JS.index (editHistory (st w)) (currentHistoryIndex (st w) - 1)); exact H.
    + destruct (currentHistoryIndex (st w) =? 0); exact H.
  - unfold step, dispatch, handler, handleRedo; cbn [fst snd].
    destruct (currentHistoryIndex (st w) <? Z.of_nat (length (editHistory (st w))) - 1);
      [|exact H].
    unfold bind, imageUrlAt, setCurrentHistoryIndex, update. cbn.
    destruct (JS.index (editHistory (st w)) (currentHistoryIndex (st w) + 1)); exact H.
  - unfold step, dispatch, handler, selectEntry; cbn [fst snd].
    destruct (nth_error (editHistory (st w)) index); exact H.
Qed.

Lemma step_blank w env a :
  (currentFile (st w) = None -> blank (st w)) ->
  currentFile (st (step w (env, a))) = None -> blank (st (step w (env, a))).
Proof.
  intros IH Hnone. rewrite step_currentFile in Hnone.
  destruct (accepted a) as [f|] eqn:Ha; [discriminate|].
  destruct (IH Hnone) as (Hc & Ho & Hh & Hi).
  destruct a as [files|operation parameters| | | | |index|].
  - rewrite drop_rejected by exact Ha. repeat split; assumption.
  - unfold step, dispatch, handler, handleProcessImage; cbn [fst snd].
    rewrite Hnone. cbn. repeat split; assumption.
  - rewrite undo_at_original by exact Hi. repeat split; assumption.
  - rewrite redo_at_end by (rewrite Hh, Hi; cbn; lia). repeat split; assumption.
  - repeat split; cbn; assumption.
  - repeat split; cbn; assumption.
  - unfold step, dispatch, handler, selectEntry; cbn [fst snd].
    rewrite Hh. destruct index; cbn; repeat split; assumption.
  - repeat split; cbn; assumption.
Qed.

Lemma run_invariants actions : forall w,
  isProcessing (st w) = false ->
  (currentFile (st w) = None -> blank (st w)) ->
  isProcessing (st (run w actions)) = false
  /\ (currentFile (st (run w actions)) = None -> blank (st (run w actions))).
Proof.
  induction actions as [|[env a] rest IH]; intros w Hi Hb; [split; assumption|].
  cbn [run fold_left]. fold (run (step w (env, a)) rest).
  apply IH; [apply step_idle; exact Hi|apply step_blank; exact Hb].
Qed.

(** X1. In every state of a session the history index is -1 or a position
    of the history, the current image is the one that position stands
    for, no operation is marked as running, and without a file there is
    neither an image nor a history. *)
Theorem session_invariant (t0 : Z) (actions : list (Env * Action)) :
  let s := st (run (start t0) actions) in
  -1 <= currentHistoryIndex s < Z.of_nat (length (editHistory s))
  /\ currentImageUrl s
     = (if currentHistoryIndex s =? -1 then originalImageUrl s
        else match nth_error (editHistory s) (Z.to_nat (currentHistoryIndex s)) with
             | Some entry => imageUrl entry
             | None => ""
             end)
  /\ isProcessing s = false
  /\ (currentFile s = None ->
      currentImageUrl s = "" /\ originalImageUrl s = ""
      /\ editHistory s = [] /\ currentHistoryIndex s = -1).
Proof.
  intros s. pose proof (session_consistent t0 actions) as [Hr Hc]. fold s in Hr, Hc.
  destruct (run_invariants actions (start t0)) as [Hi Hb];
    [reflexivity|intros _; repeat split|].
  fold s in Hi, Hb.
  split; [exact Hr|]. split; [|split; [exact Hi|exact Hb]].
  rewrite Hc. unfold shown, imageAt.
  destruct (Z.eqb_spec (currentHistoryIndex s) (-1)); [reflexivity|].
  rewrite index_nth by lia. reflexivity.
Qed.

Lemma dispatch_returns env a w :
  consistent (st w) -> fst (dispatch env a w) = Ok tt.
Proof.
  intros [Hr _]. destruct a as [files|operation parameters| | | | |index|];
    unfold dispatch, handler.
  - unfold ImageUploader.onDrop. destruct files as [|file rest]; [reflexivity|].
    destruct (valid (validateImageFile file)); reflexivity.
  - apply process_returns.
  - unfold handleUndo. destruct (Z.gtb_spec (currentHistoryIndex (st w)) 0).
    + destruct (index_in_range (editHistory (st w)) (currentHistoryIndex (st w) - 1))
        as [entry He]; [lia|].
      unfold bind, imageUrlAt, setCurrentHistoryIndex, update. cbn. rewrite He. reflexivity.
    + destruct (currentHistoryIndex (st w) =? 0); reflexivity.
  - unfold handleRedo.
    destruct (Z.ltb_spec (currentHistoryIndex (st w))
                (Z.of_nat (length (editHistory (st w))) - 1)); [|reflexivity].
    destruct (index_in_range (editHistory (st w)) (currentHistoryIndex (st w) + 1))
      as [entry He]; [lia|].
    unfold bind, imageUrlAt, setCurrentHistoryIndex, update. cbn. rewrite He. reflexivity.
  - reflexivity.
  - reflexivity.
  - unfold selectEntry. destruct (nth_error (editHistory (st w)) index); reflexivity.
  - reflexivity.
Qed.

(** X2. No handler of the editor throws in a session: every action, in
    every state a session reaches, returns normally (the reads of
    [editHistory[index ± 1].imageUrl] never meet [undefined]). *)
Theorem no_handler_throws (t0 : Z) (actions : list (Env * Action)) (env : Env) (a : Action) :
  fst (dispatch env a (run (start t0) actions)) = Ok tt.
Proof. apply dispatch_returns, session_consistent. Qed.

(** X3. The Undo handler changes the state exactly when [canUndo] holds,
    and the Redo handler exactly when [canRedo] holds: the flags that
    disable the buttons agree with the guards inside the handlers. *)
Theorem controls_agree_with_handlers (t0 : Z) (actions : list (Env * Action)) (env : Env) :
  let w := run (start t0) actions in
  (step w (env, Undo) = w <-> canUndo (st w) = false)
  /\ (step w (env, Redo) = w <-> canRedo (st w) = false)
  /\ currentHistoryIndex (st (step w (env, Undo)))
     = (if canUndo (st w) then currentHistoryIndex (st w) - 1 else currentHistoryIndex (st w))
  /\ currentHistoryIndex (st (step w (env, Redo)))
     = (if canRedo (st w) then currentHistoryIndex (st w) + 1 else currentHistoryIndex (st w)).
Proof.
  intros w. pose proof (session_consistent t0 actions) as Hc. fold w in Hc.
  destruct (navigation_step env w Undo _ Hc eq_refl) as [Hu _].
  destruct (navigation_step env w Redo _ Hc eq_refl) as [Hd _].
  assert (Iu : currentHistoryIndex (st (step w (env, Undo)))
               = (if canUndo (st w) then currentHistoryIndex (st w) - 1
                  else currentHistoryIndex (st w))) by (rewrite Hu; reflexivity).
  assert (Id : currentHistoryIndex (st (step w (env, Redo)))
               = (if canRedo (st w) then currentHistoryIndex (st w) + 1
                  else currentHistoryIndex (st w))) by (rewrite Hd; reflexivity).
  split; [|split; [|split; assumption]].
  - split.
    + intros E. rewrite E in Iu. destruct (canUndo (st w)); [lia|reflexivity].
    + intros E. rewrite Hu, E. rewrite moveTo_here by exact Hc. apply world_eta.
  - split.
    + intros E. rewrite E in Id. destruct (canRedo (st w)); [lia|reflexivity].
    + intros E. rewrite Hd, E. rewrite moveTo_here by exact Hc. apply world_eta.
Qed.

End SessionExtras.

Section NavigationExtras.
Import Browser ImageUtils ImageEditor Outcome Session Navigation.

Lemma undos_walk env n : forall w,
  consistent (st w) ->
  run w (undos env n)
  = withState w (moveTo (st w) (Z.max (currentHistoryIndex (st w) - Z.of_nat n) (-1))).
Proof.
  induction n as [|n IH]; intros w Hc.
  - cbn [undos repeat run fold_left]. pose proof Hc as [Hr _].
    replace (Z.max (currentHistoryIndex (st w) - Z.of_nat 0) (-1))
      with (currentHistoryIndex (st w)) by lia.
    rewrite moveTo_here by exact Hc. symmetry. apply world_eta.
  - cbn [undos repeat run fold_left]. fold (undos env n).
    fold (run (step w (env, Undo)) (undos env n)).
    destruct (navigation_step env w Undo _ Hc eq_refl) as [Hu Hj].
    rewrite Hu, IH by (apply moveTo_consistent; exact Hj).
    unfold withState; cbn [st clock trace]. rewrite moveTo_moveTo.
    cbn [moveTo currentHistoryIndex]. do 2 f_equal.
    pose proof Hc as [Hr _]. unfold canUndo.
    destruct (Z.geb_spec (currentHistoryIndex (st w)) 0); lia.
Qed.

(** X4. In every session where Redo is enabled, Redo followed by Undo
    gives back the very same state. *)
Theorem undo_inverts_redo (t0 : Z) (actions : list (Env * Action)) (env env' : Env) :
  canRedo (st (run (start t0) actions)) = true ->
  step (step (run (start t0) actions) (env, Redo)) (env', Undo) = run (start t0) actions.
Proof.
  intros Hcan. set (w := run (start t0) actions) in *.
  pose proof (session_consistent t0 actions) as Hc. fold w in Hc. pose proof Hc as [Hr _].
  unfold canRedo in Hcan. apply Z.ltb_lt in Hcan.
  rewrite redo_moves by lia.
  rewrite undo_moves by (cbn; lia).
  unfold withState; cbn [st clock trace]. rewrite moveTo_moveTo. cbn [moveTo currentHistoryIndex].
  replace (currentHistoryIndex (st w) + 1 - 1) with (currentHistoryIndex (st w)) by lia.
  rewrite moveTo_here by exact Hc. apply world_eta.
Qed.

Lemma undo_inverts_redo_witness :
  let env := Scenario.editor Scenario.styled in
  let w := run (start 0) (Scenario.edited ++ [(env, Undo)]) in
  currentImageUrl (st w) = "blob:photo"
  /\ currentImageUrl (st (step w (env, Redo))) = "https://cdn.example.com/anime.png"
  /\ step (step w (env, Redo)) (env, Undo) = w.
Proof.
  split; [reflexivity|]. split; [reflexivity|].
  exact (undo_inverts_redo 0
           (Scenario.edited ++ [(Scenario.editor Scenario.styled, Undo)])
           (Scenario.editor Scenario.styled) (Scenario.editor Scenario.styled) eq_refl).
Defined.

(** X5. Undo, Redo, the Original button and the buttons of the history
    strip only move the index: in every session they leave the file, the
    original image and every history entry as they are, show the image of
    the position they lead to, and cause no effect besides. *)
Theorem navigation_preserves_history (t0 : Z) (actions : list (Env * Action))
  (env : Env) (a : Action) (j : Z) :
  target (st (run (start t0) actions)) a = Some j ->
  let w := run (start t0) actions in
  let w' := step w (env, a) in
  -1 <= j < Z.of_nat (length (editHistory (st w)))
  /\ currentHistoryIndex (st w') = j
  /\ currentImageUrl (st w') = imageAt (st w) j
  /\ editHistory (st w') = editHistory (st w)
  /\ originalImageUrl (st w') = originalImageUrl (st w)
  /\ currentFile (st w') = currentFile (st w)
  /\ trace w' = trace w.
Proof.
  intros Ht w w'.
  destruct (navigation_step env w a j (session_consistent t0 actions) Ht) as [Hs Hj].
  unfold w'. rewrite Hs. repeat split; apply Hj.
Qed.

Lemma navigation_preserves_history_witness :
  let env := Scenario.editor Scenario.styled in
  let w := run (start 0) (Scenario.edited ++ [(env, SelectOriginal)]) in
  let w' := step w (env, SelectEntry 0) in
  currentImageUrl (st w) = "blob:photo"
  /\ currentImageUrl (st w') = "https://cdn.example.com/anime.png"
  /\ (-1 <= 0 < Z.of_nat (length (editHistory (st w)))
      /\ currentHistoryIndex (st w') = 0
      /\ currentImageUrl (st w') = imageAt (st w) 0
      /\ editHistory (st w') = editHistory (st w)
      /\ originalImageUrl (st w') = originalImageUrl (st w)
      /\ currentFile (st w') = currentFile (st w)
      /\ trace w' = trace w).
Proof.
  split; [reflexivity|]. split; [reflexivity|].
  exact (navigation_preserves_history 0
           (Scenario.edited ++ [(Scenario.editor Scenario.styled, SelectOriginal)])
           (Scenario.editor Scenario.styled) (SelectEntry 0) 0 eq_refl).
Defined.

(** X6. In every session, [n] presses of Undo lead to the position
    [max (index - n) (-1)] with everything else untouched; so pressing it
    at least [index + 1] times is the same as pressing the Original
    button. *)
Theorem undos_equal_select_original (t0 : Z) (actions : list (Env * Action))
  (env : Env) (n : nat) :
  let w := run (start t0) actions in
  run w (undos env n)
  = withState w (moveTo (st w) (Z.max (currentHistoryIndex (st w) - Z.of_nat n) (-1)))
  /\ (currentHistoryIndex (st w) + 1 <= Z.of_nat n ->
      run w (undos env n) = step w (env, SelectOriginal)).
Proof.
  intros w. pose proof (session_consistent t0 actions) as Hc. fold w in Hc.
  split; [apply undos_walk; exact Hc|].
  intros Hn. rewrite undos_walk by exact Hc.
  replace (Z.max (currentHistoryIndex (st w) - Z.of_nat n) (-1)) with (-1) by lia.
  reflexivity.
Qed.

Lemma undos_equal_select_original_witness :
  let env := Scenario.editor Scenario.styled in
  let w := run (start 0) Scenario.edited in
  currentHistoryIndex (st w) = 0
  /\ run w (undos env 3) = step w (env, SelectOriginal).
Proof.
  split; [reflexivity|].
  refine (proj2 (undos_equal_select_original 0 Scenario.edited
                   (Scenario.editor Scenario.styled) 3) _).
  change (0 + 1 <= Z.of_nat 3). lia.
Defined.

End NavigationExtras.

(** ** Operations: guards, unreadable files, empty replies *)

Section OperationExtras.
Import Browser ImageUtils ImageEditor Outcome Session.

(** X7. Without an uploaded file, or without a current image, an operation
    only alerts "Please upload an image first": no request is sent and the
    state is untouched (the processing flag is not even raised). *)
Theorem operation_needs_an_image (env : Env) (w : World State) (operation : string)
  (parameters : option AIService.Parameters) :
  currentFile (st w) = None \/ currentImageUrl (st w) = "" ->
  dispatch env (Process operation parameters) w
  = (Ok tt, {| st := st w; clock := clock w;
               trace := trace w ++ [EAlert "Please upload an image first"] |}).
Proof.
  intros H. unfold dispatch, handler, handleProcessImage.
  destruct H as [H|H]; rewrite H; [reflexivity|].
  destruct (currentFile (st w)); reflexivity.
Qed.

Lemma operation_needs_an_image_witness :
  dispatch (Scenario.editor Scenario.styled) (Process "enhance" None) (start 0)
  = (Ok tt, {| st := initial; clock := 0;
               trace := [EAlert "Please upload an image first"] |}).
Proof.
  exact (operation_needs_an_image (Scenario.editor Scenario.styled) (start 0)
           "enhance" None (or_introl eq_refl)).
Defined.

(** X8. When the file of the session cannot be read, an operation sends no
    request, shows the generic alert, leaves file, images, history and
    index as they were, and ends with the processing flag down and the
    failure status. *)
Theorem unreadable_file_is_reported (env : Env) (w : World State) (operation : string)
  (parameters : option AIService.Parameters) (file : File) :
  currentFile (st w) = Some file ->
  JS.truthy (currentImageUrl (st w)) = true ->
  dataURL file = None ->
  let w' := step w (env, Process operation parameters) in
  fst (dispatch env (Process operation parameters) w) = Ok tt
  /\ fetches (trace w') = fetches (trace w)
  /\ alerts (trace w')
     = (alerts (trace w)
        ++ ["An error occurred while processing the image. Please try again."])%list
  /\ sameSession (st w) (st w')
  /\ isProcessing (st w') = false
  /\ processingStatus (st w') = "❌ Processing failed".
Proof.
  intros Hf Hu Hd w'. unfold w', step, dispatch, handler, handleProcessImage; cbn [fst snd].
  rewrite Hf, Hu. unfold fileToBase64. rewrite Hd.
  unfold finally, try_catch, bind. cbn.
  rewrite !fetches_app, !alerts_app. cbn. rewrite !app_nil_r.
  repeat split.
Qed.

Lemma unreadable_file_is_reported_witness :
  let env := Scenario.editor Scenario.styled in
  let w := run (start 0) [(env, Drop [Cases.damaged])] in
  let w' := step w (env, Process "enhance" None) in
  currentFile (st w) = Some Cases.damaged
  /\ (fst (dispatch env (Process "enhance" None) w) = Ok tt
      /\ fetches (trace w') = fetches (trace w)
      /\ alerts (trace w')
         = (alerts (trace w)
            ++ ["An error occurred while processing the image. Please try again."])%list
      /\ sameSession (st w) (st w')
      /\ isProcessing (st w') = false
      /\ processingStatus (st w') = "❌ Processing failed").
Proof.
  split; [reflexivity|].
  exact (unreadable_file_is_reported (Scenario.editor Scenario.styled)
           (run (start 0) [(Scenario.editor Scenario.styled, Drop [Cases.damaged])])
           "enhance" None Cases.damaged eq_refl eq_refl eq_refl).
Defined.

Lemma process_alert_empty env s operation parameters w file b :
  currentFile s = Some file ->
  JS.truthy (currentImageUrl s) = true ->
  fileToBase64 file = Some b ->
  settle (service env) (requestFor operation parameters b) = inr "" ->
  alerts (trace (snd (handleProcessImage env s operation parameters w)))
  = (alerts (trace w) ++ ["Failed to process image: Unknown error"])%list.
Proof.
  intros Hf Hu Hb Hs.
  unfold handleProcessImage. rewrite Hf, Hu, Hb.
  unfold finally, try_catch, bind.
  cbn [setIsProcessing setProcessingStatus update ret].
  rewrite callService_request, processImage_run.
  unfold reply, after. rewrite Hs. cbn.
  rewrite !alerts_app. cbn. rewrite !app_nil_r. reflexivity.
Qed.

(** X9. A reply with a status in 200..299 from which no image data comes out
    (the extraction yields the empty string) is a success for
    [processImage], with empty data, and a failure for the editor: it
    alerts "Failed to process image: Unknown error" and leaves the session
    as it was. *)
Theorem empty_reply_is_a_failure (env : Env) (w : World State) (operation : string)
  (parameters : option AIService.Parameters) (file : File) (b : option string)
  (r : Response) (v : JsValue) :
  currentFile (st w) = Some file ->
  JS.truthy (currentImageUrl (st w)) = true ->
  fileToBase64 file = Some b ->
  AIService.fetch (service env) (AIService.payloadFor (requestFor operation parameters b))
  = inr r ->
  ok r = true ->
  body r = inr v ->
  AIService.extractImageFromResponse v = inr "" ->
  let w' := step w (env, Process operation parameters) in
  fst (AIService.processImage (service env) (requestFor operation parameters b) w)
  = Ok {| AIService.success := true; AIService.data := Some "";
          AIService.error := None;
          AIService.processingTime := Some (AIService.latency (service env)) |}
  /\ fst (dispatch env (Process operation parameters) w) = Ok tt
  /\ alerts (trace w')
     = (alerts (trace w) ++ ["Failed to process image: Unknown error"])%list
  /\ sameSession (st w) (st w').
Proof.
  intros Hf Hu Hb Hfetch Hok Hbody Hx w'.
  assert (Hs : settle (service env) (requestFor operation parameters b) = inr "")
    by (unfold settle; rewrite Hfetch, Hok, Hbody; exact Hx).
  split; [rewrite processImage_run; unfold reply; rewrite Hs; reflexivity|].
  split; [apply process_returns|].
  split.
  - eapply process_alert_empty; eassumption.
  - apply (process_failed env (st w) operation parameters w).
    unfold produced. rewrite Hf, Hu, Hb, Hs. reflexivity.
Qed.

Lemma empty_reply_is_a_failure_witness :
  let env := Scenario.editor Cases.hollow in
  let w := Scenario.loaded in
  let w' := step w (env, Process "enhance" None) in
  alerts (trace w') = ["Failed to process image: Unknown error"]
  /\ sameSession (st w) (st w').
Proof.
  exact (proj2 (proj2 (empty_reply_is_a_failure (Scenario.editor Cases.hollow)
                         Scenario.loaded "enhance" None Scenario.photo (Some "QUJD")
                         {| status := 200; statusText := "OK";
                            body := inr (JObj [("id", JStr "cmpl-1")]) |}
                         (JObj [("id", JStr "cmpl-1")])
                         eq_refl eq_refl eq_refl eq_refl eq_refl eq_refl eq_refl))).
Defined.

End OperationExtras.

(** ** The sidebar and the requests it causes *)

Section SidebarExtras.
Import Browser ImageUtils AIToolsSidebar ImageEditor Outcome Session Wire.

Lemma truthy_trim (s : string) : JS.truthy (JS.trim s) = true -> JS.truthy s = true.
Proof. destruct s; [discriminate|reflexivity]. Qed.

Lemma or_else_truthy (s d : string) : JS.truthy s = true -> JS.or_else s d = s.
Proof. unfold JS.or_else. intros ->. reflexivity. Qed.

(** X10. A custom edit is sent as a plain enhancement: its request body is
    the one of the Enhance button, instruction included, so the text the
    user typed never leaves the browser; what is sent, what is alerted and
    the images of the session afterwards are the same for both buttons. *)
Theorem custom_edit_is_sent_as_enhance (env : Env) (w : World State) (sb : AIToolsSidebar.State) :
  JS.truthy (JS.trim (customPrompt sb)) = true ->
  let press button := snd (onClick (handleProcessImage env (st w)) sb button w) in
  (forall b, AIService.payloadFor (requestFor "custom-edit" (promptOnly (customPrompt sb)) b)
             = AIService.payloadFor (requestFor "enhance" None b))
  /\ fetches (trace (press CustomEdit)) = fetches (trace (press ImageEnhancement))
  /\ alerts (trace (press CustomEdit)) = alerts (trace (press ImageEnhancement))
  /\ currentImageUrl (st (press CustomEdit)) = currentImageUrl (st (press ImageEnhancement))
  /\ map imageUrl (editHistory (st (press CustomEdit)))
     = map imageUrl (editHistory (st (press ImageEnhancement))).
Proof.
  intros Hp press. split; [reflexivity|].
  unfold press, onClick, handleCustomEdit, handleImageEnhancement. rewrite Hp. cbn [negb].
  unfold handleProcessImage.
  destruct (currentFile (st w)) as [file|]; [|repeat split].
  destruct (JS.truthy (currentImageUrl (st w))); [|repeat split].
  destruct (fileToBase64 file) as [b|]; [|repeat split].
  unfold finally, try_catch, bind.
  cbn [setIsProcessing setProcessingStatus update ret].
  rewrite !callService_request, !processImage_run.
  change (reply (service env) (requestFor "custom-edit" (promptOnly (customPrompt sb)) b))
    with (reply (service env) (requestFor "enhance" None b)).
  unfold reply, after.
  change (settle (service env) (requestFor "custom-edit" (promptOnly (customPrompt sb)) b))
    with (settle (service env) (requestFor "enhance" None b)).
  destruct (settle (service env) (requestFor "enhance" None b)) as [t|d]; cbn.
  - rewrite !fetches_app, !alerts_app. repeat split.
  - destruct (JS.truthy d); cbn.
    + rewrite !fetches_app, !alerts_app, !map_app. repeat split.
    + rewrite !fetches_app, !alerts_app. repeat split.
Qed.

Lemma custom_edit_is_sent_as_enhance_witness :
  let env := Scenario.editor Scenario.styled in
  let press button :=
    snd (onClick (handleProcessImage env (st Scenario.loaded)) Cases.filled button
           Scenario.loaded) in
  textOf (AIService.payloadFor
            (requestFor "custom-edit" (promptOnly "make the sky purple") (Some "QUJD")))
  = JStr "Enhance this image by improving clarity, sharpness, color saturation, and overall quality. Upscale if necessary while maintaining natural appearance and removing any noise or artifacts."
  /\ map operation (editHistory (st (press CustomEdit))) = ["custom-edit"]
  /\ fetches (trace (press CustomEdit)) = fetches (trace (press ImageEnhancement)).
Proof.
  split; [reflexivity|]. split; [reflexivity|].
  exact (proj1 (proj2 (custom_edit_is_sent_as_enhance (Scenario.editor Scenario.styled)
                         Scenario.loaded Cases.filled eq_refl))).
Defined.

(** X11. From the sidebar the instruction always names the user's choice:
    with a style, a filter or a description filled in, the button calls the
    editor with it and the instruction that is built interpolates it, so
    the fall-backs "artistic", "watercolor" and "unwanted object" are never
    used; with the field empty (or blank, for the description) the button
    only alerts. *)
Theorem sidebar_names_the_choice {S : Type}
  (onProcessImage : string -> option AIService.Parameters -> M S unit)
  (sb : AIToolsSidebar.State) (b : option string) :
  (if JS.truthy (selectedStyle sb)
   then onClick onProcessImage sb StyleTransfer
        = onProcessImage "style-transfer" (styleOnly (selectedStyle sb))
        /\ AIService.buildPromptForOperation
             (requestFor "style-transfer" (styleOnly (selectedStyle sb)) b)
           = "Transform this image into " ++ selectedStyle sb
             ++ " style. Apply the artistic transformation while maintaining the core composition and subject matter. Make it visually appealing and high quality."
   else onClick onProcessImage sb StyleTransfer = alert "Please select a style first")
  /\ (if JS.truthy (JS.trim (objectToRemove sb))
      then onClick onProcessImage sb ObjectRemoval
           = onProcessImage "object-removal" (promptOnly (objectToRemove sb))
           /\ AIService.buildPromptForOperation
                (requestFor "object-removal" (promptOnly (objectToRemove sb)) b)
              = "Remove " ++ objectToRemove sb
                ++ " from this image and seamlessly fill in the background. Ensure the removal looks natural and the background blends perfectly without any artifacts."
      else onClick onProcessImage sb ObjectRemoval
           = alert "Please describe what you want to remove")
  /\ (if JS.truthy (selectedFilter sb)
      then onClick onProcessImage sb ArtisticFilter
           = onProcessImage "artistic-filter" (styleOnly (selectedFilter sb))
           /\ AIService.buildPromptForOperation
                (requestFor "artistic-filter" (styleOnly (selectedFilter sb)) b)
              = "Apply a " ++ selectedFilter sb
                ++ " artistic filter to this image. Transform it into a beautiful artistic representation while preserving the main elements and composition."
      else onClick onProcessImage sb ArtisticFilter = alert "Please select a filter first").
Proof.
  split; [|split].
  - unfold onClick, handleStyleTransfer.
    destruct (JS.truthy (selectedStyle sb)) eqn:E; [|reflexivity].
    split; [reflexivity|].
    unfold requestFor, AIService.buildPromptForOperation; cbn.
    rewrite !(or_else_truthy _ _ E). reflexivity.
  - unfold onClick, handleObjectRemoval.
    destruct (JS.truthy (JS.trim (objectToRemove sb))) eqn:E; [|reflexivity].
    apply truthy_trim in E.
    split; [reflexivity|].
    unfold requestFor, AIService.buildPromptForOperation; cbn.
    rewrite !(or_else_truthy _ _ E). reflexivity.
  - unfold onClick, handleArtisticFilter.
    destruct (JS.truthy (selectedFilter sb)) eqn:E; [|reflexivity].
    split; [reflexivity|].
    unfold requestFor, AIService.buildPromptForOperation; cbn.
    rewrite !(or_else_truthy _ _ E). reflexivity.
Qed.

(** A description made of a no-break space and an em space is blank: the
    button only alerts. *)
Lemma sidebar_names_the_choice_witness :
  let blank :=
    {| selectedStyle := ""; customPrompt := "";
       objectToRemove := Scenario.nbsp ++ Scenario.emsp; selectedFilter := "" |} in
  onClick (handleProcessImage (Scenario.editor Scenario.styled) (st Scenario.loaded))
    blank ObjectRemoval
  = alert "Please describe what you want to remove".
Proof.
  exact (proj1 (proj2 (sidebar_names_the_choice
                         (handleProcessImage (Scenario.editor Scenario.styled)
                            (st Scenario.loaded))
                         {| selectedStyle := ""; customPrompt := "";
                            objectToRemove := Scenario.nbsp ++ Scenario.emsp;
                            selectedFilter := "" |}
                         None))).
Defined.

End SidebarExtras.

(** ** The remote client: what is extracted from a reply *)

Section ExtractionExtras.
Import Browser AIService Outcome Text.

Lemma opensSpace_lower (c : ascii) : opensSpace (JS.lower c) = opensSpace c.
Proof. destruct c as [[] [] [] [] [] [] [] []]; reflexivity. Qed.

(** A white-space character starts with one of a few bytes. *)
Lemma white_space_opens (a : ascii) (s : string) :
  opensSpace a = false -> JS.white_space_at (String a s) = false.
Proof.
  destruct a as [[] [] [] [] [] [] [] []]; intros H; try discriminate H;
    destruct s as [|b [|c s]]; reflexivity.
Qed.

(** A white-space character that starts a piece of a string starts the
    string. *)
Lemma white_space_prefix (a b : string) :
  JS.white_space_at (a ++ b) = false -> JS.white_space_at a = false.
Proof.
  destruct a as [|x [|y [|z a]]]; cbn [append]; intros H.
  - reflexivity.
  - unfold JS.white_space_at in *. apply orb_false_iff in H as [H _].
    rewrite H. reflexivity.
  - unfold JS.white_space_at in *. apply orb_false_iff in H as [H1 H2].
    apply orb_false_iff in H2 as [H2 _]. rewrite H1, H2. reflexivity.
  - exact H.
Qed.

Lemma append_nil_r (s : string) : s ++ "" = s.
Proof. induction s as [|c s IH]; cbn; [reflexivity|rewrite IH; reflexivity]. Qed.

Lemma string_app_assoc (a b c : string) : (a ++ b) ++ c = a ++ (b ++ c).
Proof. induction a as [|x a IH]; cbn; [reflexivity|rewrite IH; reflexivity]. Qed.

Lemma spaceProof_app (a b : string) :
  spaceProof a = true -> spaceFree (a ++ b) = spaceFree b.
Proof.
  induction a as [|c a IH]; cbn [append spaceProof spaceFree]; intros H.
  - reflexivity.
  - apply andb_true_iff in H as [Hc Ha]. apply negb_true_iff in Hc.
    rewrite (white_space_opens _ _ Hc), (IH Ha). reflexivity.
Qed.

Lemma spaceProof_free (a : string) : spaceProof a = true -> spaceFree a = true.
Proof.
  intros H. rewrite <- (append_nil_r a), (spaceProof_app _ _ H). reflexivity.
Qed.

Lemma lowerString_app (a b : string) :
  lowerString (a ++ b) = lowerString a ++ lowerString b.
Proof. induction a as [|c a IH]; cbn; [reflexivity|rewrite IH; reflexivity]. Qed.

(** A case-insensitive prefix match splits the subject and copies the
    pattern up to case. *)
Lemma strip_prefix_ci_spec (p : string) : forall s m rest,
  JS.strip_prefix_ci p s = Some (m, rest) ->
  s = m ++ rest /\ lowerString m = lowerString p
  /\ (spaceProof p = true -> spaceProof m = true).
Proof.
  induction p as [|a p IH]; intros s m rest H.
  - cbn in H. injection H as <- <-. repeat split.
  - destruct s as [|b s]; [discriminate|]. cbn in H.
    destruct (Ascii.eqb (JS.lower a) (JS.lower b)) eqn:E; [|discriminate].
    destruct (JS.strip_prefix_ci p s) as [[m' rest']|] eqn:Hp; [|discriminate].
    injection H as <- <-. apply Ascii.eqb_eq in E.
    destruct (IH _ _ _ Hp) as (Hs & Hl & Hf).
    split; [cbn; rewrite Hs; reflexivity|].
    split; [cbn; rewrite Hl, E; reflexivity|].
    cbn. intros Hsp. apply andb_true_iff in Hsp as [Ha Hrest].
    rewrite (Hf Hrest), andb_true_r.
    rewrite <- opensSpace_lower, <- E, opensSpace_lower. exact Ha.
Qed.

Lemma match_alternatives_spec (alts : list string) : forall s m,
  match_alternatives alts s = Some m ->
  exists a rest, In a alts /\ s = m ++ rest /\ lowerString m = lowerString a
                 /\ (spaceProof a = true -> spaceProof m = true).
Proof.
  induction alts as [|a alts IH]; intros s m H; [discriminate|].
  cbn in H. destruct (JS.strip_prefix_ci a s) as [[m' rest]|] eqn:E.
  - injection H as <-. destruct (strip_prefix_ci_spec _ _ _ _ E) as (Hs & Hl & Hf).
    exists a, rest. repeat split; [left; reflexivity|assumption..].
  - destruct (IH _ _ H) as (a' & rest & Hin & Hrest).
    exists a', rest. split; [right; exact Hin|exact Hrest].
Qed.

Lemma match_extension_spec (s m : string) :
  match_extension s = Some m ->
  exists ext rest, m = String "." ext /\ s = m ++ rest
                   /\ In (lowerString ext) extensions /\ spaceProof m = true.
Proof.
  unfold match_extension. destruct s as [|c s]; [discriminate|].
  destruct (Ascii.eqb_spec c "."%char) as [->|Hne].
  - destruct (match_alternatives extensions s) as [e|] eqn:E; [|discriminate].
    cbn. intros H. injection H as <-.
    destruct (match_alternatives_spec _ _ _ E) as (a & rest & Hin & Hs & Hl & Hf).
    exists e, rest. split; [reflexivity|]. split; [cbn; rewrite Hs; reflexivity|].
    assert (Ha : lowerString a = a /\ spaceProof a = true).
    { cbn in Hin. repeat destruct Hin as [<-|Hin]; try (split; reflexivity). destruct Hin. }
    destruct Ha as [Ha Hsp].
    split; [rewrite Hl, Ha; exact Hin|].
    cbn. apply Hf. exact Hsp.
  - destruct c as [[] [] [] [] [] [] [] []]; try discriminate. contradiction Hne. reflexivity.
Qed.

Lemma match_run_spec : forall s m,
  match_run s = Some m ->
  exists stem ext rest,
    m = stem ++ String "." ext /\ stem <> "" /\ s = m ++ rest
    /\ In (lowerString ext) extensions /\ spaceFree m = true.
Proof.
  induction s as [|c s IH]; intros m H; [discriminate|].
  cbn [match_run] in H.
  destruct (JS.white_space_at (String c s)) eqn:Hc; [discriminate|].
  destruct (match_run s) as [m'|] eqn:Hr.
  - injection H as <-.
    destruct (IH _ eq_refl) as (stem & ext & rest & Hm & _ & Hs & Hin & Hsp).
    exists (String c stem), ext, rest.
    split; [cbn; rewrite Hm; reflexivity|]. split; [discriminate|].
    split; [cbn; rewrite Hs; reflexivity|]. split; [exact Hin|].
    rewrite Hs in Hc. cbn [spaceFree].
    rewrite (white_space_prefix (String c m') rest Hc), Hsp. reflexivity.
  - destruct (match_extension s) as [e|] eqn:He; [|discriminate].
    cbn in H. injection H as <-.
    destruct (match_extension_spec _ _ He) as (ext & rest & Hm & Hs & Hin & Hsp).
    exists (String c ""), ext, rest.
    split; [cbn; rewrite Hm; reflexivity|]. split; [discriminate|].
    split; [cbn; rewrite Hs; reflexivity|]. split; [exact Hin|].
    rewrite Hs in Hc. cbn [spaceFree].
    rewrite (white_space_prefix (String c e) rest Hc), (spaceProof_free _ Hsp).
    reflexivity.
Qed.

Lemma match_after_scheme_spec (s m : string) :
  match_after_scheme s = Some m ->
  exists stem ext rest,
    m = "://" ++ stem ++ String "." ext /\ stem <> "" /\ s = m ++ rest
    /\ In (lowerString ext) extensions /\ spaceFree m = true.
Proof.
  unfold match_after_scheme.
  destruct (JS.strip_prefix_ci "://" s) as [[sep rest0]|] eqn:E; [|discriminate].
  destruct (match_run rest0) as [r|] eqn:Hr; [|discriminate].
  cbn. intros H. injection H as <-.
  destruct (strip_prefix_ci_spec _ _ _ _ E) as (Hs & Hl & Hf).
  destruct (match_run_spec _ _ Hr) as (stem & ext & rest & Hm & Hne & Hs' & Hin & Hsp).
  assert (Hsep : sep = "://").
  { destruct sep as [|a [|b [|c [|d sep]]]]; try discriminate Hl.
    cbn in Hl. injection Hl as Ha Hb Hc.
    destruct a as [[] [] [] [] [] [] [] []]; try discriminate Ha.
    destruct b as [[] [] [] [] [] [] [] []]; try discriminate Hb.
    destruct c as [[] [] [] [] [] [] [] []]; try discriminate Hc.
    reflexivity. }
  subst sep. exists stem, ext, rest.
  split; [rewrite Hm; reflexivity|]. split; [exact Hne|].
  split; [rewrite Hs, Hs'; reflexivity|].
  split; [exact Hin|]. rewrite (spaceProof_app "://" r eq_refl). exact Hsp.
Qed.

Lemma match_here_spec (s m : string) :
  match_here s = Some m ->
  exists scheme stem ext rest,
    m = scheme ++ "://" ++ stem ++ String "." ext
    /\ (lowerString scheme = "http" \/ lowerString scheme = "https")
    /\ stem <> "" /\ s = m ++ rest
    /\ In (lowerString ext) extensions /\ spaceFree m = true.
Proof.
  unfold match_here.
  destruct (JS.strip_prefix_ci "http" s) as [[http rest0]|] eqn:E; [|discriminate].
  destruct (strip_prefix_ci_spec _ _ _ _ E) as (Hs & Hl & Hf).
  specialize (Hf eq_refl).
  destruct (JS.strip_prefix_ci "s" rest0) as [[s1 rest1]|] eqn:E1.
  - destruct (strip_prefix_ci_spec _ _ _ _ E1) as (Hs1 & Hl1 & Hf1).
    specialize (Hf1 eq_refl).
    destruct (match_after_scheme rest1) as [r|] eqn:Hr; cbn.
    + intros H. injection H as <-.
      destruct (match_after_scheme_spec _ _ Hr)
        as (stem & ext & rest & Hm & Hne & Hs' & Hin & Hsp).
      exists (http ++ s1), stem, ext, rest.
      split; [rewrite Hm, string_app_assoc; reflexivity|].
      split; [right; rewrite lowerString_app, Hl, Hl1; reflexivity|].
      split; [exact Hne|].
      split; [rewrite Hs, Hs1, Hs', !string_app_assoc; reflexivity|].
      split; [exact Hin|].
      rewrite (spaceProof_app _ _ Hf), (spaceProof_app _ _ Hf1). exact Hsp.
    + destruct (match_after_scheme rest0) as [r|] eqn:Hr0; [|discriminate].
      cbn. intros H. injection H as <-.
      destruct (match_after_scheme_spec _ _ Hr0)
        as (stem & ext & rest & Hm & Hne & Hs' & Hin & Hsp).
      exists http, stem, ext, rest.
      split; [rewrite Hm; reflexivity|]. split; [left; exact Hl|].
      split; [exact Hne|].
      split; [rewrite Hs, Hs', !string_app_assoc; reflexivity|].
      split; [exact Hin|]. rewrite (spaceProof_app _ _ Hf). exact Hsp.
  - destruct (match_after_scheme rest0) as [r|] eqn:Hr0; [|discriminate].
    cbn. intros H. injection H as <-.
    destruct (match_after_scheme_spec _ _ Hr0)
      as (stem & ext & rest & Hm & Hne & Hs' & Hin & Hsp).
    exists http, stem, ext, rest.
    split; [rewrite Hm; reflexivity|]. split; [left; exact Hl|].
    split; [exact Hne|].
    split; [rewrite Hs, Hs', !string_app_assoc; reflexivity|].
    split; [exact Hin|]. rewrite (spaceProof_app _ _ Hf). exact Hsp.
Qed.

(** A match is never empty. *)
Lemma urlMatch_truthy (content url : string) :
  urlMatch content = Some url -> JS.truthy url = true.
Proof.
  revert url. induction content as [|c content IH]; intros url H.
  - cbn in H. discriminate.
  - cbn [urlMatch] in H.
    destruct (match_here (String c content)) as [m|] eqn:E; [|exact (IH _ H)].
    injection H as <-.
    destruct (match_here_spec _ _ E) as (scheme & stem & ext & rest & Hm & Hl & _).
    rewrite Hm. destruct scheme; [destruct Hl; discriminate|reflexivity].
Qed.

(** X12. Whatever the regular expression of [extractImageFromResponse]
    finds is a piece of the reply, free of white space, made of [http] or
    [https] (in any case), [://], at least one character, a dot and one of
    the extensions jpg, jpeg, png, webp, gif (in any case). *)
Theorem urlMatch_finds_an_image_url (content url : string) :
  urlMatch content = Some url ->
  exists before after scheme stem ext,
    content = before ++ url ++ after
    /\ url = scheme ++ "://" ++ stem ++ "." ++ ext
    /\ (lowerString scheme = "http" \/ lowerString scheme = "https")
    /\ stem <> ""
    /\ In (lowerString ext) ["jpg"; "jpeg"; "png"; "webp"; "gif"]
    /\ spaceFree url = true.
Proof.
  revert url. induction content as [|c content IH]; intros url H.
  - cbn in H. discriminate.
  - cbn [urlMatch] in H.
    destruct (match_here (String c content)) as [m|] eqn:E.
    + injection H as <-.
      destruct (match_here_spec _ _ E) as (scheme & stem & ext & rest & Hm & Hl & Hne & Hs & Hin & Hsp).
      exists "", rest, scheme, stem, ext. cbn [append].
      repeat split; assumption.
    + destruct (IH _ H) as (before & after & scheme & stem & ext & Hc & Hrest).
      exists (String c before), after, scheme, stem, ext.
      split; [cbn; rewrite Hc; reflexivity|exact Hrest].
Qed.

(** A match in upper case, cut at the question mark by the extension; and
    a match that stops at a no-break space, which is white space. *)
Lemma urlMatch_finds_an_image_url_witness :
  (exists before after scheme stem ext,
      "Done: HTTPS://cdn.example.com/a.b/anime.PNG?size=2 (ready)"
      = before ++ "HTTPS://cdn.example.com/a.b/anime.PNG" ++ after
      /\ "HTTPS://cdn.example.com/a.b/anime.PNG" = scheme ++ "://" ++ stem ++ "." ++ ext
      /\ (lowerString scheme = "http" \/ lowerString scheme = "https")
      /\ stem <> ""
      /\ In (lowerString ext) ["jpg"; "jpeg"; "png"; "webp"; "gif"]
      /\ spaceFree "HTTPS://cdn.example.com/a.b/anime.PNG" = true)
  /\ (exists before after scheme stem ext,
         "see http://cdn.example.com/a.png" ++ Scenario.nbsp ++ "or b.jpg"
         = before ++ "http://cdn.example.com/a.png" ++ after
         /\ "http://cdn.example.com/a.png" = scheme ++ "://" ++ stem ++ "." ++ ext
         /\ (lowerString scheme = "http" \/ lowerString scheme = "https")
         /\ stem <> ""
         /\ In (lowerString ext) ["jpg"; "jpeg"; "png"; "webp"; "gif"]
         /\ spaceFree "http://cdn.example.com/a.png" = true).
Proof.
  split.
  - exact (urlMatch_finds_an_image_url
             "Done: HTTPS://cdn.example.com/a.b/anime.PNG?size=2 (ready)"
             "HTTPS://cdn.example.com/a.b/anime.PNG" eq_refl).
  - exact (urlMatch_finds_an_image_url
             ("see http://cdn.example.com/a.png" ++ Scenario.nbsp ++ "or b.jpg")
             "http://cdn.example.com/a.png" eq_refl).
Defined.

End ExtractionExtras.

Section ReplyExtras.
Import Browser AIService Outcome Text.

(** X13. From a chat completion whose first choice carries a message with
    a string content, the extraction never throws: it yields the image URL
    found in the content when there is one (the rest of the text is
    dropped) and the whole content otherwise. *)
Theorem extraction_of_a_completion (fields choice message : list (string * JsValue))
  (others : list JsValue) (content : string) :
  lookup "choices" fields = JArr (JObj choice :: others) ->
  lookup "message" choice = JObj message ->
  lookup "content" message = JStr content ->
  extractImageFromResponse (JObj fields)
  = inr (match urlMatch content with
         | Some url => url
         | None => content
         end).
Proof.
  intros Hc Hm Ht. unfold extractImageFromResponse, get_opt, get0_opt, get, get0.
  rewrite Hc. cbn. rewrite Hm. cbn. rewrite Ht. cbn.
  destruct (urlMatch content); reflexivity.
Qed.

Lemma extraction_of_a_completion_witness :
  extractImageFromResponse
    (Scenario.completion "Here you go: https://cdn.example.com/anime.png enjoy!")
  = inr "https://cdn.example.com/anime.png"
  /\ extractImageFromResponse (Scenario.completion "iVBORw0KGgo=") = inr "iVBORw0KGgo=".
Proof.
  split.
  - exact (extraction_of_a_completion
             [("choices", JArr [JObj [("message", JObj [("content", JStr "Here you go: https://cdn.example.com/anime.png enjoy!")])]])]
             [("message", JObj [("content", JStr "Here you go: https://cdn.example.com/anime.png enjoy!")])]
             [("content", JStr "Here you go: https://cdn.example.com/anime.png enjoy!")]
             [] "Here you go: https://cdn.example.com/anime.png enjoy!"
             eq_refl eq_refl eq_refl).
  - exact (extraction_of_a_completion
             [("choices", JArr [JObj [("message", JObj [("content", JStr "iVBORw0KGgo=")])]])]
             [("message", JObj [("content", JStr "iVBORw0KGgo=")])]
             [("content", JStr "iVBORw0KGgo=")]
             [] "iVBORw0KGgo=" eq_refl eq_refl eq_refl).
Defined.

(** X14. A reply that is [null] makes the extraction throw; any other
    reply whose [choices] are missing or falsy (an error object, a number,
    a string, an empty list of choices included) yields the empty string,
    not an error. *)
Theorem extraction_without_choices (response : JsValue) :
  match response with
  | JNull | JUndefined => exists message, extractImageFromResponse response = inl (ErrorObj message)
  | JArr _ | JBool _ | JNum _ | JStr _ => extractImageFromResponse response = inr ""
  | JObj fields =>
      (truthy (lookup "choices" fields) = false ->
       extractImageFromResponse response = inr "")
      /\ (lookup "choices" fields = JArr [] ->
          extractImageFromResponse response = inr "")
  end.
Proof.
  destruct response as [| |b|n|s|items|fields]; try reflexivity.
  - eexists. reflexivity.
  - eexists. reflexivity.
  - split; intros H; unfold extractImageFromResponse, get_opt, get0_opt, get, get0.
    + destruct (lookup "choices" fields) as [| |b|n|s|items|fs]; cbn in H |- *;
        try discriminate H; try reflexivity.
      * rewrite H. reflexivity.
      * rewrite H. reflexivity.
      * destruct s; [reflexivity|discriminate H].
    + rewrite H. reflexivity.
Qed.

(** X15. When the first choice of a reply with status 200..299 carries a
    message whose content is not a string ([null], a number, an object),
    the call of [content.match] throws, and [processImage] returns
    [success: false] with the message of that error: such a reply is not
    taken for image data. *)
Theorem non_string_content_fails {S : Type} (env : Env) (request : AIImageEditRequest)
  (w : World S) (r : Response)
  (fields choice message : list (string * JsValue)) (others : list JsValue)
  (content : JsValue) :
  fetch env (payloadFor request) = inr r ->
  ok r = true ->
  body r = inr (JObj fields) ->
  lookup "choices" fields = JArr (JObj choice :: others) ->
  lookup "message" choice = JObj message ->
  lookup "content" message = content ->
  (forall s, content <> JStr s) ->
  exists text,
    extractImageFromResponse (JObj fields) = inl (ErrorObj text)
    /\ fst (processImage env request w)
       = Ok {| success := false; data := None; error := Some text;
               processingTime := Some (latency env) |}.
Proof.
  intros Hf Hok Hb Hc Hm Ht Hns.
  assert (Hx : exists text, extractImageFromResponse (JObj fields) = inl (ErrorObj text)).
  { unfold extractImageFromResponse, get_opt, get0_opt, get, get0.
    rewrite Hc. cbn. rewrite Hm. cbn. rewrite Ht.
    destruct content as [| |b|n|s|items|fs]; cbn; try (eexists; reflexivity).
    contradiction (Hns s). reflexivity. }
  destruct Hx as [text Hx]. exists text. split; [exact Hx|].
  rewrite processImage_run. unfold reply, settle. rewrite Hf, Hok, Hb. cbn [negb].
  rewrite Hx.
  reflexivity.
Qed.

Lemma non_string_content_fails_witness :
  let refusal :=
    JObj [("choices", JArr [JObj [("message", JObj [("content", JNull);
                                                     ("refusal", JStr "no")])]])] in
  let env := Scenario.answering (inr {| status := 200; statusText := "OK";
                                        body := inr refusal |}) in
  exists text,
    extractImageFromResponse refusal = inl (ErrorObj text)
    /\ fst (processImage env Scenario.enhanceRequest {| st := tt; clock := 0; trace := [] |})
       = Ok {| success := false; data := None; error := Some text;
               processingTime := Some 1200 |}.
Proof.
  refine (non_string_content_fails
            (Scenario.answering
               (inr {| status := 200; statusText := "OK";
                       body := inr (JObj [("choices",
                                           JArr [JObj [("message",
                                                        JObj [("content", JNull);
                                                              ("refusal", JStr "no")])]])]) |}))
            Scenario.enhanceRequest {| st := tt; clock := 0; trace := [] |}
            {| status := 200; statusText := "OK";
               body := inr (JObj [("choices",
                                   JArr [JObj [("message",
                                                JObj [("content", JNull);
                                                      ("refusal", JStr "no")])]])]) |}
            [("choices", JArr [JObj [("message", JObj [("content", JNull);
                                                       ("refusal", JStr "no")])]])]
            [("message", JObj [("content", JNull); ("refusal", JStr "no")])]
            [("content", JNull); ("refusal", JStr "no")]
            [] JNull
            eq_refl eq_refl eq_refl eq_refl eq_refl eq_refl _).
  intros s H. discriminate H.
Defined.

End ReplyExtras.

(** ** Reading the uploaded file *)

Section FileExtras.
Import Browser ImageUtils ImageEditor Text Wire.

Lemma split_commaFree (s : string) :
  commaFree s = true -> JS.split_char s "," = [s].
Proof.
  unfold commaFree. induction s as [|c s IH]; cbn; [reflexivity|].
  destruct (Ascii.eqb c ","); [discriminate|].
  intros H. rewrite (IH H). reflexivity.
Qed.

Lemma split_at_comma (a b : string) :
  commaFree a = true ->
  JS.split_char (a ++ String "," b) "," = a :: JS.split_char b ",".
Proof.
  unfold commaFree. induction a as [|c a IH]; cbn; [reflexivity|].
  destruct (Ascii.eqb c ","); [discriminate|].
  intros H. rewrite (IH H). reflexivity.
Qed.

Lemma payload_image operation parameters b :
  imageUrlOf (AIService.payloadFor (requestFor operation parameters b))
  = JStr ("data:image/jpeg;base64," ++ JS.template b).
Proof.
  unfold AIService.payloadFor, imageUrlOf. cbn. rewrite requestFor_image. reflexivity.
Qed.

(** X16. For a file whose data URL is a header, a comma and a base64 text
    without commas, [fileToBase64] gives back exactly the base64 text, and
    every request built from it carries the text under the fixed label
    [data:image/jpeg;base64,], whatever the header (and so the type of the
    upload) says. *)
Theorem file_base64_is_sent_as_jpeg (file : File) (header base64 : string)
  (operation : string) (parameters : option AIService.Parameters) :
  dataURL file = Some (header ++ "," ++ base64) ->
  commaFree header = true ->
  commaFree base64 = true ->
  fileToBase64 file = Some (Some base64)
  /\ imageUrlOf (AIService.payloadFor (requestFor operation parameters (Some base64)))
     = JStr ("data:image/jpeg;base64," ++ base64).
Proof.
  intros Hd Hh Hb. split; [|apply payload_image].
  unfold fileToBase64. rewrite Hd.
  change (header ++ "," ++ base64) with (header ++ String "," base64).
  rewrite split_at_comma by exact Hh.
  rewrite split_commaFree by exact Hb. reflexivity.
Qed.

Lemma file_base64_is_sent_as_jpeg_witness :
  let png :=
    {| name := "logo.png"; type := "image/png"; size := 3;
       dataURL := Some "data:image/png;base64,iVBO" |} in
  fileToBase64 png = Some (Some "iVBO")
  /\ imageUrlOf (AIService.payloadFor (requestFor "background-removal" None (Some "iVBO")))
     = JStr "data:image/jpeg;base64,iVBO".
Proof.
  exact (file_base64_is_sent_as_jpeg
           {| name := "logo.png"; type := "image/png"; size := 3;
              dataURL := Some "data:image/png;base64,iVBO" |}
           "data:image/png;base64" "iVBO" "background-removal" None
           eq_refl eq_refl eq_refl).
Defined.

(** X17. For a file whose data URL holds no comma, [fileToBase64] resolves
    with [undefined], and the request that is then built carries the text
    "undefined" in place of the image. *)
Theorem file_without_comma_sends_undefined (file : File) (url : string)
  (operation : string) (parameters : option AIService.Parameters) :
  dataURL file = Some url ->
  commaFree url = true ->
  fileToBase64 file = Some None
  /\ imageUrlOf (AIService.payloadFor (requestFor operation parameters None))
     = JStr "data:image/jpeg;base64,undefined".
Proof.
  intros Hd Hc. split; [|apply payload_image].
  unfold fileToBase64. rewrite Hd, split_commaFree by exact Hc. reflexivity.
Qed.

Lemma file_without_comma_sends_undefined_witness :
  let empty := {| name := "empty.png"; type := "image/png"; size := 0;
                  dataURL := Some "data:" |} in
  let env := Scenario.editor Scenario.styled in
  valid (validateImageFile empty) = true
  /\ fileToBase64 empty = Some None
  /\ map imageUrlOf
       (fetches (trace (run (start 0) [(env, Drop [empty]); (env, Process "enhance" None)])))
     = [JStr "data:image/jpeg;base64,undefined"].
Proof.
  split; [reflexivity|].
  split.
  - exact (proj1 (file_without_comma_sends_undefined
                    {| name := "empty.png"; type := "image/png"; size := 0;
                       dataURL := Some "data:" |} "data:" "enhance" None eq_refl eq_refl)).
  - reflexivity.
Defined.

End FileExtras.

(** ** Export: file names and failures *)

Section ExportExtras.
Import Browser ExportPanel Text Exporting.

Lemma plain_after_dot (a b : string) : plain_to_end (a ++ String "." b) = false.
Proof.
  induction a as [|c a IH]; cbn.
  - reflexivity.
  - rewrite IH. rewrite !andb_false_r. reflexivity.
Qed.

Lemma extension_here_before_dot (c : ascii) (a b : string) :
  extension_here (String c (a ++ String "." b)) = false.
Proof.
  unfold extension_here.
  destruct c as [[] [] [] [] [] [] [] []]; try reflexivity.
  rewrite plain_after_dot. apply andb_false_r.
Qed.

(** X18. [stripExtension] undoes the appending of an extension: for every
    base name (dots and slashes allowed) and every non-empty extension
    without dot or slash, the name [base.ext] is stripped to [base]. *)
Theorem stripExtension_of_base_dot_ext (base ext : string) :
  ext <> "" ->
  plain_to_end ext = true ->
  stripExtension (base ++ "." ++ ext) = base.
Proof.
  intros Hne Hp. change ("." ++ ext) with (String "." ext).
  induction base as [|c base IH].
  - cbn [append]. unfold stripExtension, extension_here.
    destruct ext as [|e ext]; [contradiction Hne; reflexivity|].
    cbn [JS.truthy andb]. rewrite Hp. reflexivity.
  - cbn [append]. cbn [stripExtension].
    rewrite extension_here_before_dot. rewrite IH. reflexivity.
Qed.

Lemma stripExtension_of_base_dot_ext_witness :
  stripExtension "holiday.2024/beach.photo.jpeg" = "holiday.2024/beach.photo".
Proof.
  refine (stripExtension_of_base_dot_ext "holiday.2024/beach.photo" "jpeg" _ eq_refl).
  discriminate.
Defined.

Lemma extension_here_dot (s : string) :
  extension_here s = true ->
  exists ext, s = String "." ext /\ ext <> "" /\ plain_to_end ext = true.
Proof.
  unfold extension_here. destruct s as [|c s]; [discriminate|].
  destruct (Ascii.eqb_spec c "."%char) as [->|Hne].
  - intros H. apply andb_true_iff in H as [Ht Hp].
    exists s. split; [reflexivity|]. split; [|exact Hp].
    destruct s; [discriminate|discriminate].
  - destruct c as [[] [] [] [] [] [] [] []]; try discriminate.
    contradiction Hne. reflexivity.
Qed.

(** X19. [stripExtension] only ever removes one final extension: the
    result is the name itself, or the name without a last part made of a
    dot and at least one character other than dot and slash; and a name
    without any dot comes back unchanged. *)
Theorem stripExtension_removes_only_an_extension (name : string) :
  (stripExtension name = name
   \/ exists ext, name = stripExtension name ++ "." ++ ext
                  /\ ext <> "" /\ plain_to_end ext = true)
  /\ (dotFree name = true -> stripExtension name = name).
Proof.
  split.
  - induction name as [|c name IH].
    + left. reflexivity.
    + cbn [stripExtension].
      destruct (extension_here (String c name)) eqn:E.
      * right. destruct (extension_here_dot _ E) as (ext & Hs & Hne & Hp).
        exists ext. rewrite Hs. repeat split; assumption.
      * destruct IH as [IH|(ext & Hn & Hne & Hp)].
        -- left. rewrite IH. reflexivity.
        -- right. exists ext. split; [cbn [append]; f_equal; exact Hn|].
           split; assumption.
  - induction name as [|c name IH]; intros Hd; [reflexivity|].
    cbn in Hd. apply andb_true_iff in Hd as [Hc Hrest].
    cbn [stripExtension]. unfold extension_here.
    destruct c as [[] [] [] [] [] [] [] []]; try discriminate Hc;
      rewrite (IH Hrest); reflexivity.
Qed.

Ltac download_paths env props s :=
  unfold handleDownload, exportHangs, exportFails, blobMissing, base64Of;
  unfold finally, try_catch, bind, setIsExporting, update, downloadImage,
    convertAndDownload;
  cbn [fst snd st clock trace];
  destruct (String.eqb_spec (exportFormat s) "png");
  [ destruct (atob env _)
  | destruct (loadImage env _) as [[width height]|];
    [ destruct (context2d env);
      [ destruct (encode env _ _ _ _);
        [ | destruct (noBlob env _) ];
        destruct (String.eqb (exportFormat s) "jpg")
      | ]
    | ]
  ];
  cbn.

(** X20. [handleDownload] never throws, and it leaves the format, the
    quality and the custom name as they are.  Without image data it does
    nothing.  With image data it goes one of three ways.  When [toBlob]
    throws (the picture has tainted the canvas), the export never ends:
    the handler stays at its [await], [isExporting] stays up, no alert is
    shown and nothing is saved.  When the export fails ([atob] throws, the
    image does not load, there is no 2D context, the blob is [null]), the
    handler ends with [isExporting] down, one alert and nothing saved.
    Otherwise it ends with [isExporting] down, no alert and one file
    saved, named by [generateFileName] with the format as extension. *)
Theorem download_ends_three_ways (env : Env) (props : Props) (s : State)
  (w : World State) :
  match imageData props with
  | None | Some EmptyString => handleDownload env props s w = (Ok tt, w)
  | Some img =>
      let r := fst (handleDownload env props s w) in
      let w' := snd (handleDownload env props s w) in
      exportFormat (st w') = exportFormat (st w)
      /\ quality (st w') = quality (st w)
      /\ customName (st w') = customName (st w)
      /\ (if exportHangs env s img
          then r = Pending
               /\ isExporting (st w') = true
               /\ alerts (trace w') = alerts (trace w)
               /\ savedNames (trace w') = savedNames (trace w)
          else if exportFails env s img
          then r = Ok tt
               /\ isExporting (st w') = false
               /\ alerts (trace w')
                  = (alerts (trace w) ++ ["Failed to export image. Please try again."])%list
               /\ savedNames (trace w') = savedNames (trace w)
          else r = Ok tt
               /\ isExporting (st w') = false
               /\ alerts (trace w') = alerts (trace w)
               /\ savedNames (trace w')
                  = (savedNames (trace w)
                     ++ [(generateFileName env props s ++ "." ++ exportFormat s)%string])%list)
  end.
Proof.
  destruct (imageData props) as [[|c img]|] eqn:Hi.
  - unfold handleDownload. rewrite Hi. reflexivity.
  - cbv zeta. unfold handleDownload. rewrite Hi.
    cbn [JS.opt_truthy JS.truthy JS.template].
    download_paths env props s;
      rewrite ?alerts_app, ?savedNames_app; cbn; rewrite ?app_nil_r; repeat split.
    match goal with E : exportFormat s = "png" |- _ => rewrite E end. reflexivity.
  - unfold handleDownload. rewrite Hi. reflexivity.
Qed.

(** A JPEG export of a picture from another origin, which taints the
    canvas: the handler never ends, [isExporting] stays up, and there is
    neither an alert nor a file. *)
Lemma download_ends_three_ways_witness :
  let env := {| now := Scenario.late; atob := fun b => Some b;
                loadImage := fun _ => Some (640, 480); context2d := true;
                encode := fun _ _ _ _ => None;
                noBlob := fun _ => SecurityError |} in
  let r := fst (handleDownload env Scenario.panel (Scenario.exporting "jpg" "" 75)
                  Scenario.idle) in
  let w' := snd (handleDownload env Scenario.panel (Scenario.exporting "jpg" "" 75)
                   Scenario.idle) in
  r = Pending
  /\ isExporting (st w') = true
  /\ alerts (trace w') = []
  /\ savedNames (trace w') = [].
Proof.
  exact (proj2 (proj2 (proj2
           (download_ends_three_ways
              {| now := Scenario.late; atob := fun b => Some b;
                 loadImage := fun _ => Some (640, 480); context2d := true;
                 encode := fun _ _ _ _ => None;
                 noBlob := fun _ => SecurityError |}
              Scenario.panel (Scenario.exporting "jpg" "" 75) Scenario.idle)))).
Defined.

Lemma includes_after (a b : string) (c : ascii) :
  JS.includes_char (a ++ String c b) c = true.
Proof.
  induction a as [|d a IH]; cbn.
  - rewrite Ascii.eqb_refl. reflexivity.
  - destruct (Ascii.eqb d c); [reflexivity|exact IH].
Qed.

(** X21. A PNG export decodes what follows the first comma of the image
    data: for a data URL made of a header, a comma and a base64 text
    without commas -- the shape the editor gives to a result that is not a
    URL -- the bytes downloaded are the decoding of that text, under the
    generated name with the extension [png]. *)
Theorem png_export_decodes_the_data_url (env : Env) (props : Props) (s : State)
  (w : World State) (header base64 bytes : string) :
  imageData props = Some (header ++ "," ++ base64) ->
  commaFree header = true ->
  commaFree base64 = true ->
  exportFormat s = "png" ->
  atob env base64 = Some bytes ->
  handleDownload env props s w
  = (Ok tt, {| st := {| exportFormat := exportFormat (st w); quality := quality (st w);
                        customName := customName (st w); isExporting := false |};
               clock := clock w;
               trace := trace w ++ [EAnchorDownload "image/png" bytes
                                      (generateFileName env props s ++ ".png")] |}).
Proof.
  intros Hi Hh Hb Hf Ha. unfold handleDownload. rewrite Hi, Hf.
  change (header ++ "," ++ base64) with (header ++ String "," base64).
  assert (Hne : JS.truthy (header ++ String "," base64) = true)
    by (destruct header; reflexivity).
  cbn [JS.opt_truthy JS.template String.eqb Ascii.eqb Bool.eqb]. rewrite Hne.
  rewrite includes_after.
  assert (Hs : JS.split_char (header ++ String "," base64) "," = [header; base64]).
  { clear - Hh Hb. unfold commaFree in *. induction header as [|c header IH]; cbn.
    - clear Hh. induction base64 as [|c base64 IH]; cbn; [reflexivity|].
      cbn in Hb. destruct (Ascii.eqb c ","); [discriminate|].
      specialize (IH Hb). cbn in IH. injection IH as IH. rewrite IH. reflexivity.
    - cbn in Hh. destruct (Ascii.eqb c ","); [discriminate|].
      rewrite (IH Hh). reflexivity. }
  rewrite Hs. cbn [nth_error JS.template].
  unfold finally, try_catch, bind, setIsExporting, update, downloadImage.
  cbn [fst snd st clock trace]. rewrite Ha. reflexivity.
Qed.

Lemma png_export_decodes_the_data_url_witness :
  handleDownload (Scenario.exporter Scenario.late) Scenario.panel
    (Scenario.exporting "png" "" 90) Scenario.idle
  = (Ok tt, {| st := initial; clock := 0;
               trace := [EAnchorDownload "image/png" "QUJD"
                           "photo-edited-2025-08-30T17-49-45.png"] |}).
Proof.
  exact (png_export_decodes_the_data_url (Scenario.exporter Scenario.late) Scenario.panel
           (Scenario.exporting "png" "" 90) Scenario.idle
           "data:image/png;base64" "QUJD" "QUJD" eq_refl eq_refl eq_refl eq_refl eq_refl).
Defined.

End ExportExtras.

(** ** The route [POST /image-edit] *)

Section RouteExtras.
Import Browser Outcome Wire ImageEditRoute.

Ltac route_start :=
  unfold POST, try_catch, bind, lift, destructurable, throw, ret, console_error, emit;
  cbn [fst snd st clock trace].

(** X22. The route answers a request that is not well formed without
    calling the service: status 500 when the body does not parse or is
    [null], status 400 when [image] or [operation] is missing or falsy,
    when [image] is not a string, and when an object removal comes without
    a description.  No request is sent in any of these cases. *)
Theorem route_rejects_before_calling {S : Type} (env : AIService.Env)
  (request : Thrown + JsValue) (w : World S) :
  match request with
  | inr body => body = JNull \/ body = JUndefined \/ wellFormed body = false
  | inl _ => True
  end ->
  exists reply,
    fst (POST env request w) = Ok (Some reply)
    /\ status reply
       = match request with
         | inl _ | inr JNull | inr JUndefined => 500
         | _ => 400
         end
    /\ fetches (trace (snd (POST env request w))) = fetches (trace w).
Proof.
  intros H. destruct request as [t|body].
  - route_start. eexists. repeat split. rewrite fetches_app. cbn. apply app_nil_r.
  - destruct body as [| |b|n|s|items|fields];
      try (route_start; eexists; repeat split; rewrite ?fetches_app; cbn;
           rewrite ?app_nil_r; reflexivity).
    destruct H as [H|[H|H]]; try discriminate H.
    unfold wellFormed in H. route_start.
    set (image := get_opt (JObj fields) "image") in *.
    set (operation := get_opt (JObj fields) "operation") in *.
    set (parameters := get_opt (JObj fields) "parameters") in *.
    destruct (truthy image) eqn:Hi; cbn [negb orb andb] in *;
      [|eexists; repeat split].
    destruct (truthy operation) eqn:Ho; cbn [negb orb andb] in *;
      [|eexists; repeat split].
    destruct image as [| |b|n|img|items|fs]; cbn [andb] in H;
      try (eexists; repeat split; fail).
    unfold equals in *.
    destruct operation as [| |b|n|op|items|fs]; try discriminate H.
    destruct (String.eqb_spec op "object-removal") as [->|Hne]; [|discriminate H].
    cbn [negb orb] in H. cbn [String.eqb Ascii.eqb Bool.eqb].
    unfold or_else. rewrite H. cbn. eexists. repeat split.
Qed.

Lemma route_rejects_before_calling_witness :
  let post body :=
    POST (Scenario.answering Scenario.styled) (inr body)
      {| st := tt; clock := 0; trace := [] |} in
  (exists reply,
      fst (post (JObj [("image", JStr "QUJD")])) = Ok (Some reply)
      /\ status reply = 400
      /\ fetches (trace (snd (post (JObj [("image", JStr "QUJD")])))) = [])
  /\ fst (post (bodyOf "QUJD" "object-removal" None))
     = Ok (Some (badRequest "Object description is required for object removal")).
Proof.
  split; [|reflexivity].
  exact (route_rejects_before_calling (Scenario.answering Scenario.styled)
           (inr (JObj [("image", JStr "QUJD")])) {| st := tt; clock := 0; trace := [] |}
           (or_intror (or_intror eq_refl))).
Defined.


(** What the route does with a well-formed body with string parameters. *)
Lemma route_run {S : Type} (env : AIService.Env) (w : World S)
  (image operation : string) (parameters : option AIService.Parameters) :
  wellFormed (bodyOf image operation parameters) = true ->
  POST env (inr (bodyOf image operation parameters)) w
  = (Ok (Some (respond (reply env (ImageEditor.requestFor operation parameters (Some image)))
                 (JStr operation))),
     after env (ImageEditor.requestFor operation parameters (Some image)) w).
Proof.
  unfold wellFormed, bodyOf. cbn [get_opt get lookup String.eqb Ascii.eqb Bool.eqb truthy].
  intros H. apply andb_true_iff in H as [H Hp]. apply andb_true_iff in H as [H _].
  apply andb_true_iff in H as [Hi Ho].
  unfold POST, try_catch, bind, lift, destructurable.
  cbn [get_opt get lookup String.eqb Ascii.eqb Bool.eqb truthy ret].
  rewrite Hi, Ho. cbn [negb orb].
  unfold equals in *. unfold ImageEditor.requestFor.
  destruct (String.eqb operation "background-removal");
    [cbv beta; unfold AIService.removeBackground; rewrite processImage_run; reflexivity|].
  destruct (String.eqb operation "style-transfer").
  { destruct parameters as [[[style|] intensity [prompt|] mask]|];
      cbn [parametersJson AIService.style AIService.prompt app get_opt get lookup
           String.eqb Ascii.eqb Bool.eqb AIService.param JS.opt_or_else];
      unfold or_else, JS.or_else; cbn [truthy];
      try destruct (JS.truthy style); cbv beta;
      unfold applyStyleTransfer, AIService.applyStyleTransfer;
      rewrite processImage_run; reflexivity. }
  destruct (String.eqb operation "enhance");
    [cbv beta; unfold AIService.enhanceImage; rewrite processImage_run; reflexivity|].
  destruct (String.eqb operation "object-removal").
  { cbn [negb orb] in Hp.
    destruct parameters as [[[style|] intensity [prompt|] mask]|];
      cbn [parametersJson AIService.style AIService.prompt app get_opt get lookup
           String.eqb Ascii.eqb Bool.eqb AIService.param JS.opt_or_else truthy] in Hp |- *;
      try discriminate Hp;
      unfold or_else, JS.or_else; cbn [truthy]; rewrite Hp; cbn [truthy negb];
      rewrite ?Hp; cbn [negb]; cbv beta;
      unfold removeObject, AIService.removeObject;
      rewrite processImage_run; reflexivity. }
  destruct (String.eqb operation "artistic-filter").
  { destruct parameters as [[[style|] intensity [prompt|] mask]|];
      cbn [parametersJson AIService.style AIService.prompt app get_opt get lookup
           String.eqb Ascii.eqb Bool.eqb AIService.param JS.opt_or_else];
      unfold or_else, JS.or_else; cbn [truthy];
      try destruct (JS.truthy style); cbv beta;
      unfold applyArtisticFilter, AIService.applyArtisticFilter;
      rewrite processImage_run; reflexivity. }
  cbv beta. rewrite processImage_run. reflexivity.
Qed.


(** X23. For a well-formed body with string parameters the route calls
    the service with the very request the editor builds for the same
    operation and parameters, once, and wraps the result: status 200 with
    [success], [imageUrl], [processingTime] and [operation] when the
    service reports success, status 500 with the error message
    otherwise. *)
Theorem route_builds_the_editor_request {S : Type} (env : AIService.Env) (w : World S)
  (image operation : string) (parameters : option AIService.Parameters) :
  wellFormed (bodyOf image operation parameters) = true ->
  let request := ImageEditor.requestFor operation parameters (Some image) in
  let outcome := POST env (inr (bodyOf image operation parameters)) w in
  fst outcome = Ok (Some (respond (reply env request) (JStr operation)))
  /\ fetches (trace (snd outcome))
     = (fetches (trace w) ++ [AIService.payloadFor request])%list
  /\ (status (respond (reply env request) (JStr operation)) = 200
      <-> AIService.success (reply env request) = true)
  /\ (status (respond (reply env request) (JStr operation)) = 500
      <-> AIService.success (reply env request) = false).
Proof.
  intros Hw request outcome. unfold outcome. rewrite (route_run env w _ _ _ Hw).
  fold request. cbn [fst snd]. split; [reflexivity|]. split.
  - unfold after. destruct (settle env request); cbn;
      rewrite !fetches_app; cbn; rewrite ?app_nil_r; reflexivity.
  - unfold respond. destruct (AIService.success (reply env request)); cbn;
      split; split; intros H; try reflexivity; discriminate H.
Qed.

Lemma route_builds_the_editor_request_witness :
  let w := {| st := tt; clock := 0; trace := [] |} in
  let post env := POST env (inr (bodyOf "QUJD" "style-transfer" Scenario.anime)) w in
  fst (post (Scenario.answering Scenario.styled))
  = Ok (Some {| status := 200;
                json := JObj [("success", JBool true);
                              ("imageUrl", JStr "https://cdn.example.com/anime.png");
                              ("processingTime", JNum 1200);
                              ("operation", JStr "style-transfer")] |})
  /\ fst (post (Scenario.answering Scenario.serverError))
     = Ok (Some {| status := 500;
                   json := JObj [("error", JStr "AI service error: 500 Internal Server Error");
                                 ("operation", JStr "style-transfer")] |}).
Proof.
  split.
  - exact (proj1 (route_builds_the_editor_request (Scenario.answering Scenario.styled)
                    {| st := tt; clock := 0; trace := [] |}
                    "QUJD" "style-transfer" Scenario.anime eq_refl)).
  - exact (proj1 (route_builds_the_editor_request
                    (Scenario.answering Scenario.serverError)
                    {| st := tt; clock := 0; trace := [] |}
                    "QUJD" "style-transfer" Scenario.anime eq_refl)).
Defined.


(** The service returns, and sends at most one request, also when it is
    entered with a parameter that is not a string. *)
Lemma processUntyped_returns {S : Type} (env : AIService.Env) (image64 : string)
  (instruction : string -> string) (parameter : JsValue) (w : World S) :
  exists result w',
    processUntyped env image64 instruction parameter w = (Ok result, w')
    /\ (fetches (trace w') = fetches (trace w)
        \/ exists payload, fetches (trace w') = (fetches (trace w) ++ [payload])%list).
Proof.
  unfold processUntyped, try_catch, bind, lift, date_now, emit, elapse, throw, ret,
    console_error.
  cbn [fst snd st clock trace].
  destruct (text parameter) as [t|printed]; cbn [fst snd st clock trace].
  - do 2 eexists. split; [reflexivity|]. left. cbn.
    rewrite fetches_app. cbn. apply app_nil_r.
  - destruct (AIService.fetch env _) as [t|response]; cbn [fst snd st clock trace];
      [|destruct (ok response); cbn [negb fst snd st clock trace];
        [destruct (body response) as [t|v]; cbn [fst snd st clock trace];
         [|destruct (AIService.extractImageFromResponse v);
           cbn [fst snd st clock trace]]|]];
      do 2 eexists; (split; [reflexivity|]); right; eexists; cbn;
      rewrite ?fetches_app; cbn; rewrite ?app_nil_r; reflexivity.
Qed.

Lemma processImage_returns {S : Type} (env : AIService.Env)
  (request : AIService.AIImageEditRequest) (w : World S) :
  exists result w',
    AIService.processImage env request w = (Ok result, w')
    /\ (fetches (trace w') = fetches (trace w)
        \/ exists payload, fetches (trace w') = (fetches (trace w) ++ [payload])%list).
Proof.
  rewrite processImage_run. do 2 eexists. split; [reflexivity|]. right.
  unfold after. destruct (settle env request); cbn; eexists;
    rewrite ?fetches_app; cbn; rewrite ?app_nil_r; reflexivity.
Qed.

Lemma wrappers_return {S : Type} (env : AIService.Env) (image64 : string)
  (v : JsValue) (w : World S) :
  forall call,
    call = applyStyleTransfer env image64 v \/ call = removeObject env image64 v
    \/ call = applyArtisticFilter env image64 v ->
    exists result w',
      call w = (Ok result, w')
      /\ (fetches (trace w') = fetches (trace w)
          \/ exists payload, fetches (trace w') = (fetches (trace w) ++ [payload])%list).
Proof.
  intros call [->|[->| ->]];
    unfold applyStyleTransfer, removeObject, applyArtisticFilter;
    destruct v;
    solve [ apply processUntyped_returns
          | unfold AIService.applyStyleTransfer, AIService.removeObject,
              AIService.applyArtisticFilter; apply processImage_returns ].
Qed.

(** Closes a path of the route that answers without the service. *)
Ltac route_done :=
  eexists; split; [reflexivity|];
  split;
  [ cbn; auto
  | rewrite ?fetches_app; cbn; rewrite ?app_nil_r; left; reflexivity ].

(** Closes a path that calls the service, given that the call returns. *)
Ltac route_called H :=
  cbv beta;
  destruct H as (result & w' & E & Hf); rewrite E; cbn [fst snd];
  eexists; split; [reflexivity|];
  split; [unfold respond; destruct (AIService.success result); cbn; auto|exact Hf].

(** X24. The route never throws and always answers: whatever the request
    -- a body that does not parse, that is not an object, that lacks
    fields, whose parameters are numbers, arrays or objects instead of
    strings -- the handler returns a response, its status is 200, 400 or
    500, and at most one request has gone to the service. *)
Theorem route_always_answers {S : Type} (env : AIService.Env)
  (request : Thrown + JsValue) (w : World S) :
  exists reply,
    fst (POST env request w) = Ok (Some reply)
    /\ (status reply = 200 \/ status reply = 400 \/ status reply = 500)
    /\ (fetches (trace (snd (POST env request w))) = fetches (trace w)
        \/ exists payload,
             fetches (trace (snd (POST env request w)))
             = (fetches (trace w) ++ [payload])%list).
Proof.
  destruct request as [t|body]; [route_start; route_done|].
  destruct body as [| |b|n|s|items|fields]; try (route_start; route_done).
  route_start.
  set (image := get_opt (JObj fields) "image").
  set (operation := get_opt (JObj fields) "operation").
  set (parameters := get_opt (JObj fields) "parameters").
  destruct (truthy image); cbn [negb orb]; [|route_done].
  destruct (truthy operation); cbn [negb orb]; [|route_done].
  destruct image as [| |b|n|img|items|fs]; try route_done.
  destruct (equals operation "background-removal");
    [unfold AIService.removeBackground;
     route_called (processImage_returns env
                     {| AIService.image := Some img;
                        AIService.operation := AIService.BackgroundRemoval;
                        AIService.parameters := None |} w)|].
  destruct (equals operation "style-transfer");
    [route_called (wrappers_return env img
                     (or_else (get_opt parameters "style") (JStr "artistic")) w _
                     (or_introl eq_refl))|].
  destruct (equals operation "enhance");
    [unfold AIService.enhanceImage;
     route_called (processImage_returns env
                     {| AIService.image := Some img;
                        AIService.operation := AIService.Enhance;
                        AIService.parameters := None |} w)|].
  destruct (equals operation "object-removal").
  { destruct (truthy (or_else (get_opt parameters "prompt") (JStr "")));
      cbn [negb]; [|route_done].
    route_called (wrappers_return env img
                    (or_else (get_opt parameters "prompt") (JStr "")) w _
                    (or_intror (or_introl eq_refl))). }
  destruct (equals operation "artistic-filter");
    [route_called (wrappers_return env img
                     (or_else (get_opt parameters "style") (JStr "watercolor")) w _
                     (or_intror (or_intror eq_refl)))|].
  route_called (processImage_returns env
                  {| AIService.image := Some img;
                     AIService.operation := AIService.Enhance;
                     AIService.parameters := None |} w).
Qed.

(** A style that is an empty array is truthy and prints as nothing: the
    request goes out with an instruction around nothing, and the route
    answers 200.  A style that is an object with a property [toString]
    cannot be printed: nothing is sent, and the route answers 500. *)
Lemma route_always_answers_witness :
  let w := {| st := tt; clock := 0; trace := [] |} in
  let post style :=
    POST (Scenario.answering Scenario.styled)
      (inr (JObj [("image", JStr "QUJD"); ("operation", JStr "style-transfer");
                  ("parameters", JObj [("style", style)])])) w in
  (exists reply,
      fst (post (JArr [])) = Ok (Some reply)
      /\ (status reply = 200 \/ status reply = 400 \/ status reply = 500)
      /\ (fetches (trace (snd (post (JArr [])))) = fetches (trace w)
          \/ exists payload,
               fetches (trace (snd (post (JArr [])))) = (fetches (trace w) ++ [payload])%list))
  /\ option_map status
       (match fst (post (JArr [])) with Ok r => r | _ => None end) = Some 200
  /\ textOf (hd JNull (fetches (trace (snd (post (JArr []))))))
     = JStr "Transform this image into  style. Apply the artistic transformation while maintaining the core composition and subject matter. Make it visually appealing and high quality."
  /\ fst (post (JObj [("toString", JNum 1)]))
     = Ok (Some {| status := 500;
                   json := JObj [("error", JStr "Cannot convert object to primitive value");
                                 ("operation", JStr "style-transfer")] |})
  /\ fetches (trace (snd (post (JObj [("toString", JNum 1)])))) = [].
Proof.
  split; [|repeat split].
  exact (route_always_answers (Scenario.answering Scenario.styled)
           (inr (JObj [("image", JStr "QUJD"); ("operation", JStr "style-transfer");
                       ("parameters", JObj [("style", JArr [])])]))
           {| st := tt; clock := 0; trace := [] |}).
Defined.

(** X25. Unlike the editor, the route takes a reply without image data for
    a success: when the service reports success with empty data it answers
    with status 200, [success: true] and an empty [imageUrl]. *)
Theorem route_reports_empty_data_as_success {S : Type} (env : AIService.Env) (w : World S)
  (image operation : string) (parameters : option AIService.Parameters)
  (r : Response) (v : JsValue) :
  wellFormed (bodyOf image operation parameters) = true ->
  AIService.fetch env
    (AIService.payloadFor (ImageEditor.requestFor operation parameters (Some image)))
  = inr r ->
  ok r = true ->
  body r = inr v ->
  AIService.extractImageFromResponse v = inr "" ->
  fst (POST env (inr (bodyOf image operation parameters)) w)
  = Ok (Some {| status := 200;
                json := JObj [("success", JBool true);
                              ("imageUrl", JStr "");
                              ("processingTime", JNum (AIService.latency env));
                              ("operation", JStr operation)] |}).
Proof.
  intros Hw Hf Hok Hb Hx.
  assert (Hs : settle env (ImageEditor.requestFor operation parameters (Some image)) = inr "")
    by (unfold settle; rewrite Hf, Hok, Hb; exact Hx).
  rewrite (route_run env w _ _ _ Hw). unfold reply. rewrite Hs. reflexivity.
Qed.

Lemma route_reports_empty_data_as_success_witness :
  fst (POST (Scenario.answering Cases.hollow) (inr (bodyOf "QUJD" "enhance" None))
         {| st := tt; clock := 0; trace := [] |})
  = Ok (Some {| status := 200;
                json := JObj [("success", JBool true);
                              ("imageUrl", JStr "");
                              ("processingTime", JNum 1200);
                              ("operation", JStr "enhance")] |}).
Proof.
  exact (route_reports_empty_data_as_success (Scenario.answering Cases.hollow)
           {| st := tt; clock := 0; trace := [] |} "QUJD" "enhance" None
           {| Browser.status := 200; statusText := "OK";
              body := inr (JObj [("id", JStr "cmpl-1")]) |}
           (JObj [("id", JStr "cmpl-1")])
           eq_refl eq_refl eq_refl eq_refl eq_refl).
Defined.

End RouteExtras.

(** ** Uploads and results *)

Section ResultExtras.
Import Browser ImageUtils ImageEditor Outcome Session.

(** X26. The regular expression finds URLs in any case, but the editor
    takes a result for a URL only when it starts with lower-case [http]:
    a URL found with another spelling of the scheme becomes the text of a
    [data:image/png;base64,] URL, as current image and in the history. *)
Theorem upper_case_url_becomes_data_url (env : Env) (w : World State)
  (operation : string) (parameters : option AIService.Parameters)
  (file : File) (b : option string) (r : Response)
  (fields choice message : list (string * JsValue)) (others : list JsValue)
  (content url : string) :
  currentFile (st w) = Some file ->
  JS.truthy (currentImageUrl (st w)) = true ->
  fileToBase64 file = Some b ->
  AIService.fetch (service env) (AIService.payloadFor (requestFor operation parameters b))
  = inr r ->
  ok r = true ->
  body r = inr (JObj fields) ->
  lookup "choices" fields = JArr (JObj choice :: others) ->
  lookup "message" choice = JObj message ->
  lookup "content" message = JStr content ->
  AIService.urlMatch content = Some url ->
  JS.startsWith url "http" = false ->
  let w' := step w (env, Process operation parameters) in
  currentImageUrl (st w') = "data:image/png;base64," ++ url
  /\ map imageUrl (editHistory (st w'))
     = (map imageUrl (JS.slice (editHistory (st w)) 0 (currentHistoryIndex (st w) + 1))
        ++ [("data:image/png;base64," ++ url)%string])%list.
Proof.
  intros Hf Hu Hb Hfetch Hok Hbody Hc Hm Ht Hmatch Hstart w'.
  assert (Hx : AIService.extractImageFromResponse (JObj fields) = inr url).
  { unfold AIService.extractImageFromResponse, get_opt, get0_opt, get, get0.
    rewrite Hc. cbn. rewrite Hm. cbn. rewrite Ht. cbn. rewrite Hmatch. reflexivity. }
  assert (Hs : settle (service env) (requestFor operation parameters b) = inr url)
    by (unfold settle; rewrite Hfetch, Hok, Hbody; exact Hx).
  assert (Hp : produced env (st w) operation parameters
               = Some ("data:image/png;base64," ++ url)).
  { unfold produced, newImageUrl. rewrite Hf, Hu, Hb, Hs.
    rewrite (urlMatch_truthy _ _ Hmatch), Hstart. reflexivity. }
  unfold w'. rewrite process_step, (process_succeeded _ _ _ _ _ _ Hp).
  unfold adopted; cbn. split; [reflexivity|]. rewrite map_app. reflexivity.
Qed.

Lemma upper_case_url_becomes_data_url_witness :
  let env := Scenario.editor
               (inr {| status := 200; statusText := "OK";
                       body := inr (Scenario.completion "HTTPS://CDN.EXAMPLE.COM/A.PNG") |}) in
  let w' := step Scenario.loaded (env, Process "enhance" None) in
  currentImageUrl (st w') = "data:image/png;base64,HTTPS://CDN.EXAMPLE.COM/A.PNG"
  /\ map imageUrl (editHistory (st w'))
     = ["data:image/png;base64,HTTPS://CDN.EXAMPLE.COM/A.PNG"].
Proof.
  exact (upper_case_url_becomes_data_url
           (Scenario.editor
              (inr {| status := 200; statusText := "OK";
                      body := inr (Scenario.completion "HTTPS://CDN.EXAMPLE.COM/A.PNG") |}))
           Scenario.loaded "enhance" None Scenario.photo (Some "QUJD")
           {| status := 200; statusText := "OK";
              body := inr (Scenario.completion "HTTPS://CDN.EXAMPLE.COM/A.PNG") |}
           [("choices", JArr [JObj [("message",
                                     JObj [("content", JStr "HTTPS://CDN.EXAMPLE.COM/A.PNG")])]])]
           [("message", JObj [("content", JStr "HTTPS://CDN.EXAMPLE.COM/A.PNG")])]
           [("content", JStr "HTTPS://CDN.EXAMPLE.COM/A.PNG")]
           [] "HTTPS://CDN.EXAMPLE.COM/A.PNG" "HTTPS://CDN.EXAMPLE.COM/A.PNG"
           eq_refl eq_refl eq_refl eq_refl eq_refl eq_refl eq_refl eq_refl eq_refl
           eq_refl eq_refl).
Defined.

(** X27. An accepted upload starts the session over, whatever it was: the
    file is the new one, the current and the original image are its
    object URL, the history is empty and the index -1, so that Undo and
    Redo are disabled and change nothing; only the first of the dropped
    files counts. *)
Theorem upload_starts_over (env env' : Env) (w : World State) (file : File)
  (others : list File) :
  valid (validateImageFile file) = true ->
  let w' := step w (env, Drop (file :: others)) in
  currentFile (st w') = Some file
  /\ currentImageUrl (st w') = createObjectURL env file
  /\ originalImageUrl (st w') = createObjectURL env file
  /\ editHistory (st w') = []
  /\ currentHistoryIndex (st w') = -1
  /\ canUndo (st w') = false
  /\ canRedo (st w') = false
  /\ step w' (env', Undo) = w'
  /\ step w' (env', Redo) = w'
  /\ fetches (trace w') = fetches (trace w)
  /\ alerts (trace w') = alerts (trace w).
Proof.
  intros Hv w'.
  assert (E : st w' = {| currentFile := Some file;
                         currentImageUrl := createObjectURL env file;
                         originalImageUrl := createObjectURL env file;
                         isProcessing := isProcessing (st w);
                         editHistory := [];
                         currentHistoryIndex := -1;
                         processingStatus := processingStatus (st w) |})
    by (apply drop_accepted; exact Hv).
  rewrite E. cbn [currentFile currentImageUrl originalImageUrl editHistory
                  currentHistoryIndex].
  do 5 (split; [reflexivity|]). do 2 (split; [reflexivity|]).
  split; [apply undo_at_original; rewrite E; reflexivity|].
  split; [apply redo_at_end; rewrite E; cbn; lia|].
  unfold w', step, dispatch, handler, ImageUploader.onDrop; cbn [fst snd].
  rewrite Hv. cbn. rewrite fetches_app, alerts_app. cbn. rewrite !app_nil_r.
  split; reflexivity.
Qed.

Lemma upload_starts_over_witness :
  let env := Scenario.editor Scenario.styled in
  let w := run (start 0) Scenario.edited in
  let w' := step w (env, Drop [Scenario.photo; Cases.damaged]) in
  length (editHistory (st w)) = 1%nat
  /\ (currentFile (st w') = Some Scenario.photo
      /\ currentImageUrl (st w') = "blob:photo"
      /\ originalImageUrl (st w') = "blob:photo"
      /\ editHistory (st w') = []
      /\ currentHistoryIndex (st w') = -1
      /\ canUndo (st w') = false
      /\ canRedo (st w') = false
      /\ step w' (env, Undo) = w'
      /\ step w' (env, Redo) = w'
      /\ fetches (trace w') = fetches (trace w)
      /\ alerts (trace w') = alerts (trace w)).
Proof.
  split; [reflexivity|].
  exact (upload_starts_over (Scenario.editor Scenario.styled) (Scenario.editor Scenario.styled)
           (run (start 0) Scenario.edited) Scenario.photo [Cases.damaged] eq_refl).
Defined.

End ResultExtras.
